(** * Daily work automation: agents and orchestrator

    A shallow embedding of [Daily_Work_Automation/automate.py]: the four
    capability agents (email, calendar, meeting notes, notification) and
    the orchestrator that runs the daily pipeline and the reminder check.

    Conventions of the embedding.
    - A Python [str] is a [string]; one cell of the string stands for one
      character.  The icons of the source's literals are written as the
      source file has them.
    - A coroutine is a computation in the monad [M]: it reads and updates
      the state of the outside world, may raise, and emits the calls it
      makes to the logger, the chat provider and the document store.
    - The external collaborators (mail, calendar, documents, chat, text
      generation, the clock) are the fields of the class [Providers]; the
      functions of Python's standard library that the code calls
      ([json.loads], [datetime.fromisoformat], ...) are the fields of the
      class [PyLib].  Every statement holds for all of them.
    - [exn] ranges over the instances of Python's [Exception]; signals that
      are not ([KeyboardInterrupt], a task cancellation) are outside the
      model.
    - The agents are first modelled as [initialize] leaves them, each under
      its name in the registry; the start-up, the registry and [main] are
      modelled in [WithRegistry] over the class [Startup], and related to
      the former. *)

From Stdlib Require Import String Ascii List ZArith Lia Bool DecimalString.
Import ListNotations.
Local Open Scope string_scope.
Set Warnings "-register-all".

(** ** Python strings *)

Definition nl : string := String "010"%char EmptyString.

(** [s[:n]] *)
Definition slice_to (n : nat) (s : string) : string := substring 0 n s.

(** [s.replace(old, new)] for a one-character [old]. *)
Fixpoint replace (old : ascii) (new : string) (s : string) : string :=
  match s with
  | EmptyString => EmptyString
  | String c tl =>
      if Ascii.eqb c old then new ++ replace old new tl
      else String c (replace old new tl)
  end.

(** [sep.join(parts)] *)
Definition join (sep : string) (parts : list string) : string :=
  String.concat sep parts.

(** [str(n)] for an integer. *)
Definition str_of_Z (z : Z) : string := NilZero.string_of_int (Z.to_int z).
Definition str_of_nat (n : nat) : string := str_of_Z (Z.of_nat n).

(** [f"{x}"] for an optional string: [None] prints as the word. *)
Definition str_of_opt (o : option string) : string :=
  match o with Some s => s | None => "None" end.

(** [s] occurs in [t]. *)
Fixpoint contains (s t : string) : bool :=
  if prefix s t then true
  else match t with
       | EmptyString => false
       | String _ tl => contains s tl
       end.

(** Truth value of a string, a list, an optional string. *)
Definition truthy_str (s : string) : bool :=
  match s with EmptyString => false | _ => true end.
Definition truthy_list {A} (l : list A) : bool :=
  match l with [] => false | _ => true end.
Definition truthy_opt (o : option string) : bool :=
  match o with Some s => truthy_str s | None => false end.

(** [d.get(k, default)] on an optional field. *)
Definition get_or {A} (field : option A) (default : A) : A :=
  match field with Some v => v | None => default end.

(** ** Values returned by [json.loads] *)

Inductive pyval : Type :=
| PNone
| PBool (b : bool)
| PInt (n : Z)
| PFloat (repr : string)
| PStr (s : string)
| PList (l : list pyval)
| PDict (d : list (string * pyval)).

(** A dictionary is the list of its items; [assoc] reads the value of a
    key. *)
Fixpoint assoc {A} (k : string) (d : list (string * A)) : option A :=
  match d with
  | [] => None
  | (k', v) :: tl => if String.eqb k k' then Some v else assoc k tl
  end.

(** [d.get(k, default)] on a parsed object. *)
Definition dict_get (d : list (string * pyval)) (k : string) (default : pyval)
  : pyval := get_or (assoc k d) default.

(** [v == s] for a string literal [s]. *)
Definition eq_str (v : pyval) (s : string) : bool :=
  match v with PStr t => String.eqb t s | _ => false end.

(** [type(v).__name__] *)
Definition type_name (v : pyval) : string :=
  match v with
  | PNone => "NoneType"
  | PBool _ => "bool"
  | PInt _ => "int"
  | PFloat _ => "float"
  | PStr _ => "str"
  | PList _ => "list"
  | PDict _ => "dict"
  end.

(** ** Exceptions *)

Inductive exn_class : Type :=
| SlackApiError | JSONDecodeError | KeyError | AttributeError
| TypeError | ValueError | OtherError.

Record exn : Type := Exn { exn_cls : exn_class; exn_str : string }.

Definition exn_class_eqb (a b : exn_class) : bool :=
  match a, b with
  | SlackApiError, SlackApiError | JSONDecodeError, JSONDecodeError
  | KeyError, KeyError | AttributeError, AttributeError
  | TypeError, TypeError | ValueError, ValueError
  | OtherError, OtherError => true
  | _, _ => false
  end.

Inductive outcome (A : Type) : Type :=
| Ret (a : A)
| Raise (e : exn).
Arguments Ret {A} a.
Arguments Raise {A} e.

(** [d[k]] on an optional field. *)
Definition getitem {A} (k : string) (field : option A) : outcome A :=
  match field with
  | Some v => Ret v
  | None => Raise (Exn KeyError ("'" ++ k ++ "'"))
  end.

Definition obind {A B} (o : outcome A) (f : A -> outcome B) : outcome B :=
  match o with Ret a => f a | Raise e => Raise e end.

(** The receiver of [v.get(...)]: only a dictionary has the method. *)
Definition as_dict (v : pyval) : outcome (list (string * pyval)) :=
  match v with
  | PDict d => Ret d
  | _ =>
      Raise (Exn AttributeError
        ("'" ++ type_name v ++ "' object has no attribute 'get'"))
  end.

(** The elements of [for x in v]. *)
Definition py_iter (v : pyval) : outcome (list pyval) :=
  match v with
  | PList l => Ret l
  | PStr s =>
      Ret (map (fun c => PStr (String c EmptyString)) (list_ascii_of_string s))
  | PDict d => Ret (map (fun kv => PStr (fst kv)) d)
  | _ =>
      Raise (Exn TypeError ("'" ++ type_name v ++ "' object is not iterable"))
  end.

Declare Scope out_scope.
Delimit Scope out_scope with out.
Notation "x <- c ;; k" := (obind c (fun x => k))
  (at level 100, c at next level, right associativity) : out_scope.

(** ** Observable calls *)

Inductive level : Type := INFO | ERROR.

Inductive effect : Type :=
| Log (lvl : level) (msg : string)
| PostMessage (channel text username : string)
| DocCreate (title : string)
| DocUpdate (documentId : option string) (text : string).

(** ** The monad of coroutines *)

Definition M (W A : Type) : Type := W -> outcome A * W * list effect.

Definition ret {W A} (a : A) : M W A := fun w => (Ret a, w, []).

Definition bind {W A B} (c : M W A) (k : A -> M W B) : M W B :=
  fun w =>
    match c w with
    | (Ret a, w1, t1) => let '(o, w2, t2) := k a w1 in (o, w2, (t1 ++ t2)%list)
    | (Raise e, w1, t1) => (Raise e, w1, t1)
    end.

Declare Scope py_scope.
Delimit Scope py_scope with py.
Notation "x <- c ;; k" := (bind c (fun x => k))
  (at level 100, c at next level, right associativity) : py_scope.
Notation "c ;; k" := (bind c (fun _ => k))
  (at level 100, right associativity) : py_scope.
Local Open Scope py_scope.

Definition lift {W A} (o : outcome A) : M W A := fun w => (o, w, []).

Definition emit {W} (e : effect) : M W unit := fun w => (Ret tt, w, [e]).

(** A call to an external collaborator. *)
Definition call {W A} (f : W -> outcome A * W) : M W A :=
  fun w => let '(o, w1) := f w in (o, w1, []).

(** [try: c  except <classes> as e: h e] *)
Definition try_except {W A} (catches : exn -> bool)
  (c : M W A) (h : exn -> M W A) : M W A :=
  fun w =>
    match c w with
    | (Ret a, w1, t1) => (Ret a, w1, t1)
    | (Raise e, w1, t1) =>
        if catches e
        then let '(o, w2, t2) := h e w1 in (o, w2, (t1 ++ t2)%list)
        else (Raise e, w1, t1)
    end.

Definition Exception : exn -> bool := fun _ => true.
Definition only (c : exn_class) : exn -> bool :=
  fun e => exn_class_eqb (exn_cls e) c.

(** A reading of the clock. *)
Definition read {W A} (f : W -> A * W) : M W A :=
  fun w => let '(a, w1) := f w in (Ret a, w1, []).

Definition logger_error {W} (msg : string) : M W unit := emit (Log ERROR msg).
Definition logger_info {W} (msg : string) : M W unit := emit (Log INFO msg).

(** The value, the final world and the calls of a run. *)
Definition value {W A} (r : outcome A * W * list effect) : outcome A :=
  fst (fst r).
Definition world {W A} (r : outcome A * W * list effect) : W := snd (fst r).
Definition calls {W A} (r : outcome A * W * list effect) : list effect := snd r.

(** The messages handed to the chat provider, in order. *)
Fixpoint posts (t : list effect) : list string :=
  match t with
  | [] => []
  | PostMessage _ text _ :: tl => text :: posts tl
  | _ :: tl => posts tl
  end.

(** ** Dates and times *)

(** A [datetime]: the wall-clock reading, in microseconds from
    1970-01-01T00:00:00 on that clock, and the offset from UTC of its
    [tzinfo], in microseconds, when it has one. *)
Record datetime : Type := Datetime { wall : Z; tzinfo : option Z }.

(** [datetime.min] and [datetime.max]: the first microsecond of the year 1
    and the last of the year 9999. *)
Definition datetime_min : Z := (-62135596800000000)%Z.
Definition datetime_max : Z := 253402300799999999%Z.

(** [timedelta(minutes=n)], in microseconds. *)
Definition minutes (n : Z) : Z := (n * 60000000)%Z.

(** [a - b]: between two readings of one zone (or two naive readings) the
    difference of the wall clocks; between two zones the difference of the
    instants; a naive and an aware reading do not subtract. *)
Definition dt_sub (a b : datetime) : outcome Z :=
  match tzinfo a, tzinfo b with
  | None, None => Ret (wall a - wall b)%Z
  | Some oa, Some ob => Ret ((wall a - oa) - (wall b - ob))%Z
  | _, _ =>
      Raise (Exn TypeError
        "can't subtract offset-naive and offset-aware datetimes")
  end.

(** [d + timedelta(hours=h)].  The span is built first: its days, [h]
    divided by 24 and rounded down, must fit a C [int] and be of magnitude
    at most 999999999; the sum must then be a date of the years 1 to 9999.
    Each failure is an [OverflowError], with the text that CPython gives
    it. *)
Definition add_hours (d : datetime) (h : Z) : outcome datetime :=
  (let days := h / 24 in
   if negb ((-2147483648 <=? days) && (days <=? 2147483647)) then
     Raise (Exn OtherError "Python int too large to convert to C int")
   else if 999999999 <? Z.abs days then
     Raise (Exn OtherError
              ("days=" ++ str_of_Z days
               ++ "; must have magnitude <= 999999999"))
   else
     let sum := wall d + h * 3600000000 in
     if (datetime_min <=? sum) && (sum <=? datetime_max)
     then Ret (Datetime sum (tzinfo d))
     else Raise (Exn OtherError "date value out of range"))%Z.

(** [d.replace(tzinfo=tz)] *)
Definition replace_tzinfo (d : datetime) (tz : option Z) : datetime :=
  Datetime (wall d) tz.

(** [int(delta.total_seconds() // 60)]: the whole minutes of a span.  The
    source divides floats; for the spans of the reminder window, far below
    2^53 microseconds, the quotient has this integer part. *)
Definition whole_minutes (delta : Z) : Z := (delta / 60000000)%Z.

(** ** Records of the data model *)

Record EmailSummary : Type := {
  sender : string;
  subject : string;
  summary : pyval;
  priority : pyval;
  action_required : pyval;
  meeting_info : pyval
}.

Record MeetingNote : Type := {
  meeting_id : string;
  note_title : string;
  date : datetime;
  participants : list string;
  note_summary : pyval;
  action_items : pyval;
  key_decisions : pyval
}.

(** The dictionary that [CalendarAgent._analyze_meeting] builds. *)
Record MeetingRecord : Type := {
  id_ : string;
  title : string;
  start_time : option string;
  attendees : list string;
  description : string;
  analysis : string;
  meet_link : option string
}.

(** ** What the providers return

    A key that the code reads with [d[k]] or [d.get(k)] is an optional
    field: [None] when the dictionary has no such key. *)

(** An entry of the listing of unread messages: the id of the message,
    which the loop of [EmailAgent.execute] reads with [message['id']]. *)
Record MessageRef : Type := { ref_id : option string }.
Record MessageList : Type := { messages : option (list MessageRef) }.

Record Header : Type := { h_name : option string; h_value : option string }.
Record Body : Type := { data : option string }.
Record Part : Type := { part_mimeType : option string; part_body : option Body }.
Record Payload : Type := {
  headers : option (list Header);
  parts : option (list Part);
  mimeType : option string;
  body : option Body
}.
Record Message : Type := { payload : option Payload }.

Record EventStart : Type := { dateTime : option string; date_ : option string }.
Record Attendee : Type := { email : option string }.
Record EntryPoint : Type := {
  entryPointType : option string;
  uri : option string
}.
Record ConferenceData : Type := { entryPoints : option (list EntryPoint) }.
Record CalendarEvent : Type := {
  ev_id : option string;
  ev_summary : option string;
  ev_start : option EventStart;
  ev_attendees : option (list Attendee);
  ev_description : option string;
  conferenceData : option ConferenceData
}.
Record EventList : Type := { items : option (list CalendarEvent) }.

Record Document : Type := { documentId : option string }.
Record SlackResponse : Type := { ts : option string }.

(** The [meeting_info] dictionary handed to the notes agent. *)
Record MeetingInfo : Type := {
  mi_id : option string;
  mi_title : option string;
  mi_attendees : option (list string)
}.

(** ** Collaborators *)

(** Functions of the standard library. *)
Class PyLib : Type := {
  (** [json.loads] *)
  json_loads : string -> outcome pyval;
  (** [base64.urlsafe_b64decode(data).decode('utf-8')] *)
  urlsafe_b64decode_utf8 : string -> outcome string;
  (** [datetime.fromisoformat] *)
  fromisoformat : string -> outcome datetime;
  (** [d.isoformat()] *)
  isoformat : datetime -> string;
  (** [d.strftime(format)] *)
  strftime : datetime -> string -> string;
  (** [repr] of a float, a list or a dictionary *)
  repr : pyval -> string
}.

(** [str(v)] *)
Definition str_ `{PyLib} (v : pyval) : string :=
  match v with
  | PStr s => s
  | PNone => "None"
  | PBool true => "True"
  | PBool false => "False"
  | PInt n => str_of_Z n
  | _ => repr v
  end.

(** The external services, each a transition of the outside world [W]. *)
Class Providers (W : Type) : Type := {
  (** text generation: [chat_completion] with a system and a user message *)
  chat_completion : string -> string -> W -> outcome string * W;
  (** mail: [messages().list(userId='me', q='is:unread', maxResults=n)] *)
  messages_list : Z -> W -> outcome MessageList * W;
  (** mail: [messages().get(userId='me', id=i)] *)
  messages_get : string -> W -> outcome Message * W;
  (** calendar: [events().list] between [timeMin] and [timeMax] *)
  events_list : string -> string -> W -> outcome EventList * W;
  (** documents: [documents().create] with a title *)
  documents_create : string -> W -> outcome Document * W;
  (** documents: [documents().batchUpdate] inserting one text *)
  documents_batchUpdate : option string -> string -> W -> outcome unit * W;
  (** chat: [chat_postMessage(channel, text, username)] *)
  chat_postMessage : string -> string -> string -> W
                     -> outcome SlackResponse * W;
  (** [datetime.now()] and [datetime.utcnow()] *)
  datetime_now : W -> datetime * W;
  datetime_utcnow : W -> datetime * W
}.

(** [for x in items: r = await body(x); if r: acc.append(r)], for a body
    that returns a record or [None]: a record is true. *)
Fixpoint for_collect {W A B} (body : A -> M W (option B)) (items : list A)
  (acc : list B) : M W (list B) :=
  match items with
  | [] => ret acc
  | x :: tl =>
      r <- body x ;;
      for_collect body tl
        (match r with Some v => (acc ++ [v])%list | None => acc end)
  end.

(** [for x in items: await body(x)] *)
Fixpoint for_each {W A} (body : A -> M W unit) (items : list A) : M W unit :=
  match items with
  | [] => ret tt
  | x :: tl => body x ;; for_each body tl
  end.

(** ** BaseAgent *)

Module BaseAgent.
Section WithProviders.
Context {W : Type} `{PyLib} `{Providers W}.

Definition get_llm_response (prompt system_prompt : string) : M W string :=
  try_except Exception
    (call (chat_completion system_prompt prompt))
    (fun e =>
       logger_error ("LLM request failed: " ++ exn_str e) ;;
       ret "").

End WithProviders.
End BaseAgent.

(** ** EmailAgent *)

Module EmailAgent.
Section WithProviders.
Context {W : Type} `{PyLib} `{Providers W}.

Definition _decode_base64 (data : string) : outcome string :=
  urlsafe_b64decode_utf8 data.

(** [next((h['value'] for h in headers if h['name'] == key), '')] *)
Fixpoint next_header (key : string) (hs : list Header) : outcome string :=
  match hs with
  | [] => Ret ""
  | h :: tl =>
      (name <- getitem "name" (h_name h) ;;
       if name =? key then getitem "value" (h_value h)
       else next_header key tl)%out
  end.

(** The loop over [payload['parts']], left at the first plain-text part. *)
Fixpoint first_text_plain (ps : list Part) : outcome string :=
  match ps with
  | [] => Ret ""
  | part :: tl =>
      (mt <- getitem "mimeType" (part_mimeType part) ;;
       if mt =? "text/plain" then
         b <- getitem "body" (part_body part) ;;
         d <- getitem "data" (data b) ;;
         _decode_base64 d
       else first_text_plain tl)%out
  end.

Definition _extract_email_body (pl : Payload) : outcome string :=
  match parts pl with
  | Some ps => first_text_plain ps
  | None =>
      (mt <- getitem "mimeType" (mimeType pl) ;;
       if mt =? "text/plain" then
         b <- getitem "body" (body pl) ;;
         d <- getitem "data" (data b) ;;
         _decode_base64 d
       else Ret "")%out
  end.

Definition summary_prompt (subject sender body : string) : string :=
  nl ++ "            Subject: " ++ subject ++ nl ++
  "            From: " ++ sender ++ nl ++
  "            Content: " ++ slice_to 2000 body ++
  "  # Truncate for token limits" ++ nl ++
  "            " ++ nl ++
  "            Please provide a concise summary and analysis." ++ nl ++
  "            ".

Definition system_prompt : string :=
  nl ++
  "            You are an email analysis assistant. For each email, provide:"
  ++ nl ++
  "            1. A brief summary (2-3 sentences)" ++ nl ++
  "            2. Priority level (High/Medium/Low)" ++ nl ++
  "            3. Whether action is required (Yes/No)" ++ nl ++
  "            4. If it mentions meetings, extract meeting details" ++ nl ++
  "            " ++ nl ++
  "            Format as JSON with keys: summary, priority, action_required, meeting_info"
  ++ nl ++ "            ".

(** The record built from a parsed response. *)
Definition parsed_summary (sender subject : string)
  (analysis : list (string * pyval)) : EmailSummary :=
  {| sender := sender;
     subject := subject;
     summary := dict_get analysis "summary" (PStr "");
     priority := dict_get analysis "priority" (PStr "Low");
     action_required := dict_get analysis "action_required" (PBool false);
     meeting_info := dict_get analysis "meeting_info" PNone |}.

(** The record built when the response does not parse. *)
Definition fallback_summary (sender subject response : string)
  : EmailSummary :=
  {| sender := sender;
     subject := subject;
     summary := PStr (slice_to 200 response);
     priority := PStr "Medium";
     action_required := PBool true;
     meeting_info := PNone |}.

Definition _process_email (message_id : string)
  : M W (option EmailSummary) :=
  try_except Exception
    (message <- call (messages_get message_id) ;;
     pl <- lift (getitem "payload" (payload message)) ;;
     let headers := get_or (headers pl) [] in
     subject <- lift (next_header "Subject" headers) ;;
     sender <- lift (next_header "From" headers) ;;
     body <- lift (_extract_email_body pl) ;;
     response <-
       BaseAgent.get_llm_response (summary_prompt subject sender body)
         system_prompt ;;
     try_except (only JSONDecodeError)
       (analysis <- lift (json_loads response) ;;
        d <- lift (as_dict analysis) ;;
        ret (Some (parsed_summary sender subject d)))
       (fun _ => ret (Some (fallback_summary sender subject response))))
    (fun e =>
       logger_error ("Email processing failed for " ++ message_id ++ ": "
                     ++ exn_str e) ;;
       ret None).

Definition execute (max_emails : Z) : M W (list EmailSummary) :=
  try_except Exception
    (results <- call (messages_list max_emails) ;;
     let messages := get_or (messages results) [] in
     for_collect
       (fun message =>
          message_id <- lift (getitem "id" (ref_id message)) ;;
          _process_email message_id)
       messages [])
    (fun e =>
       logger_error ("Email processing failed: " ++ exn_str e) ;;
       ret []).

End WithProviders.
End EmailAgent.

(** ** CalendarAgent *)

Module CalendarAgent.
Section WithProviders.
Context {W : Type} `{PyLib} `{Providers W}.

Definition opt_eqb (o : option string) (s : string) : bool :=
  match o with Some t => String.eqb t s | None => false end.

(** The loop over the entry points, left at the first video one. *)
Fixpoint first_video (entry_points : list EntryPoint) : option string :=
  match entry_points with
  | [] => None
  | entry :: tl =>
      if opt_eqb (entryPointType entry) "video" then uri entry
      else first_video tl
  end.

Definition _extract_meet_link (event : CalendarEvent) : option string :=
  let conference_data :=
    get_or (conferenceData event) {| entryPoints := None |} in
  let entry_points := get_or (entryPoints conference_data) [] in
  first_video entry_points.

Definition analysis_prompt (title description : string)
  (attendees : list Attendee) : string :=
  nl ++ "            Meeting: " ++ title ++ nl ++
  "            Description: " ++ description ++ nl ++
  "            Attendees: " ++ str_of_nat (length attendees) ++ " people"
  ++ nl ++
  "            " ++ nl ++
  "            Analyze this meeting's importance and suggest reminder timing."
  ++ nl ++ "            ".

Definition system_prompt : string :=
  nl ++
  "            Analyze meeting importance and provide JSON response with:"
  ++ nl ++
  "            - importance: High/Medium/Low" ++ nl ++
  "            - reminder_minutes: [15, 60, 1440] for different reminder times"
  ++ nl ++
  "            - preparation_needed: boolean" ++ nl ++
  "            - meeting_type: one-on-one/team/presentation/other" ++ nl ++
  "            ".

Definition _analyze_meeting (event : CalendarEvent)
  : M W (option MeetingRecord) :=
  try_except Exception
    (let title := get_or (ev_summary event) "No title" in
     start <- lift (getitem "start" (ev_start event)) ;;
     let start_time :=
       match dateTime start with Some d => Some d | None => date_ start end in
     let attendees := get_or (ev_attendees event) [] in
     let description := get_or (ev_description event) "" in
     analysis <-
       BaseAgent.get_llm_response
         (analysis_prompt title description attendees) system_prompt ;;
     i <- lift (getitem "id" (ev_id event)) ;;
     ret (Some {| id_ := i;
                  title := title;
                  start_time := start_time;
                  attendees := map (fun a => get_or (email a) "") attendees;
                  description := description;
                  analysis := analysis;
                  meet_link := _extract_meet_link event |}))
    (fun e =>
       logger_error ("Meeting analysis failed: " ++ exn_str e) ;;
       ret None).

Definition execute (hours_ahead : Z) : M W (list MeetingRecord) :=
  try_except Exception
    (now <- read datetime_utcnow ;;
     time_max <- lift (add_hours now hours_ahead) ;;
     events_result <-
       call (events_list (isoformat now ++ "Z") (isoformat time_max ++ "Z")) ;;
     let events := get_or (items events_result) [] in
     for_collect _analyze_meeting events [])
    (fun e =>
       logger_error ("Calendar processing failed: " ++ exn_str e) ;;
       ret []).

End WithProviders.
End CalendarAgent.

(** ** MeetingNotesAgent *)

Module MeetingNotesAgent.
Section WithProviders.
Context {W : Type} `{PyLib} `{Providers W}.

Definition bullet : string := "‚Ä¢".

Definition analysis_prompt (meeting_info : MeetingInfo)
  (meeting_transcript : string) : string :=
  nl ++ "            Meeting: "
  ++ get_or (mi_title meeting_info) "Unknown Meeting" ++ nl ++
  "            Transcript: " ++ meeting_transcript ++ nl ++
  "            " ++ nl ++
  "            Please analyze this meeting and provide structured notes."
  ++ nl ++ "            ".

Definition system_prompt : string :=
  nl ++
  "            Create structured meeting notes in JSON format with:" ++ nl ++
  "            - summary: Brief overview of the meeting" ++ nl ++
  "            - key_decisions: List of decisions made" ++ nl ++
  "            - action_items: List of action items with owners if mentioned"
  ++ nl ++
  "            - important_topics: Main topics discussed" ++ nl ++
  "            - next_steps: What happens next" ++ nl ++
  "            ".

(** [chr(10).join(f"<bullet> {x}" for x in v)] *)
Definition bullets (v : pyval) : outcome string :=
  (l <- py_iter v ;;
   Ret (join nl (map (fun x => bullet ++ " " ++ str_ x) l)))%out.

Definition doc_content (meeting_note : MeetingNote)
  (notes_data : list (string * pyval)) : outcome string :=
  (decisions <- bullets (key_decisions meeting_note) ;;
   actions <- bullets (action_items meeting_note) ;;
   topics <- bullets (dict_get notes_data "important_topics" (PList [])) ;;
   steps <- bullets (dict_get notes_data "next_steps" (PList [])) ;;
   Ret (nl ++ "MEETING NOTES" ++ nl ++ nl ++
        "Meeting: " ++ note_title meeting_note ++ nl ++
        "Date: " ++ strftime (date meeting_note) "%Y-%m-%d %H:%M" ++ nl ++
        "Participants: " ++ join ", " (participants meeting_note) ++ nl ++
        nl ++ "SUMMARY" ++ nl ++
        str_ (note_summary meeting_note) ++ nl ++
        nl ++ "KEY DECISIONS" ++ nl ++ decisions ++ nl ++
        nl ++ "ACTION ITEMS" ++ nl ++ actions ++ nl ++
        nl ++ "IMPORTANT TOPICS" ++ nl ++ topics ++ nl ++
        nl ++ "NEXT STEPS" ++ nl ++ steps ++ nl ++
        "            "))%out.

Definition _save_to_docs (meeting_note : MeetingNote)
  (notes_data : list (string * pyval)) : M W unit :=
  try_except Exception
    (let doc_title :=
       "Meeting Notes - " ++ note_title meeting_note ++ " - "
       ++ strftime (date meeting_note) "%Y-%m-%d" in
     emit (DocCreate doc_title) ;;
     doc <- call (documents_create doc_title) ;;
     let doc_id := documentId doc in
     content <- lift (doc_content meeting_note notes_data) ;;
     emit (DocUpdate doc_id content) ;;
     call (documents_batchUpdate doc_id content) ;;
     logger_info ("Meeting notes saved to Google Docs: "
                  ++ str_of_opt doc_id))
    (fun e => logger_error ("Failed to save to Google Docs: " ++ exn_str e)).

(** The dictionary used when the analysis does not parse. *)
Definition fallback_notes (analysis : string) : pyval :=
  PDict [("summary", PStr (slice_to 500 analysis));
         ("key_decisions", PList []);
         ("action_items", PList []);
         ("important_topics", PList []);
         ("next_steps", PList [])].

Definition execute (meeting_transcript : string) (meeting_info : MeetingInfo)
  : M W (option MeetingNote) :=
  try_except Exception
    (analysis <-
       BaseAgent.get_llm_response
         (analysis_prompt meeting_info meeting_transcript) system_prompt ;;
     notes_data <-
       try_except (only JSONDecodeError)
         (lift (json_loads analysis))
         (fun _ => ret (fallback_notes analysis)) ;;
     now <- read datetime_now ;;
     d <- lift (as_dict notes_data) ;;
     let meeting_note :=
       {| meeting_id := get_or (mi_id meeting_info) "";
          note_title := get_or (mi_title meeting_info) "";
          date := now;
          participants := get_or (mi_attendees meeting_info) [];
          note_summary := dict_get d "summary" (PStr "");
          action_items := dict_get d "action_items" (PList []);
          key_decisions := dict_get d "key_decisions" (PList []) |} in
     _save_to_docs meeting_note d ;;
     ret (Some meeting_note))
    (fun e =>
       logger_error ("Meeting notes processing failed: " ++ exn_str e) ;;
       ret None).

End WithProviders.
End MeetingNotesAgent.

(** ** NotificationAgent *)

Module NotificationAgent.
Section WithProviders.
Context {W : Type} `{PyLib} `{Providers W}.

Definition urgent_prefix : string := "üö® URGENT: ".

Definition execute (message : string) (channel : option string)
  (urgent : bool) : M W unit :=
  try_except (only SlackApiError)
    (let message := if urgent then urgent_prefix ++ message else message in
     let target :=
       if truthy_opt channel then get_or channel "" else "#general" in
     emit (PostMessage target message "AI Assistant") ;;
     response <- call (chat_postMessage target message "AI Assistant") ;;
     logger_info ("Notification sent to Slack: " ++ str_of_opt (ts response)))
    (fun e => logger_error ("Slack notification failed: " ++ exn_str e)).

End WithProviders.
End NotificationAgent.

(** ** AgenticWorkSystem

    The registry [self.agents] is the one that [initialize] builds: each of
    the four names holds its agent. *)

Module AgenticWorkSystem.
Section WithProviders.
Context {W : Type} `{PyLib} `{Providers W}.

Definition header : string := "üìã Daily Summary" ++ nl.

Definition emails_line (n : nat) : string :=
  "üìß Emails processed: " ++ str_of_nat n.

Definition high_priority_line (n : nat) : string :=
  "‚ö†Ô∏è High priority emails: " ++ str_of_nat n.

Definition meetings_line (n : nat) : string :=
  "üìÖ Upcoming meetings: " ++ str_of_nat n.

Definition meeting_line (meeting : MeetingRecord) : string :=
  "‚Ä¢ " ++ title meeting ++ " - " ++ str_of_opt (start_time meeting).

(** The parts of the digest, as [_send_daily_summary] collects them. *)
Definition summary_parts (emails : list EmailSummary)
  (meetings : list MeetingRecord) : list string :=
  let summary_parts := [header] in
  let summary_parts :=
    if truthy_list emails then
      let summary_parts :=
        (summary_parts ++ [emails_line (length emails)])%list in
      let high_priority :=
        filter (fun e => eq_str (priority e) "High") emails in
      if truthy_list high_priority then
        (summary_parts ++ [high_priority_line (length high_priority)])%list
      else summary_parts
    else summary_parts in
  if truthy_list meetings then
    ((summary_parts ++ [meetings_line (length meetings)])
       ++ map meeting_line (firstn 3 meetings))%list
  else summary_parts.

Definition _send_daily_summary (emails : list EmailSummary)
  (meetings : list MeetingRecord) : M W unit :=
  let summary_message := join nl (summary_parts emails meetings) in
  NotificationAgent.execute summary_message None false.

Definition reminder_msg (meeting : MeetingRecord) (delta : Z) : string :=
  let reminder_msg :=
    "üîî Reminder: '" ++ title meeting ++ "' starts in "
    ++ str_of_Z (whole_minutes delta) ++ " minutes" in
  if truthy_opt (meet_link meeting) then
    reminder_msg ++ nl ++ "Join: " ++ str_of_opt (meet_link meeting)
  else reminder_msg.

(** The body of the loop of [_schedule_meeting_reminders]. *)
Definition remind (meeting : MeetingRecord) : M W unit :=
  try_except Exception
    (text <-
       lift (match start_time meeting with
             | Some s => Ret s
             | None =>
                 Raise (Exn AttributeError
                   "'NoneType' object has no attribute 'replace'")
             end) ;;
     start_time <- lift (fromisoformat (replace "Z" "+00:00" text)) ;;
     local <- read datetime_now ;;
     let now := replace_tzinfo local (tzinfo start_time) in
     delta <- lift (dt_sub start_time now) ;;
     if (minutes 15 <=? delta)%Z && (delta <=? minutes 30)%Z then
       NotificationAgent.execute (reminder_msg meeting delta) None true
     else ret tt)
    (fun e =>
       logger_error ("Failed to schedule reminder for " ++ title meeting
                     ++ ": " ++ exn_str e)).

Definition _schedule_meeting_reminders (meetings : list MeetingRecord)
  : M W unit := for_each remind meetings.

Definition run_daily_workflow : M W unit :=
  try_except Exception
    (logger_info "Starting daily workflow..." ;;
     email_summaries <- EmailAgent.execute 10 ;;
     upcoming_meetings <- CalendarAgent.execute 24 ;;
     _send_daily_summary email_summaries upcoming_meetings ;;
     _schedule_meeting_reminders upcoming_meetings ;;
     logger_info "Daily workflow completed successfully")
    (fun e =>
       logger_error ("Daily workflow failed: " ++ exn_str e) ;;
       NotificationAgent.execute ("Daily workflow failed: " ++ exn_str e)
         None true).

Definition process_meeting_transcript (transcript : string)
  (meeting_info : MeetingInfo) : M W (option MeetingNote) :=
  try_except Exception
    (meeting_note <- MeetingNotesAgent.execute transcript meeting_info ;;
     match meeting_note with
     | Some note =>
         NotificationAgent.execute
           ("üìù Meeting notes completed for '" ++ note_title note
            ++ "' and saved to Google Docs") None false ;;
         ret (Some note)
     | None => ret None
     end)
    (fun e =>
       logger_error ("Meeting transcript processing failed: " ++ exn_str e) ;;
       ret None).

End WithProviders.
End AgenticWorkSystem.


(** * Vocabulary of the statements *)

(** A computation that never raises. *)
Definition returns {W A} (c : M W A) : Prop :=
  forall w, exists a, value (c w) = Ret a.

(** [batch body items w rs w' t]: running [body] on the items one after the
    other from the world [w] gives the individual results [rs], in the
    order of the items, ends in [w'] and makes the calls [t]. *)
Inductive batch {W A B} (body : A -> M W (option B))
  : list A -> W -> list (option B) -> W -> list effect -> Prop :=
| batch_nil : forall w, batch body [] w [] w []
| batch_cons : forall x xs w r w1 t1 rs w2 t2,
    body x w = (Ret r, w1, t1) ->
    batch body xs w1 rs w2 t2 ->
    batch body (x :: xs) w (r :: rs) w2 (t1 ++ t2)%list.

(** The results of the items that gave one. *)
Fixpoint somes {B} (rs : list (option B)) : list B :=
  match rs with
  | [] => []
  | Some v :: tl => v :: somes tl
  | None :: tl => somes tl
  end.

(** The reminder window, on the time left before the start. *)
Definition in_window (delta : Z) : Prop :=
  (minutes 15 <= delta <= minutes 30)%Z.

(** The time left before the start of a meeting as the reminder check
    reckons it, at a reading [now] of the local clock: the wall-clock time
    of the start, read in its own zone, minus the wall-clock time of the
    reading, whatever the zone of the machine.  There is none when the
    start time is missing or is not a timestamp. *)
Definition time_left `{PyLib} (meeting : MeetingRecord) (now : datetime)
  : option Z :=
  match start_time meeting with
  | Some text =>
      match fromisoformat (replace "Z" "+00:00" text) with
      | Ret start => Some (wall start - wall now)%Z
      | Raise _ => None
      end
  | None => None
  end.

(** The time from the instant of the reading [now] to the start of a
    meeting, on a machine whose local clock is [zone] ahead of UTC: a start
    with an offset is an instant, and so is the reading of the local clock;
    a start without an offset is a time of the local clock. *)
Definition real_time_left `{PyLib} (zone : Z) (meeting : MeetingRecord)
  (now : datetime) : option Z :=
  match start_time meeting with
  | Some text =>
      match fromisoformat (replace "Z" "+00:00" text) with
      | Ret start =>
          match tzinfo start with
          | Some offset => Some ((wall start - offset) - (wall now - zone))%Z
          | None => Some (wall start - wall now)%Z
          end
      | Raise _ => None
      end
  | None => None
  end.

(** The offset from UTC that the start time of a meeting is written in. *)
Definition start_offset `{PyLib} (meeting : MeetingRecord) : option Z :=
  match start_time meeting with
  | Some text =>
      match fromisoformat (replace "Z" "+00:00" text) with
      | Ret start => tzinfo start
      | Raise _ => None
      end
  | None => None
  end.

(** The number of summaries whose priority is the string [High]. *)
Fixpoint count_high (emails : list EmailSummary) : nat :=
  match emails with
  | [] => 0
  | e :: tl =>
      if eq_str (priority e) "High" then S (count_high tl) else count_high tl
  end.

(** The lines of the digest: the header, then a count line for each count
    that is not zero, then the first three meetings. *)
Definition digest_lines (emails : list EmailSummary)
  (meetings : list MeetingRecord) : list string :=
  ([AgenticWorkSystem.header]
   ++ (match emails with
       | [] => []
       | _ => [AgenticWorkSystem.emails_line (length emails)]
       end)
   ++ (match count_high emails with
       | O => []
       | k => [AgenticWorkSystem.high_priority_line k]
       end)
   ++ (match meetings with
       | [] => []
       | _ => [AgenticWorkSystem.meetings_line (length meetings)]
       end)
   ++ map AgenticWorkSystem.meeting_line (firstn 3 meetings))%list.

(** A string without a line break. *)
Fixpoint one_line (s : string) : bool :=
  match s with
  | EmptyString => true
  | String c tl => negb (Ascii.eqb c "010"%char) && one_line tl
  end.

(** The text and the channel that [NotificationAgent.execute] hands to the
    chat provider. *)
Definition outgoing (message : string) (urgent : bool) : string :=
  if urgent then NotificationAgent.urgent_prefix ++ message else message.

Definition target (channel : option string) : string :=
  match channel with
  | Some (String c tl) => String c tl
  | _ => "#general"
  end.

(** The icon that opens a reminder. *)
Definition bell : string := "üîî".

Section Phases.
Context {W : Type} `{PyLib} `{Providers W}.

(** One turn of the loop of [EmailAgent.execute]: the id of the entry is
    read, then the message is processed. *)
Definition email_item (message : MessageRef) : M W (option EmailSummary) :=
  message_id <- lift (getitem "id" (ref_id message)) ;;
  EmailAgent._process_email message_id.

(** The steps of [CalendarAgent.execute] up to the listing of the events:
    the reading of the UTC clock, the end of the period, and the call. *)
Definition listed_events (hours_ahead : Z) (w : W) : outcome EventList * W :=
  let '(now, w0) := datetime_utcnow w in
  match add_hours now hours_ahead with
  | Ret time_max =>
      events_list (isoformat now ++ "Z") (isoformat time_max ++ "Z") w0
  | Raise e => (Raise e, w0)
  end.

(** The steps of [EmailAgent._process_email] up to the answer of the
    Gateway: the sender, the subject and the raw response. *)
Definition gateway_response (message_id : string)
  : M W (string * string * string) :=
  message <- call (messages_get message_id) ;;
  pl <- lift (getitem "payload" (payload message)) ;;
  let headers := get_or (headers pl) [] in
  subject <- lift (EmailAgent.next_header "Subject" headers) ;;
  sender <- lift (EmailAgent.next_header "From" headers) ;;
  body <- lift (EmailAgent._extract_email_body pl) ;;
  response <-
    BaseAgent.get_llm_response
      (EmailAgent.summary_prompt subject sender body)
      EmailAgent.system_prompt ;;
  ret (sender, subject, response).

(** The steps of [MeetingNotesAgent.execute] up to the note it builds,
    before the note is saved. *)
Definition drafted_note (meeting_transcript : string)
  (meeting_info : MeetingInfo)
  : M W (MeetingNote * list (string * pyval)) :=
  analysis <-
    BaseAgent.get_llm_response
      (MeetingNotesAgent.analysis_prompt meeting_info meeting_transcript)
      MeetingNotesAgent.system_prompt ;;
  notes_data <-
    try_except (only JSONDecodeError)
      (lift (json_loads analysis))
      (fun _ => ret (MeetingNotesAgent.fallback_notes analysis)) ;;
  now <- read datetime_now ;;
  d <- lift (as_dict notes_data) ;;
  ret ({| meeting_id := get_or (mi_id meeting_info) "";
          note_title := get_or (mi_title meeting_info) "";
          date := now;
          participants := get_or (mi_attendees meeting_info) [];
          note_summary := dict_get d "summary" (PStr "");
          action_items := dict_get d "action_items" (PList []);
          key_decisions := dict_get d "key_decisions" (PList []) |}, d).

End Phases.

(** * Vocabulary of the further properties *)

Section Fetch.
Context {W : Type} `{PyLib} `{Providers W}.

(** The steps of [EmailAgent._process_email] before the Gateway is asked:
    the sender, the subject and the body of the message. *)
Definition fetched_email (message_id : string)
  : M W (string * string * string) :=
  message <- call (messages_get message_id) ;;
  pl <- lift (getitem "payload" (payload message)) ;;
  let headers := get_or (headers pl) [] in
  subject <- lift (EmailAgent.next_header "Subject" headers) ;;
  sender <- lift (EmailAgent.next_header "From" headers) ;;
  body <- lift (EmailAgent._extract_email_body pl) ;;
  ret (sender, subject, body).

End Fetch.

(** A part of a message that says its type, and the type is not plain
    text. *)
Definition other_type (p : Part) : Prop :=
  exists mt, part_mimeType p = Some mt /\ mt <> "text/plain".

(** A header that says its name, and the name is not [key]. *)
Definition other_name (key : string) (h : Header) : Prop :=
  exists n, h_name h = Some n /\ n <> key.

(** An entry point that is not a video one. *)
Definition not_video (e : EntryPoint) : Prop :=
  entryPointType e <> Some "video".

(** The values that a [for] loop can run over. *)
Definition iterable (v : pyval) : bool :=
  match v with
  | PList _ | PStr _ | PDict _ => true
  | _ => false
  end.

(** The notice that [process_meeting_transcript] sends for a note. *)
Definition completion_notice (note : MeetingNote) : string :=
  "üìù Meeting notes completed for '" ++ note_title note
  ++ "' and saved to Google Docs".

(** The title of the document of a note. *)
Definition doc_title_of `{PyLib} (note : MeetingNote) : string :=
  "Meeting Notes - " ++ note_title note ++ " - "
  ++ strftime (date note) "%Y-%m-%d".

(** * Start-up and the registry of agents

    The orchestrator object: its four attributes, the start-up that fills
    them, and the methods with the look-ups in [self.agents] that the
    sections above take for granted.  A computation on the object runs in
    the monad [M] over the pair of the object and the outside world, so
    that an attribute set before an exception stays set. *)

(** The [config] dictionary. *)
Record Config : Type := {
  llama_stack_url : option string;
  google_credentials : option string;
  slack_token : option string
}.

(** OAuth credentials, as far as the start-up looks at them: the
    properties [valid] and [expired], the refresh token and the text of
    [to_json()]. *)
Record Credentials : Type := {
  valid : bool;
  expired : bool;
  refresh_token : option string;
  to_json : string
}.

(** The handles that the constructors of the client libraries return. *)
Record LlamaClient : Type := { base_url : string }.
Record SlackClient : Type := { token : string }.
Record Service : Type := {
  service_name : string;
  service_version : string;
  credentials : Credentials
}.
Record Flow : Type := { client_secrets : string; flow_scopes : list string }.

(** The dictionary [self.agents] once it is filled: each agent with the
    handles it was built from.  The dictionary is assigned as a whole, so
    that it is empty ([None] below) or has the four names. *)
Record Agents : Type := {
  email_agent : option LlamaClient * Service;
  calendar_agent : option LlamaClient * Service;
  notes_agent : option LlamaClient * Service;
  notification_agent : option LlamaClient * option SlackClient
}.

Record System : Type := {
  llama_client : option LlamaClient;
  agents : option Agents;
  google_services : list (string * Service);
  slack_client : option SlackClient
}.

(** The names of a filled registry. *)
Definition registered (name : string) : bool :=
  existsb (String.eqb name) ["email"; "calendar"; "notes"; "notification"].

(** [AgenticWorkSystem()] *)
Definition new_system : System :=
  {| llama_client := None; agents := None; google_services := [];
     slack_client := None |}.

(** What the start-up calls outside the program. *)
Class Startup (W : Type) : Type := {
  (** whether the module global [os] is bound: the file imports [os] only
      under [if __name__ == "__main__"] *)
  os_module : bool;
  (** [os.path.exists(path)] *)
  os_path_exists : string -> W -> bool * W;
  (** [Credentials.from_authorized_user_file(path, scopes)] *)
  from_authorized_user_file : string -> list string -> W
                              -> outcome Credentials * W;
  (** [creds.refresh(Request())]: the credentials after the refresh *)
  refresh : Credentials -> W -> outcome Credentials * W;
  (** [InstalledAppFlow.from_client_secrets_file(path, scopes)] *)
  from_client_secrets_file : string -> list string -> W -> outcome Flow * W;
  (** [flow.run_local_server(port=0)] *)
  run_local_server : Flow -> W -> outcome Credentials * W;
  (** [with open(path, 'w') as f: f.write(text)] *)
  write_text : string -> string -> W -> outcome unit * W;
  (** [build(name, version, credentials=creds)] *)
  build : string -> string -> Credentials -> W -> outcome Service * W;
  (** [LlamaStackClient(base_url=url)] *)
  new_llama_client : string -> W -> outcome LlamaClient * W;
  (** [WebClient(token=t)] *)
  new_web_client : string -> W -> outcome SlackClient * W
}.

(** [self], an assignment to an attribute of [self], and a computation of
    the outside world run from a method. *)
Definition self_ {W} : M (System * W) System :=
  fun sw => (Ret (fst sw), sw, []).

Definition assign {W} (f : System -> System) : M (System * W) unit :=
  fun sw => (Ret tt, (f (fst sw), snd sw), []).

Definition outside {W A} (c : M W A) : M (System * W) A :=
  fun sw => let '(o, w, t) := c (snd sw) in (o, (fst sw, w), t).

(** [raise e] *)
Definition throw {W A} (e : exn) : M W A := lift (Raise e).

Module WithRegistry.
Section WithProviders.
Context {W : Type} `{PyLib} `{Providers W} `{Startup W}.

Definition SCOPES : list string :=
  ["https://www.googleapis.com/auth/gmail.readonly";
   "https://www.googleapis.com/auth/calendar";
   "https://www.googleapis.com/auth/documents"].

(** The end of [_setup_google_services]: the three services, then the
    assignment of the dictionary. *)
Definition build_services (creds : Credentials) : M (System * W) unit :=
  gmail <- outside (call (build "gmail" "v1" creds)) ;;
  calendar <- outside (call (build "calendar" "v3" creds)) ;;
  docs <- outside (call (build "docs" "v1" creds)) ;;
  assign (fun self =>
            {| llama_client := llama_client self;
               agents := agents self;
               google_services :=
                 [("gmail", gmail); ("calendar", calendar); ("docs", docs)];
               slack_client := slack_client self |}).

Definition _setup_google_services (credentials_path : string)
  : M (System * W) unit :=
  found <-
    (if os_module then outside (read (os_path_exists "token.json"))
     else throw (Exn OtherError "name 'os' is not defined")) ;;
  creds <-
    (if found : bool then
       c <- outside (call (from_authorized_user_file "token.json" SCOPES)) ;;
       ret (Some c)
     else ret None) ;;
  creds <-
    (match creds with
     | Some c =>
         if valid c then ret c
         else
           c' <-
             (if expired c && truthy_opt (refresh_token c)
              then outside (call (refresh c))
              else
                flow <-
                  outside (call (from_client_secrets_file credentials_path
                                   SCOPES)) ;;
                outside (call (run_local_server flow))) ;;
           outside (call (write_text "token.json" (to_json c'))) ;;
           ret c'
     | None =>
         flow <-
           outside (call (from_client_secrets_file credentials_path SCOPES)) ;;
         c' <- outside (call (run_local_server flow)) ;;
         outside (call (write_text "token.json" (to_json c'))) ;;
         ret c'
     end) ;;
  build_services creds.

(** [self.google_services[name]] *)
Definition service (name : string) : M (System * W) Service :=
  self <- self_ ;;
  lift (getitem name (assoc name (google_services self))).

Definition initialize (config : Config) : M (System * W) unit :=
  try_except Exception
    (client <-
       outside (call (new_llama_client
                        (get_or (llama_stack_url config)
                           "http://localhost:5000"))) ;;
     assign (fun self =>
               {| llama_client := Some client;
                  agents := agents self;
                  google_services := google_services self;
                  slack_client := slack_client self |}) ;;
     path <- lift (getitem "google_credentials" (google_credentials config)) ;;
     _setup_google_services path ;;
     tok <- lift (getitem "slack_token" (slack_token config)) ;;
     slack <- outside (call (new_web_client tok)) ;;
     assign (fun self =>
               {| llama_client := llama_client self;
                  agents := agents self;
                  google_services := google_services self;
                  slack_client := Some slack |}) ;;
     gmail <- service "gmail" ;;
     calendar <- service "calendar" ;;
     docs <- service "docs" ;;
     assign (fun self =>
               {| llama_client := llama_client self;
                  agents :=
                    Some {| email_agent := (llama_client self, gmail);
                            calendar_agent := (llama_client self, calendar);
                            notes_agent := (llama_client self, docs);
                            notification_agent :=
                              (llama_client self, slack_client self) |};
                  google_services := google_services self;
                  slack_client := slack_client self |}) ;;
     logger_info "Agentic work system initialized successfully")
    (fun e =>
       logger_error ("System initialization failed: " ++ exn_str e) ;;
       throw e).

(** [self.agents[name]]: the look-up raises [KeyError] unless the name is
    in the registry; the agent found is the one that [initialize] put
    there, whose [execute] is the one of its section above. *)
Definition agent (name : string) : M (System * W) unit :=
  self <- self_ ;;
  lift (getitem name
          (match agents self with
           | Some _ => if registered name then Some tt else None
           | None => None
           end)).

Definition _send_daily_summary (emails : list EmailSummary)
  (meetings : list MeetingRecord) : M (System * W) unit :=
  let summary_message :=
    join nl (AgenticWorkSystem.summary_parts emails meetings) in
  agent "notification" ;;
  outside (NotificationAgent.execute summary_message None false).

(** The body of the loop of [_schedule_meeting_reminders]. *)
Definition remind (meeting : MeetingRecord) : M (System * W) unit :=
  try_except Exception
    (text <-
       lift (match start_time meeting with
             | Some s => Ret s
             | None =>
                 Raise (Exn AttributeError
                   "'NoneType' object has no attribute 'replace'")
             end) ;;
     start_time <- lift (fromisoformat (replace "Z" "+00:00" text)) ;;
     local <- outside (read datetime_now) ;;
     let now := replace_tzinfo local (tzinfo start_time) in
     delta <- lift (dt_sub start_time now) ;;
     if (minutes 15 <=? delta)%Z && (delta <=? minutes 30)%Z then
       agent "notification" ;;
       outside (NotificationAgent.execute
                  (AgenticWorkSystem.reminder_msg meeting delta) None true)
     else ret tt)
    (fun e =>
       logger_error ("Failed to schedule reminder for " ++ title meeting
                     ++ ": " ++ exn_str e)).

Definition _schedule_meeting_reminders (meetings : list MeetingRecord)
  : M (System * W) unit := for_each remind meetings.

Definition run_daily_workflow : M (System * W) unit :=
  try_except Exception
    (logger_info "Starting daily workflow..." ;;
     agent "email" ;;
     email_summaries <- outside (EmailAgent.execute 10) ;;
     agent "calendar" ;;
     upcoming_meetings <- outside (CalendarAgent.execute 24) ;;
     _send_daily_summary email_summaries upcoming_meetings ;;
     _schedule_meeting_reminders upcoming_meetings ;;
     logger_info "Daily workflow completed successfully")
    (fun e =>
       logger_error ("Daily workflow failed: " ++ exn_str e) ;;
       agent "notification" ;;
       outside (NotificationAgent.execute
                  ("Daily workflow failed: " ++ exn_str e) None true)).

Definition process_meeting_transcript (transcript : string)
  (meeting_info : MeetingInfo) : M (System * W) (option MeetingNote) :=
  try_except Exception
    (agent "notes" ;;
     meeting_note <-
       outside (MeetingNotesAgent.execute transcript meeting_info) ;;
     match meeting_note with
     | Some note =>
         agent "notification" ;;
         outside (NotificationAgent.execute (completion_notice note)
                    None false) ;;
         ret (Some note)
     | None => ret None
     end)
    (fun e =>
       logger_error ("Meeting transcript processing failed: " ++ exn_str e) ;;
       ret None).

Definition sample_transcript : string :=
  nl ++ "    Meeting started at 2:00 PM" ++ nl ++
  "    John: Let's review the project timeline" ++ nl ++
  "    Sarah: We need to finish the MVP by next Friday" ++ nl ++
  "    Mike: I'll handle the backend integration" ++ nl ++
  "    John: Great, let's set up a follow-up meeting for Thursday" ++ nl ++
  "    ".

Definition sample_meeting_info : MeetingInfo :=
  {| mi_id := Some "meeting123";
     mi_title := Some "Project Review";
     mi_attendees := Some ["john@company.com"; "sarah@company.com";
                           "mike@company.com"] |}.

Definition main_config : Config :=
  {| llama_stack_url := Some "http://localhost:5000";
     google_credentials := Some "path/to/google_credentials.json";
     slack_token := Some "your-slack-bot-token" |}.

(** [main()]: the value is the line it prints, if it prints one. *)
Definition main : M W (option string) :=
  fun w =>
    let body : M (System * W) (option string) :=
      initialize main_config ;;
      run_daily_workflow ;;
      meeting_note <-
        process_meeting_transcript sample_transcript sample_meeting_info ;;
      match meeting_note with
      | Some note =>
          ret (Some ("Meeting notes created: " ++ str_ (note_summary note)))
      | None => ret None
      end in
    let '(o, sw, t) := body (new_system, w) in (o, snd sw, t).

End WithProviders.
End WithRegistry.

(** The object [s] once the three services are assigned. *)
Definition installed (s : System) (gmail calendar docs : Service) : System :=
  {| llama_client := llama_client s;
     agents := agents s;
     google_services :=
       [("gmail", gmail); ("calendar", calendar); ("docs", docs)];
     slack_client := slack_client s |}.

(** The object after a start-up that went through. *)
Definition ready (client : LlamaClient) (slack : SlackClient)
  (gmail calendar docs : Service) : System :=
  {| llama_client := Some client;
     agents :=
       Some {| email_agent := (Some client, gmail);
               calendar_agent := (Some client, calendar);
               notes_agent := (Some client, docs);
               notification_agent := (Some client, Some slack) |};
     google_services :=
       [("gmail", gmail); ("calendar", calendar); ("docs", docs)];
     slack_client := Some slack |}.

(** What [main] does after the start-up. *)
Definition after_startup {W} `{PyLib} `{Providers W} : M W (option string) :=
  AgenticWorkSystem.run_daily_workflow ;;
  meeting_note <-
    AgenticWorkSystem.process_meeting_transcript
      WithRegistry.sample_transcript WithRegistry.sample_meeting_info ;;
  ret (match meeting_note with
       | Some note =>
           Some ("Meeting notes created: " ++ str_ (note_summary note))
       | None => None
       end).

(** A computation that leaves the object as it is and logs nothing. *)
Definition untouched {W A} (C : M (System * W) A) : Prop :=
  forall s w, exists o w', C (s, w) = (o, (s, w'), []).

(** * A sample deployment

    One instance of the collaborators, for worked examples: a mailbox of
    four unread messages, a calendar of four events, a clock that reads
    2024-01-15 10:00:00, and a chat provider and a document store that can
    be put out of service. *)

Module Demo.

Definition dq : string := String "034"%char EmptyString.

Definition digit (c : ascii) : option Z :=
  let n := Z.of_nat (nat_of_ascii c) in
  if ((48 <=? n) && (n <=? 57))%Z then Some (n - 48)%Z else None.

Fixpoint number (s : string) (acc : Z) : option Z :=
  match s with
  | EmptyString => Some acc
  | String c tl =>
      match digit c with
      | Some d => number tl (acc * 10 + d)%Z
      | None => None
      end
  end.

(** The number written in [len] digits from position [start]. *)
Definition field (start len : nat) (s : string) : option Z :=
  let f := substring start len s in
  if Nat.eqb (String.length f) len then number f 0 else None.

(** Days from 1970-01-01 to a date of the proleptic Gregorian calendar. *)
Definition days_from_civil (y m d : Z) : Z :=
  (let y' := if m <=? 2 then y - 1 else y in
   let era := y' / 400 in
   let yoe := y' - era * 400 in
   let doy := (153 * (if m >? 2 then m - 3 else m + 9) + 2) / 5 + d - 1 in
   let doe := yoe * 365 + yoe / 4 - yoe / 100 + doy in
   era * 146097 + doe - 719468)%Z.

(** The date of a day count, the inverse of [days_from_civil]. *)
Definition civil_from_days (z : Z) : Z * Z * Z :=
  (let z := z + 719468 in
   let era := z / 146097 in
   let doe := z - era * 146097 in
   let yoe := (doe - doe / 1460 + doe / 36524 - doe / 146096) / 365 in
   let doy := doe - (365 * yoe + yoe / 4 - yoe / 100) in
   let mp := (5 * doy + 2) / 153 in
   let d := doy - (153 * mp + 2) / 5 + 1 in
   let m := if mp <? 10 then mp + 3 else mp - 9 in
   (yoe + era * 400 + (if m <=? 2 then 1 else 0), m, d))%Z.

Definition usec_per_day : Z := 86400000000.

(** A reader of [YYYY-MM-DDTHH:MM:SS], with or without [+HH:MM]. *)
Definition sample_fromisoformat (s : string) : outcome datetime :=
  match field 0 4 s, field 5 2 s, field 8 2 s,
        field 11 2 s, field 14 2 s, field 17 2 s with
  | Some y, Some mo, Some d, Some h, Some mi, Some sec =>
      let w :=
        (days_from_civil y mo d * usec_per_day
         + ((h * 60 + mi) * 60 + sec) * 1000000)%Z in
      match substring 19 6 s with
      | EmptyString => Ret (Datetime w None)
      | String sign _ =>
          match field 20 2 s, field 23 2 s with
          | Some oh, Some om =>
              let off := ((oh * 60 + om) * 60000000)%Z in
              Ret (Datetime w
                     (Some (if Ascii.eqb sign "-"%char then (- off)%Z
                            else off)))
          | _, _ =>
              Raise (Exn ValueError ("Invalid isoformat string: '" ++ s ++ "'"))
          end
      end
  | _, _, _, _, _, _ =>
      Raise (Exn ValueError ("Invalid isoformat string: '" ++ s ++ "'"))
  end.

Definition pad (width : nat) (n : Z) : string :=
  let s := str_of_Z n in
  string_of_list_ascii (repeat "0"%char (width - String.length s)) ++ s.

Definition date_text (d : datetime) : string :=
  let '(y, m, dd) := civil_from_days (wall d / usec_per_day) in
  pad 4 y ++ "-" ++ pad 2 m ++ "-" ++ pad 2 dd.

Definition clock_text (d : datetime) (seconds : bool) : string :=
  let s := ((wall d mod usec_per_day) / 1000000)%Z in
  pad 2 (s / 3600) ++ ":" ++ pad 2 ((s / 60) mod 60)
  ++ (if seconds then ":" ++ pad 2 (s mod 60) else "").

Definition sample_isoformat (d : datetime) : string :=
  date_text d ++ "T" ++ clock_text d true.

Definition sample_strftime (d : datetime) (format : string) : string :=
  if format =? "%Y-%m-%d" then date_text d
  else if format =? "%Y-%m-%d %H:%M" then date_text d ++ " " ++ clock_text d false
  else format.

(** The answer of the Gateway for the first message. *)
Definition high_reply : string :=
  "{" ++ dq ++ "summary" ++ dq ++ ": " ++ dq ++ "Budget sign-off due today"
  ++ dq ++ ", " ++ dq ++ "priority" ++ dq ++ ": " ++ dq ++ "High" ++ dq ++ "}".

(** The answer of the Gateway for a transcript. *)
Definition notes_reply : string :=
  "{" ++ dq ++ "summary" ++ dq ++ ": " ++ dq ++ "Timeline reviewed" ++ dq
  ++ ", " ++ dq ++ "action_items" ++ dq ++ ": [" ++ dq ++ "Mike: backend"
  ++ dq ++ ", " ++ dq ++ "John: follow-up" ++ dq ++ "]}".

Definition plain_reply : string := "Sorry, I can only answer in prose.".

(** A decoder that knows the answers of this deployment. *)
Definition sample_json_loads (s : string) : outcome pyval :=
  if s =? high_reply then
    Ret (PDict [("summary", PStr "Budget sign-off due today");
                ("priority", PStr "High")])
  else if s =? notes_reply then
    Ret (PDict [("summary", PStr "Timeline reviewed");
                ("action_items",
                 PList [PStr "Mike: backend"; PStr "John: follow-up"])])
  else if s =? "{}" then Ret (PDict [])
  else if s =? "[]" then Ret (PList [])
  else Raise (Exn JSONDecodeError
                "Expecting value: line 1 column 1 (char 0)").

Definition sample_b64decode (s : string) : outcome string :=
  if s =? "QnVkZ2V0" then Ret "Budget"
  else if s =? "TmV3cw==" then Ret "News"
  else if s =? "THVuY2g=" then Ret "Lunch"
  else Raise (Exn ValueError "Incorrect padding").

Definition sample_repr (v : pyval) : string :=
  match v with
  | PFloat r => r
  | PList [] => "[]"
  | PDict [] => "{}"
  | PList _ => "[...]"
  | PDict _ => "{...}"
  | _ => ""
  end.

Definition lib : PyLib := {|
  json_loads := sample_json_loads;
  urlsafe_b64decode_utf8 := sample_b64decode;
  fromisoformat := sample_fromisoformat;
  isoformat := sample_isoformat;
  strftime := sample_strftime;
  repr := sample_repr
|}.

(** 2024-01-15 10:00:00, without a zone. *)
Definition now : datetime :=
  Datetime (days_from_civil 2024 1 15 * usec_per_day + 10 * 3600000000)%Z None.

Definition text_part (d : string) : Part :=
  {| part_mimeType := Some "text/plain";
     part_body := Some {| data := Some d |} |}.

Definition mail (from subj d : string) : Message :=
  {| payload := Some
       {| headers := Some [ {| h_name := Some "From"; h_value := Some from |};
                            {| h_name := Some "Subject"; h_value := Some subj |} ];
          parts := Some [ {| part_mimeType := Some "text/html";
                             part_body := None |};
                          text_part d ];
          mimeType := Some "multipart/alternative";
          body := None |} |}.

Definition mailbox (i : string) : outcome Message :=
  if i =? "m1" then Ret (mail "cfo@example.com" "Budget" "QnVkZ2V0")
  else if i =? "m2" then Ret (mail "news@example.com" "Weekly" "TmV3cw==")
  else if i =? "m3" then Ret {| payload := None |}
  else if i =? "m4" then Ret (mail "ann@example.com" "Lunch" "THVuY2g=")
  else Raise (Exn OtherError "HttpError 404: Requested entity was not found.").

(** The unread messages, the first [n] of them for [maxResults=n]. *)
Definition unread (n : Z) : MessageList :=
  {| messages :=
       Some (firstn (Z.to_nat n)
               [ {| ref_id := Some "m1" |}; {| ref_id := Some "m2" |};
                 {| ref_id := Some "m3" |}; {| ref_id := Some "m4" |} ]) |}.

Definition gateway (_ user : string) : outcome string :=
  if contains "Subject: Budget" user then Ret high_reply
  else if contains "Subject: Lunch" user then Ret "{}"
  else if contains "Transcript: " user then Ret notes_reply
  else Ret plain_reply.

Definition video (u : string) : ConferenceData :=
  {| entryPoints := Some [ {| entryPointType := Some "phone";
                               uri := Some "tel:+1-555-0100" |};
                            {| entryPointType := Some "video"; uri := Some u |} ] |}.

Definition calendar : list CalendarEvent :=
  [ {| ev_id := Some "e1"; ev_summary := Some "Standup";
       ev_start := Some {| dateTime := Some "2024-01-15T10:15:00";
                           date_ := None |};
       ev_attendees := Some [ {| email := Some "ann@example.com" |} ];
       ev_description := None; conferenceData := None |};
    {| ev_id := Some "e2"; ev_summary := Some "Broken";
       ev_start := None; ev_attendees := None;
       ev_description := None; conferenceData := None |};
    {| ev_id := Some "e3"; ev_summary := Some "Design review";
       ev_start := Some {| dateTime := Some "2024-01-15T10:20:00Z";
                           date_ := None |};
       ev_attendees := None; ev_description := Some "Quarterly";
       conferenceData := Some (video "https://meet.example.com/abc") |};
    {| ev_id := Some "e4"; ev_summary := Some "Lunch";
       ev_start := Some {| dateTime := Some "2024-01-15T12:00:00";
                           date_ := None |};
       ev_attendees := None; ev_description := None;
       conferenceData := None |} ].

Definition delivered : outcome SlackResponse :=
  Ret {| ts := Some "1705312800.000100" |}.
Definition channel_not_found : exn := Exn SlackApiError "channel_not_found".
Definition connection_refused : exn :=
  Exn OtherError "<urlopen error [Errno 111] Connection refused>".

(** The deployment over a chat provider that answers [chat text] to the
    send of [text], and a document store that is up or down; the world has
    no state of its own. *)
Definition env (chat : string -> outcome SlackResponse) (docs_up : bool)
  : Providers unit := {|
  chat_completion := fun s u w => (gateway s u, w);
  messages_list := fun n w => (Ret (unread n), w);
  messages_get := fun i w => (mailbox i, w);
  events_list := fun _ _ w => (Ret {| items := Some calendar |}, w);
  documents_create := fun _ w =>
    (if docs_up then Ret {| documentId := Some "doc-1" |}
     else Raise (Exn OtherError "HttpError 503: The service is unavailable."),
     w);
  documents_batchUpdate := fun _ _ w => (Ret tt, w);
  chat_postMessage := fun _ text _ w => (chat text, w);
  datetime_now := fun w => (now, w);
  datetime_utcnow := fun w => (now, w)
|}.

(** A deployment whose mail and calendar listings fail. *)
Definition offline : Providers unit := {|
  chat_completion := fun s u w => (gateway s u, w);
  messages_list := fun _ w =>
    (Raise (Exn OtherError "HttpError 401: Invalid Credentials"), w);
  messages_get := fun i w => (mailbox i, w);
  events_list := fun _ _ w =>
    (Raise (Exn OtherError "HttpError 401: Invalid Credentials"), w);
  documents_create := fun _ w => (Ret {| documentId := Some "doc-1" |}, w);
  documents_batchUpdate := fun _ _ w => (Ret tt, w);
  chat_postMessage := fun _ _ _ w => (delivered, w);
  datetime_now := fun w => (now, w);
  datetime_utcnow := fun w => (now, w)
|}.

(** Everything in service. *)
Definition office : Providers unit := env (fun _ => delivered) true.

(** The chat provider refuses every message. *)
Definition slack_down : Providers unit :=
  env (fun _ => Raise channel_not_found) true.

(** The chat provider cannot be reached. *)
Definition network_down : Providers unit :=
  env (fun _ => Raise connection_refused) true.

(** The chat provider cannot be reached for the digest only. *)
Definition flaky : Providers unit :=
  env (fun text => if contains "Daily Summary" text
                   then Raise connection_refused else delivered) true.

(** The document store is down. *)
Definition docs_down : Providers unit := env (fun _ => delivered) false.

(** The records that the agents build in this deployment. *)
Definition budget : EmailSummary :=
  {| sender := "cfo@example.com"; subject := "Budget";
     summary := PStr "Budget sign-off due today"; priority := PStr "High";
     action_required := PBool false; meeting_info := PNone |}.

Definition weekly : EmailSummary :=
  {| sender := "news@example.com"; subject := "Weekly";
     summary := PStr plain_reply; priority := PStr "Medium";
     action_required := PBool true; meeting_info := PNone |}.

Definition standup : MeetingRecord :=
  {| id_ := "e1"; title := "Standup";
     start_time := Some "2024-01-15T10:15:00";
     attendees := ["ann@example.com"]; description := "";
     analysis := plain_reply; meet_link := None |}.

Definition design_review : MeetingRecord :=
  {| id_ := "e3"; title := "Design review";
     start_time := Some "2024-01-15T10:20:00Z";
     attendees := []; description := "Quarterly";
     analysis := plain_reply;
     meet_link := Some "https://meet.example.com/abc" |}.

Definition invite : EmailSummary :=
  {| sender := "ann@example.com"; subject := "Lunch";
     summary := PStr ""; priority := PStr "Low";
     action_required := PBool false; meeting_info := PNone |}.

Definition lunch : MeetingRecord :=
  {| id_ := "e4"; title := "Lunch";
     start_time := Some "2024-01-15T12:00:00";
     attendees := []; description := "";
     analysis := plain_reply; meet_link := None |}.

Definition project_review : MeetingInfo :=
  {| mi_id := Some "meeting123"; mi_title := Some "Project Review";
     mi_attendees := Some ["john@company.com"; "sarah@company.com";
                           "mike@company.com"] |}.

Definition project_note : MeetingNote :=
  {| meeting_id := "meeting123"; note_title := "Project Review";
     date := now;
     participants := ["john@company.com"; "sarah@company.com";
                      "mike@company.com"];
     note_summary := PStr "Timeline reviewed";
     action_items := PList [PStr "Mike: backend"; PStr "John: follow-up"];
     key_decisions := PList [] |}.

End Demo.


(** * Further cases

    The deployment above with another text generation, two ways to start
    the program, and messages, events and notes for the cases that the
    office does not have. *)

Module Cases.

(** The office with [answer] for its text generation. *)
Definition with_gateway (answer : string -> string -> outcome string)
  : Providers unit := {|
  chat_completion := fun s u w => (answer s u, w);
  messages_list := fun n w => (Ret (Demo.unread n), w);
  messages_get := fun i w => (Demo.mailbox i, w);
  events_list := fun _ _ w => (Ret {| items := Some Demo.calendar |}, w);
  documents_create := fun _ w => (Ret {| documentId := Some "doc-1" |}, w);
  documents_batchUpdate := fun _ _ w => (Ret tt, w);
  chat_postMessage := fun _ _ _ w => (Demo.delivered, w);
  datetime_now := fun w => (Demo.now, w);
  datetime_utcnow := fun w => (Demo.now, w)
|}.

Definition gateway_timeout : exn := Exn OtherError "Request timed out.".

(** The text generation cannot be reached. *)
Definition gateway_down : Providers unit :=
  with_gateway (fun _ _ => Raise gateway_timeout).

(** The text generation answers in prose. *)
Definition prose : Providers unit :=
  with_gateway (fun _ _ => Ret Demo.plain_reply).

(** The text generation answers with an empty JSON list. *)
Definition listing : Providers unit := with_gateway (fun _ _ => Ret "[]").

(** The office with no unread mail and no event. *)
Definition quiet_day : Providers unit := {|
  chat_completion := fun s u w => (Demo.gateway s u, w);
  messages_list := fun _ w => (Ret {| messages := None |}, w);
  messages_get := fun i w => (Demo.mailbox i, w);
  events_list := fun _ _ w => (Ret {| items := Some [] |}, w);
  documents_create := fun _ w => (Ret {| documentId := Some "doc-1" |}, w);
  documents_batchUpdate := fun _ _ w => (Ret tt, w);
  chat_postMessage := fun _ _ _ w => (Demo.delivered, w);
  datetime_now := fun w => (Demo.now, w);
  datetime_utcnow := fun w => (Demo.now, w)
|}.

(** Credentials as they are stored after a first run. *)
Definition stored : Credentials :=
  {| valid := true; expired := false; refresh_token := Some "1//0gXyZ";
     to_json := "{}" |}.

(** A machine with a stored token, where every constructor succeeds; [os]
    is bound or not. *)
Definition machine (os : bool) : Startup unit := {|
  os_module := os;
  os_path_exists := fun _ w => (true, w);
  from_authorized_user_file := fun _ _ w => (Ret stored, w);
  refresh := fun c w => (Ret c, w);
  from_client_secrets_file := fun p scopes w =>
    (Ret {| client_secrets := p; flow_scopes := scopes |}, w);
  run_local_server := fun _ w => (Ret stored, w);
  write_text := fun _ _ w => (Ret tt, w);
  build := fun n v c w =>
    (Ret {| service_name := n; service_version := v; credentials := c |}, w);
  new_llama_client := fun u w => (Ret {| base_url := u |}, w);
  new_web_client := fun t w => (Ret {| token := t |}, w)
|}.

(** The file run as a script, and the file imported by another program. *)
Definition script : Startup unit := machine true.
Definition imported : Startup unit := machine false.

Definition service_of (n v : string) : Service :=
  {| service_name := n; service_version := v; credentials := stored |}.

(** The object after the start-up of the script. *)
Definition started : System :=
  ready {| base_url := "http://localhost:5000" |}
    {| token := "your-slack-bot-token" |}
    (service_of "gmail" "v1") (service_of "calendar" "v3")
    (service_of "docs" "v1").

Definition header_of (n v : string) : Header :=
  {| h_name := Some n; h_value := Some v |}.

Definition html_part : Part :=
  {| part_mimeType := Some "text/html"; part_body := None |}.

(** A message with two plain-text parts after one of another type. *)
Definition two_plain : Payload :=
  {| headers := Some [];
     parts := Some [html_part; Demo.text_part "QnVkZ2V0";
                    Demo.text_part "TmV3cw=="];
     mimeType := Some "multipart/mixed";
     body := None |}.

(** Messages without a plain-text part: one of parts of another type, one
    without parts, one without parts and without a type. *)
Definition html_only : Payload :=
  {| headers := Some []; parts := Some [html_part; html_part];
     mimeType := Some "multipart/alternative"; body := None |}.

Definition single_html : Payload :=
  {| headers := Some []; parts := None; mimeType := Some "text/html";
     body := Some {| data := Some "QnVkZ2V0" |} |}.

Definition untyped : Payload :=
  {| headers := Some []; parts := None; mimeType := None; body := None |}.

Definition event_with (i : option string) (start : option EventStart)
  (cd : option ConferenceData) : CalendarEvent :=
  {| ev_id := i; ev_summary := Some "Retro"; ev_start := start;
     ev_attendees := None; ev_description := None; conferenceData := cd |}.

Definition at_noon : EventStart :=
  {| dateTime := Some "2024-01-15T12:00:00"; date_ := None |}.

Definition phone : EntryPoint :=
  {| entryPointType := Some "phone"; uri := Some "tel:+1-555-0100" |}.

Definition video_at (u : option string) : EntryPoint :=
  {| entryPointType := Some "video"; uri := u |}.

(** The office with a listing of unread mail whose second entry has no
    id. *)
Definition torn : MessageList :=
  {| messages := Some [ {| ref_id := Some "m1" |}; {| ref_id := None |};
                        {| ref_id := Some "m2" |} ] |}.

Definition torn_listing : Providers unit := {|
  chat_completion := fun s u w => (Demo.gateway s u, w);
  messages_list := fun _ w => (Ret torn, w);
  messages_get := fun i w => (Demo.mailbox i, w);
  events_list := fun _ _ w => (Ret {| items := Some Demo.calendar |}, w);
  documents_create := fun _ w => (Ret {| documentId := Some "doc-1" |}, w);
  documents_batchUpdate := fun _ _ w => (Ret tt, w);
  chat_postMessage := fun _ _ _ w => (Demo.delivered, w);
  datetime_now := fun w => (Demo.now, w);
  datetime_utcnow := fun w => (Demo.now, w)
|}.

(** The zone of a machine whose local clock is UTC, and the offset of five
    and a half hours, in microseconds. *)
Definition utc : Z := 0.
Definition ahead_5h30 : Z := minutes 330.

(** Meetings whose start is written five and a half hours ahead of UTC.
    At 10:00 UTC the first starts in twenty minutes, the second in a
    quarter of an hour, and the third started 310 minutes ago. *)
Definition abroad (start : string) : MeetingRecord :=
  {| id_ := "e7"; title := "Sync"; start_time := Some start;
     attendees := []; description := ""; analysis := Demo.plain_reply;
     meet_link := None |}.

Definition in_twenty : MeetingRecord := abroad "2024-01-15T15:50:00+05:30".
Definition in_a_quarter : MeetingRecord := abroad "2024-01-15T15:45:00+05:30".
Definition long_over : MeetingRecord := abroad "2024-01-15T10:20:00+05:30".

(** A note whose action items came back as [null]. *)
Definition null_items : MeetingNote :=
  {| meeting_id := "meeting123"; note_title := "Project Review";
     date := Demo.now;
     participants := [];
     note_summary := PStr "Timeline reviewed";
     action_items := PNone;
     key_decisions := PList [] |}.

End Cases.


(** * Properties *)

(** ** Runs of the monad *)

Lemma bind_run {W A B} (c : M W A) (k : A -> M W B) w a w1 t1 :
  c w = (Ret a, w1, t1) ->
  bind c k w = (value (k a w1), world (k a w1), (t1 ++ calls (k a w1))%list).
Proof.
  intros E. unfold bind. rewrite E.
  destruct (k a w1) as [[o w2] t2]. reflexivity.
Qed.

Lemma bind_raise {W A B} (c : M W A) (k : A -> M W B) w e w1 t1 :
  c w = (Raise e, w1, t1) -> bind c k w = (Raise e, w1, t1).
Proof. intros E. unfold bind. now rewrite E. Qed.

Lemma run_eta {W A} (r : outcome A * W * list effect) :
  r = (value r, world r, calls r).
Proof. now destruct r as [[o w] t]. Qed.

Lemma try_except_ret {W A} catches (c : M W A) h w a w1 t1 :
  c w = (Ret a, w1, t1) -> try_except catches c h w = (Ret a, w1, t1).
Proof. intros E. unfold try_except. now rewrite E. Qed.

Lemma try_except_caught {W A} catches (c : M W A) h w e w1 t1 :
  c w = (Raise e, w1, t1) -> catches e = true ->
  try_except catches c h w
  = (value (h e w1), world (h e w1), (t1 ++ calls (h e w1))%list).
Proof.
  intros E C. unfold try_except. rewrite E, C.
  destruct (h e w1) as [[o w2] t2]. reflexivity.
Qed.

Lemma try_except_passed {W A} catches (c : M W A) h w e w1 t1 :
  c w = (Raise e, w1, t1) -> catches e = false ->
  try_except catches c h w = (Raise e, w1, t1).
Proof. intros E C. unfold try_except. now rewrite E, C. Qed.

(** Rewrites a [try] whose body raises [e] in the world [w] after the
    calls [t], when the handler takes [e]. *)
Ltac caught e w t :=
  match goal with
  | |- context [try_except ?p ?c ?h ?w0] =>
      let H := fresh in
      assert (H : c w0 = (Raise e, w, t));
      [ | rewrite (try_except_caught p c h w0 e w t H eq_refl); clear H ]
  end.

Lemma returns_ret {W A} (a : A) : returns (@ret W A a).
Proof. intros w. now exists a. Qed.

Lemma returns_bind {W A B} (c : M W A) (k : A -> M W B) :
  returns c -> (forall a, returns (k a)) -> returns (bind c k).
Proof.
  intros Hc Hk w. destruct (Hc w) as [a Ha].
  destruct (c w) as [[o w1] t1] eqn:E. cbn in Ha. subst o.
  rewrite (bind_run _ _ _ _ _ _ E). simpl. apply Hk.
Qed.

Lemma returns_emit {W} (e : effect) : returns (@emit W e).
Proof. intros w. now exists tt. Qed.

(** A handler for every exception that itself returns makes the whole
    [try] return. *)
Lemma returns_try {W A} (c : M W A) h :
  (forall e, returns (h e)) -> returns (try_except Exception c h).
Proof.
  intros Hh w. destruct (c w) as [[[a|e] w1] t1] eqn:E.
  - exists a. now rewrite (try_except_ret _ _ _ _ _ _ _ E).
  - rewrite (try_except_caught _ _ _ _ _ _ _ E eq_refl). simpl. apply Hh.
Qed.

Lemma returns_for_collect {W A B} (body : A -> M W (option B)) :
  (forall x, returns (body x)) ->
  forall xs acc, returns (for_collect body xs acc).
Proof.
  intros Hb. induction xs as [|x tl IH]; intros acc; simpl.
  - apply returns_ret.
  - apply returns_bind; [apply Hb | intros r; apply IH].
Qed.

Lemma returns_for_each {W A} (body : A -> M W unit) :
  (forall x, returns (body x)) -> forall xs, returns (for_each body xs).
Proof.
  intros Hb. induction xs as [|x tl IH]; simpl.
  - apply returns_ret.
  - apply returns_bind; [apply Hb | intros _; apply IH].
Qed.

Create HintDb returns.
#[local] Hint Resolve returns_ret returns_emit returns_bind returns_try
  returns_for_collect returns_for_each : returns.

(** ** Batches *)

Lemma somes_app {B} (rs1 rs2 : list (option B)) :
  somes (rs1 ++ rs2) = (somes rs1 ++ somes rs2)%list.
Proof.
  induction rs1 as [|[v|] tl IH]; simpl; trivial. now rewrite IH.
Qed.

(** Every batch has its list of individual results, when the body never
    raises. *)
Lemma batch_exists {W A B} (body : A -> M W (option B)) :
  (forall x, returns (body x)) ->
  forall xs w, exists rs w' t, batch body xs w rs w' t.
Proof.
  intros Hb. induction xs as [|x tl IH]; intros w.
  - exists [], w, []. constructor.
  - destruct (Hb x w) as [r Hr].
    destruct (body x w) as [[o w1] t1] eqn:E. cbn in Hr. subst o.
    destruct (IH w1) as (rs & w2 & t2 & Hrs).
    exists (r :: rs), w2, (t1 ++ t2)%list. econstructor; eassumption.
Qed.

(** The same for the items on which the body never raises. *)
Lemma batch_exists_on {W A B} (body : A -> M W (option B)) xs :
  Forall (fun x => returns (body x)) xs ->
  forall w, exists rs w' t, batch body xs w rs w' t.
Proof.
  induction 1 as [|x tl Hx _ IH]; intros w.
  - exists [], w, []. constructor.
  - destruct (Hx w) as [r Hr].
    destruct (body x w) as [[o w1] t1] eqn:E. cbn in Hr. subst o.
    destruct (IH w1) as (rs & w2 & t2 & Hrs).
    exists (r :: rs), w2, (t1 ++ t2)%list. econstructor; eassumption.
Qed.

Lemma batch_length {W A B} (body : A -> M W (option B)) xs w rs w' t :
  batch body xs w rs w' t -> length rs = length xs.
Proof. induction 1; simpl; congruence. Qed.

(** The loop returns the results of the items that gave one, after what
    it had collected, and nothing else. *)
Lemma for_collect_batch {W A B} (body : A -> M W (option B)) xs w rs w' t :
  batch body xs w rs w' t ->
  forall acc, for_collect body xs acc w = (Ret (acc ++ somes rs)%list, w', t).
Proof.
  induction 1 as [w|x tl w r w1 t1 rs w2 t2 Hx Hxs IH]; intros acc; simpl.
  - unfold ret. now rewrite app_nil_r.
  - rewrite (bind_run _ _ _ _ _ _ Hx), IH. simpl.
    destruct r; simpl; trivial. now rewrite <- app_assoc.
Qed.

(** The loop stops at the first item on which the body raises, after what
    the items before it did; what it had collected is lost. *)
Lemma for_collect_raise {W A B} (body : A -> M W (option B)) pre x post
  w rs w1 t1 e w2 t2 :
  batch body pre w rs w1 t1 ->
  body x w1 = (Raise e, w2, t2) ->
  forall acc,
    for_collect body (pre ++ x :: post) acc w
    = (Raise e, w2, (t1 ++ t2)%list).
Proof.
  induction 1 as [w|y tl w r w1 t1 rs w3 t3 Hy Hys IH]; intros Hx acc; simpl.
  - now rewrite (bind_raise _ _ _ _ _ _ Hx).
  - rewrite (bind_run _ _ _ _ _ _ Hy), (IH Hx). simpl.
    now rewrite app_assoc.
Qed.

(** The loop returns at most one result for each item. *)
Lemma for_collect_length {W A B} (body : A -> M W (option B)) xs :
  forall acc w l,
    value (for_collect body xs acc w) = Ret l ->
    length l <= length acc + length xs.
Proof.
  induction xs as [|x tl IH]; intros acc w l V; simpl in V.
  - injection V as <-. lia.
  - unfold bind in V.
    destruct (body x w) as [[[r|e] w1] t1]; [|discriminate].
    match type of V with
    | context [for_collect body tl ?a w1] =>
        specialize (IH a w1 l);
        destruct (for_collect body tl a w1) as [[o w2] t2]
    end.
    cbn in V, IH. specialize (IH V). simpl.
    destruct r; [rewrite length_app in IH; simpl in IH|]; lia.
Qed.

(** ** The agents never raise *)

Section Agents.
Context {W : Type} {lib : PyLib} {env : Providers W}.

Lemma returns_logged {A} (msg : string) (a : A) :
  returns (logger_error msg ;; ret a : M W A).
Proof. unfold logger_error. auto with returns. Qed.

Lemma returns_process_email (message_id : string) :
  returns (EmailAgent._process_email message_id).
Proof. apply returns_try. intros e. apply returns_logged. Qed.

Lemma returns_analyze_meeting (event : CalendarEvent) :
  returns (CalendarAgent._analyze_meeting event).
Proof. apply returns_try. intros e. apply returns_logged. Qed.

Lemma returns_email_execute (max_emails : Z) :
  returns (EmailAgent.execute max_emails).
Proof. apply returns_try. intros e. apply returns_logged. Qed.

Lemma returns_calendar_execute (hours_ahead : Z) :
  returns (CalendarAgent.execute hours_ahead).
Proof. apply returns_try. intros e. apply returns_logged. Qed.

Lemma returns_save_to_docs note notes_data :
  returns (MeetingNotesAgent._save_to_docs note notes_data).
Proof. apply returns_try. intros e. apply returns_emit. Qed.

Lemma returns_notes_execute transcript (info : MeetingInfo) :
  returns (MeetingNotesAgent.execute transcript info).
Proof. apply returns_try. intros e. apply returns_logged. Qed.

Lemma returns_remind (meeting : MeetingRecord) :
  returns (AgenticWorkSystem.remind meeting).
Proof. apply returns_try. intros e. apply returns_emit. Qed.

Lemma returns_schedule_meeting_reminders (meetings : list MeetingRecord) :
  returns (AgenticWorkSystem._schedule_meeting_reminders meetings).
Proof. apply returns_for_each, returns_remind. Qed.

(** ** The two batch agents *)

Lemma email_execute_fetch_failed max_emails w e w1 :
  messages_list max_emails w = (Raise e, w1) ->
  EmailAgent.execute max_emails w
  = (Ret [], w1, [Log ERROR ("Email processing failed: " ++ exn_str e)]).
Proof.
  intros E. unfold EmailAgent.execute.
  caught e w1 (@nil effect); [|reflexivity].
  apply bind_raise. unfold call. now rewrite E.
Qed.

(** One turn of the loop of the email agent, by the id of the entry. *)
Lemma email_item_run (message : MessageRef) message_id (w : W) :
  ref_id message = Some message_id ->
  email_item message w = EmailAgent._process_email message_id w.
Proof.
  intros I. unfold email_item, bind, lift. rewrite I. cbn.
  destruct (EmailAgent._process_email message_id w) as [[o w1] t1].
  reflexivity.
Qed.

Lemma email_item_no_id (message : MessageRef) (w : W) :
  ref_id message = None ->
  email_item message w = (Raise (Exn KeyError "'id'"), w, []).
Proof. intros I. unfold email_item, bind, lift. now rewrite I. Qed.

Lemma returns_email_item (message : MessageRef) :
  ref_id message <> None -> returns (email_item message).
Proof.
  intros I w. destruct (ref_id message) as [message_id|] eqn:R;
    [|contradiction].
  rewrite (email_item_run _ _ _ R). apply returns_process_email.
Qed.

Lemma email_execute_batch max_emails w listing w0 rs w' t :
  messages_list max_emails w = (Ret listing, w0) ->
  batch email_item (get_or (messages listing) []) w0 rs w' t ->
  EmailAgent.execute max_emails w = (Ret (somes rs), w', t).
Proof.
  intros E Hb. unfold EmailAgent.execute.
  apply try_except_ret.
  erewrite bind_run by (unfold call; now rewrite E).
  pose proof (for_collect_batch _ _ _ _ _ _ Hb []) as F.
  unfold email_item in F. now rewrite F.
Qed.

Lemma calendar_execute_fetch_failed hours_ahead w e w1 :
  listed_events hours_ahead w = (Raise e, w1) ->
  CalendarAgent.execute hours_ahead w
  = (Ret [], w1, [Log ERROR ("Calendar processing failed: " ++ exn_str e)]).
Proof.
  unfold listed_events. intros E.
  destruct (datetime_utcnow w) as [now w0] eqn:N.
  unfold CalendarAgent.execute.
  caught e w1 (@nil effect); [|reflexivity].
  unfold bind, read, lift, call. rewrite N.
  destruct (add_hours now hours_ahead) as [time_max|e'].
  - now rewrite E.
  - now injection E as <- <-.
Qed.

Lemma calendar_execute_batch hours_ahead w listing w1 rs w' t :
  listed_events hours_ahead w = (Ret listing, w1) ->
  batch CalendarAgent._analyze_meeting (get_or (items listing) []) w1 rs w' t ->
  CalendarAgent.execute hours_ahead w = (Ret (somes rs), w', t).
Proof.
  unfold listed_events. intros E Hb.
  destruct (datetime_utcnow w) as [now w0] eqn:N.
  unfold CalendarAgent.execute.
  apply try_except_ret.
  unfold bind at 1, read. rewrite N.
  unfold bind at 1, lift.
  destruct (add_hours now hours_ahead) as [time_max|e']; [|discriminate].
  erewrite bind_run by (unfold call; now rewrite E).
  now rewrite (for_collect_batch _ _ _ _ _ _ Hb).
Qed.


(** X30.  [EmailAgent.execute] and [CalendarAgent.execute] never raise.
    When the fetch of the listing fails, the call returns the empty list.
    When it succeeds (and, for the mail, every entry of the listing has an
    id), the call returns the individual results of the items, each as its
    own analysis returned it and in the order of the listing, without the
    items whose fetch or analysis failed: one failed item removes that item
    only. *)
Theorem X30_batch_isolation (max_emails hours_ahead : Z) (w : W) :
  (exists l, value (EmailAgent.execute max_emails w) = Ret l) /\
  match messages_list max_emails w with
  | (Raise e, w1) =>
      value (EmailAgent.execute max_emails w) = Ret []
  | (Ret listing, w0) =>
      let fetched := get_or (messages listing) [] in
      (Forall (fun message => ref_id message <> None) fetched ->
       exists rs w' t,
         batch email_item fetched w0 rs w' t /\
         EmailAgent.execute max_emails w = (Ret (somes rs), w', t)) /\
      (forall rs1 rs2 w' t,
          batch email_item fetched w0 (rs1 ++ None :: rs2) w' t ->
          value (EmailAgent.execute max_emails w)
          = Ret (somes rs1 ++ somes rs2)%list)
  end /\
  (exists l, value (CalendarAgent.execute hours_ahead w) = Ret l) /\
  match listed_events hours_ahead w with
  | (Raise e, w1) =>
      value (CalendarAgent.execute hours_ahead w) = Ret []
  | (Ret listing, w1) =>
      let fetched := get_or (items listing) [] in
      (exists rs w' t,
          batch CalendarAgent._analyze_meeting fetched w1 rs w' t /\
          CalendarAgent.execute hours_ahead w = (Ret (somes rs), w', t)) /\
      (forall rs1 rs2 w' t,
          batch CalendarAgent._analyze_meeting fetched w1
            (rs1 ++ None :: rs2) w' t ->
          value (CalendarAgent.execute hours_ahead w)
          = Ret (somes rs1 ++ somes rs2)%list)
  end.
Proof.
  split; [apply returns_email_execute|]. split.
  - destruct (messages_list max_emails w) as [[listing|e] w0] eqn:E.
    + split.
      * intros Ids.
        destruct (batch_exists_on email_item (get_or (messages listing) []))
          with (w := w0) as (rs & w' & t & Hb).
        { eapply Forall_impl; [|exact Ids].
          intros m. apply returns_email_item. }
        exists rs, w', t. split; [exact Hb|].
        exact (email_execute_batch _ _ _ _ _ _ _ E Hb).
      * intros rs1 rs2 w' t Hb.
        rewrite (email_execute_batch _ _ _ _ _ _ _ E Hb).
        cbn. now rewrite somes_app.
    + now rewrite (email_execute_fetch_failed _ _ _ _ E).
  - split; [apply returns_calendar_execute|].
    destruct (listed_events hours_ahead w) as [[listing|e] w1] eqn:E.
    + split.
      * destruct (batch_exists CalendarAgent._analyze_meeting
                    returns_analyze_meeting
                    (get_or (items listing) []) w1) as (rs & w' & t & Hb).
        exists rs, w', t. split; [exact Hb|].
        exact (calendar_execute_batch _ _ _ _ _ _ _ E Hb).
      * intros rs1 rs2 w' t Hb.
        rewrite (calendar_execute_batch _ _ _ _ _ _ _ E Hb).
        cbn. now rewrite somes_app.
    + now rewrite (calendar_execute_fetch_failed _ _ _ _ E).
Qed.

End Agents.

(** ** Strings *)

Lemma prefix_app (s t : string) : prefix s (s ++ t) = true.
Proof.
  induction s as [|c s IH]; simpl.
  - now destruct t.
  - destruct (ascii_dec c c); [exact IH | congruence].
Qed.

Lemma contains_prefix (s t : string) : prefix s t = true -> contains s t = true.
Proof. intros P. destruct t; cbn [contains]; now rewrite P. Qed.

Lemma contains_skip (s a t : string) :
  contains s t = true -> contains s (a ++ t) = true.
Proof.
  intros C. induction a as [|c a IH]; trivial.
  change (String c a ++ t) with (String c (a ++ t)). cbn [contains].
  rewrite IH. now destruct (prefix s (String c (a ++ t))).
Qed.

(** A text occurs in whatever is built around it. *)
Lemma contains_middle (s a b : string) : contains s (a ++ s ++ b) = true.
Proof. apply contains_skip, contains_prefix, prefix_app. Qed.

Lemma prefix_grow (s u rest : string) :
  prefix s u = true -> prefix s (u ++ rest) = true.
Proof.
  revert u. induction s as [|a s IH]; intros u P;
    [now destruct (u ++ rest)|].
  destruct u as [|b u]; [discriminate|]. cbn [append prefix] in *.
  destruct (ascii_dec a b); [|discriminate]. now apply IH.
Qed.

(** A text that occurs in [t] occurs in any continuation of [t]. *)
Lemma contains_grow (s t rest : string) :
  contains s t = true -> contains s (t ++ rest) = true.
Proof.
  induction t as [|c t IH]; intros C.
  - cbn [contains] in C. destruct (prefix s "") eqn:P; [|discriminate].
    apply contains_prefix. now apply (prefix_grow s "" rest).
  - cbn [contains] in C. destruct (prefix s (String c t)) eqn:P.
    + apply contains_prefix. now apply prefix_grow.
    + change (String c t ++ rest) with (String c (t ++ rest)).
      cbn [contains]. rewrite (IH C).
      now destruct (prefix s (String c (t ++ rest))).
Qed.

Lemma append_assoc (a b c : string) : (a ++ b) ++ c = a ++ (b ++ c).
Proof. induction a as [|x a IH]; simpl; congruence. Qed.

Lemma append_nil_r (a : string) : a ++ "" = a.
Proof. induction a as [|x a IH]; simpl; congruence. Qed.

Lemma one_line_app (a b : string) :
  one_line (a ++ b) = one_line a && one_line b.
Proof.
  induction a as [|c a IH]; simpl; trivial.
  rewrite IH. now rewrite andb_assoc.
Qed.

(** A text that starts with a line break does not occur in one line. *)
Lemma one_line_contains (s t : string) :
  one_line t = true -> contains (nl ++ s) t = false.
Proof.
  induction t as [|c t IH]; intros L; [reflexivity|].
  simpl in L. apply andb_prop in L as [Lc Lt].
  change (nl ++ s) with (String "010" s) in *. cbn [contains prefix].
  destruct (ascii_dec "010" c) as [<-|_]; [discriminate Lc|]. exact (IH Lt).
Qed.

Lemma one_line_uint (d : Decimal.uint) :
  one_line (NilEmpty.string_of_uint d) = true.
Proof. induction d; simpl; trivial. Qed.

Lemma one_line_str_of_Z (z : Z) : one_line (str_of_Z z) = true.
Proof.
  unfold str_of_Z. destruct (Z.to_int z) as [d|d]; simpl;
    destruct d; simpl; trivial; apply one_line_uint.
Qed.

(** ** Calls *)

Lemma posts_app (t1 t2 : list effect) :
  posts (t1 ++ t2) = (posts t1 ++ posts t2)%list.
Proof.
  induction t1 as [|[] t1 IH]; simpl; trivial. now rewrite IH.
Qed.

Lemma dt_sub_same_zone (a b : datetime) :
  dt_sub a (replace_tzinfo b (tzinfo a)) = Ret (wall a - wall b)%Z.
Proof.
  unfold dt_sub, replace_tzinfo. simpl.
  destruct (tzinfo a); f_equal; lia.
Qed.

Section Notification.
Context {W : Type} {lib : PyLib} {env : Providers W}.

(** What one call of [NotificationAgent.execute] does, by the answer of the
    chat provider. *)
Lemma notify_run (message : string) (channel : option string)
  (urgent : bool) (w : W) :
  let text := outgoing message urgent in
  let post := PostMessage (target channel) text "AI Assistant" in
  NotificationAgent.execute message channel urgent w
  = match chat_postMessage (target channel) text "AI Assistant" w with
    | (Ret response, w1) =>
        (Ret tt, w1,
         [post; Log INFO ("Notification sent to Slack: "
                          ++ str_of_opt (ts response))])
    | (Raise e, w1) =>
        if only SlackApiError e
        then (Ret tt, w1,
              [post; Log ERROR ("Slack notification failed: " ++ exn_str e)])
        else (Raise e, w1, [post])
    end.
Proof.
  intros text post.
  assert (T : (if truthy_opt channel then get_or channel "" else "#general")
              = target channel) by (destruct channel as [[|c tl]|]; reflexivity).
  unfold NotificationAgent.execute, try_except, bind, emit, call, logger_info,
    logger_error. fold (outgoing message urgent). rewrite T. fold text.
  destruct (chat_postMessage (target channel) text "AI Assistant" w)
    as [[response|e] w1]; simpl; trivial.
Qed.

(** Every call hands exactly one message to the chat provider. *)
Lemma notify_posts message channel urgent w :
  posts (calls (NotificationAgent.execute message channel urgent w))
  = [outgoing message urgent].
Proof.
  rewrite notify_run.
  destruct (chat_postMessage _ _ _ w) as [[response|e] w1]; trivial.
  destruct (only SlackApiError e); reflexivity.
Qed.

(** C4, as the code has it.  A [SlackApiError] raised by the send of the
    chat provider is logged and swallowed: [NotificationAgent.execute]
    returns.  Any other exception raised by the send leaves
    [NotificationAgent.execute]. *)
Theorem C4_slack_api_error_swallowed (message : string)
  (channel : option string) (urgent : bool) (w w1 : W) (e : exn) :
  chat_postMessage (target channel) (outgoing message urgent)
    "AI Assistant" w = (Raise e, w1) ->
  let post :=
    PostMessage (target channel) (outgoing message urgent) "AI Assistant" in
  (exn_cls e = SlackApiError ->
   NotificationAgent.execute message channel urgent w
   = (Ret tt, w1,
      [post; Log ERROR ("Slack notification failed: " ++ exn_str e)])) /\
  (exn_cls e <> SlackApiError ->
   NotificationAgent.execute message channel urgent w = (Raise e, w1, [post])).
Proof.
  intros E post. rewrite notify_run, E. unfold only. split; intros C.
  - now rewrite C.
  - destruct (exn_cls e); try reflexivity. congruence.
Qed.

End Notification.

(** ** The reminder check *)

Section Reminders.
Context {W : Type} {lib : PyLib} {env : Providers W}.

Lemma window_test (delta : Z) :
  ((minutes 15 <=? delta) && (delta <=? minutes 30))%Z = true
  <-> in_window delta.
Proof.
  unfold in_window. rewrite andb_true_iff, !Z.leb_le. tauto.
Qed.

(** What the check does for one meeting whose start time parses. *)
Lemma remind_run meeting text start local (w w1 : W) :
  start_time meeting = Some text ->
  fromisoformat (replace "Z" "+00:00" text) = Ret start ->
  datetime_now w = (local, w1) ->
  let delta := (wall start - wall local)%Z in
  AgenticWorkSystem.remind meeting w
  = if ((minutes 15 <=? delta) && (delta <=? minutes 30))%Z then
      let n :=
        NotificationAgent.execute
          (AgenticWorkSystem.reminder_msg meeting delta) None true w1 in
      match value n with
      | Ret _ => (Ret tt, world n, calls n)
      | Raise e =>
          (Ret tt, world n,
           (calls n ++ [Log ERROR ("Failed to schedule reminder for "
                                   ++ title meeting ++ ": " ++ exn_str e)])%list)
      end
    else (Ret tt, w1, []).
Proof.
  intros S P N delta.
  unfold AgenticWorkSystem.remind, try_except, bind, lift, read, Exception.
  rewrite S, P, N, dt_sub_same_zone. fold delta. cbn [app].
  destruct ((minutes 15 <=? delta)%Z && (delta <=? minutes 30)%Z); [|reflexivity].
  destruct (NotificationAgent.execute _ None true w1) as [[[[]|e] w2] t2];
    reflexivity.
Qed.

(** The reminders that the check sends for one meeting, by the reading of
    the clock. *)
Lemma remind_posts meeting now (w w1 : W) :
  datetime_now w = (now, w1) ->
  posts (calls (AgenticWorkSystem.remind meeting w))
  = match time_left meeting now with
    | Some delta =>
        if ((minutes 15 <=? delta) && (delta <=? minutes 30))%Z
        then [NotificationAgent.urgent_prefix
              ++ AgenticWorkSystem.reminder_msg meeting delta]
        else []
    | None => []
    end.
Proof.
  intros N. unfold time_left.
  destruct (start_time meeting) as [text|] eqn:S.
  - destruct (fromisoformat (replace "Z" "+00:00" text)) as [start|e] eqn:P.
    + rewrite (remind_run _ _ _ _ _ _ S P N).
      set (delta := (wall start - wall now)%Z).
      destruct ((minutes 15 <=? delta)%Z && (delta <=? minutes 30)%Z);
        [|reflexivity].
      pose proof (notify_posts (AgenticWorkSystem.reminder_msg meeting delta)
                    None true w1) as Q.
      cbv zeta.
      destruct (NotificationAgent.execute _ None true w1) as [[[[]|e] w2] t2];
        cbn in *; trivial.
      rewrite posts_app, Q. reflexivity.
    + unfold AgenticWorkSystem.remind, try_except, bind, lift, Exception.
      rewrite S, P. reflexivity.
  - unfold AgenticWorkSystem.remind, try_except, bind, lift, Exception.
    rewrite S. reflexivity.
Qed.

(** The check over a list is the body of the loop, meeting after meeting. *)
Lemma schedule_cons (meeting : MeetingRecord) meetings (w : W) :
  let first := AgenticWorkSystem.remind meeting w in
  let rest :=
    AgenticWorkSystem._schedule_meeting_reminders meetings (world first) in
  AgenticWorkSystem._schedule_meeting_reminders (meeting :: meetings) w
  = (Ret tt, world rest, (calls first ++ calls rest)%list).
Proof.
  intros first rest.
  unfold AgenticWorkSystem._schedule_meeting_reminders. cbn [for_each].
  destruct (returns_remind meeting w) as [[] R]. fold first in R.
  destruct (returns_schedule_meeting_reminders meetings (world first))
    as [[] R']. fold rest in R'.
  rewrite (bind_run _ _ w tt (world first) (calls first))
    by (rewrite <- R; apply run_eta).
  fold (AgenticWorkSystem._schedule_meeting_reminders meetings (world first)).
  fold rest. now rewrite R'.
Qed.

Lemma schedule_single (meeting : MeetingRecord) (w : W) :
  calls (AgenticWorkSystem._schedule_meeting_reminders [meeting] w)
  = calls (AgenticWorkSystem.remind meeting w).
Proof. rewrite schedule_cons. cbn. apply app_nil_r. Qed.

(** With a clock that reads [now] whenever it is read, each meeting of the
    list gets the reminders that it gets when checked alone. *)
Lemma schedule_posts now (Clock : forall w : W, fst (datetime_now w) = now)
  meetings (w w' : W) :
  posts (calls (AgenticWorkSystem._schedule_meeting_reminders meetings w))
  = flat_map
      (fun m =>
         posts (calls (AgenticWorkSystem._schedule_meeting_reminders [m] w')))
      meetings.
Proof.
  assert (One : forall m (u v : W),
             posts (calls (AgenticWorkSystem.remind m u))
             = posts (calls (AgenticWorkSystem.remind m v))).
  { intros m u v.
    destruct (datetime_now u) as [nu u1] eqn:Nu.
    destruct (datetime_now v) as [nv v1] eqn:Nv.
    pose proof (Clock u) as Cu. pose proof (Clock v) as Cv.
    rewrite Nu in Cu. rewrite Nv in Cv. cbn in Cu, Cv. subst nu nv.
    now rewrite (remind_posts m now u u1 Nu), (remind_posts m now v v1 Nv). }
  revert w. induction meetings as [|m ms IH]; intros w; [reflexivity|].
  rewrite schedule_cons. cbn [calls snd flat_map].
  rewrite posts_app, IH, schedule_single. f_equal. apply One.
Qed.

(** With a clock that reads [now], the check sends for every meeting of
    the list what it sends for that meeting alone; and for one meeting it
    sends exactly one urgent reminder when the time left as it reckons it
    is between 15 and 30 minutes, both included, and none otherwise: one
    reminder at 20 minutes, none at 10 or at 40, none when the start time
    is not a timestamp. *)
Lemma reminder_window now meetings meeting (w : W) :
  (forall w', fst (datetime_now w') = now) ->
  let sent ms :=
    posts (calls (AgenticWorkSystem._schedule_meeting_reminders ms w)) in
  sent meetings = flat_map (fun m => sent [m]) meetings /\
  match time_left meeting now with
  | Some delta =>
      (in_window delta ->
       sent [meeting] = [NotificationAgent.urgent_prefix
                         ++ AgenticWorkSystem.reminder_msg meeting delta]) /\
      (~ in_window delta -> sent [meeting] = []) /\
      (delta = minutes 20 -> length (sent [meeting]) = 1) /\
      (delta = minutes 10 \/ delta = minutes 40 -> sent [meeting] = [])
  | None => sent [meeting] = []
  end.
Proof.
  intros Clock sent. split; [apply (schedule_posts now Clock)|].
  assert (Q : sent [meeting]
              = match time_left meeting now with
                | Some delta =>
                    if ((minutes 15 <=? delta) && (delta <=? minutes 30))%Z
                    then [NotificationAgent.urgent_prefix
                          ++ AgenticWorkSystem.reminder_msg meeting delta]
                    else []
                | None => []
                end).
  { unfold sent. rewrite schedule_single.
    destruct (datetime_now w) as [local w1] eqn:N.
    pose proof (Clock w) as C. rewrite N in C. cbn in C. subst local.
    exact (remind_posts _ _ _ _ N). }
  destruct (time_left meeting now) as [delta|]; [|exact Q].
  assert (In_ : in_window delta ->
                sent [meeting]
                = [NotificationAgent.urgent_prefix
                   ++ AgenticWorkSystem.reminder_msg meeting delta]).
  { intros I. apply window_test in I. now rewrite Q, I. }
  assert (Out : ~ in_window delta -> sent [meeting] = []).
  { intros I. rewrite Q.
    destruct ((minutes 15 <=? delta)%Z && (delta <=? minutes 30)%Z) eqn:T;
      trivial.
    apply window_test in T. contradiction. }
  split; [exact In_|]. split; [exact Out|]. split.
  - intros D. rewrite In_; [reflexivity|].
    unfold in_window, minutes in *. lia.
  - intros D. apply Out. unfold in_window, minutes in *. lia.
Qed.

(** The time left as the check reckons it, against the time from the
    reading to the start: the two differ by the difference between the
    offset that the start is written in and the zone of the machine. *)
Lemma time_left_shift zone meeting now offset real :
  start_offset meeting = Some offset ->
  real_time_left zone meeting now = Some real ->
  time_left meeting now = Some (real + (offset - zone))%Z.
Proof.
  unfold start_offset, real_time_left, time_left.
  destruct (start_time meeting) as [text|]; [|discriminate].
  destruct (fromisoformat (replace "Z" "+00:00" text)) as [start|e];
    [|discriminate].
  intros ->. intros [= <-]. f_equal. lia.
Qed.

(** C2.  The check does not go by the time from now to the start.  It
    relabels the reading of the local clock with the zone of the start, so
    that for a start written with the offset [offset], on a machine whose
    zone is [zone], it sends its one reminder exactly when the time to the
    start plus [offset - zone] is between 15 and 30 minutes.  It is the
    time to the start that decides only when the two offsets agree. *)
Theorem C2_reminder_zone_shift zone meeting now offset real (w w1 : W) :
  datetime_now w = (now, w1) ->
  start_offset meeting = Some offset ->
  real_time_left zone meeting now = Some real ->
  let reckoned := (real + (offset - zone))%Z in
  let sent :=
    posts (calls (AgenticWorkSystem._schedule_meeting_reminders [meeting] w))
  in
  (in_window reckoned -> length sent = 1) /\
  (~ in_window reckoned -> sent = []) /\
  (offset = zone ->
   (in_window real -> length sent = 1) /\ (~ in_window real -> sent = [])).
Proof.
  intros N O R reckoned sent.
  assert (Q : sent
              = if ((minutes 15 <=? reckoned) && (reckoned <=? minutes 30))%Z
                then [NotificationAgent.urgent_prefix
                      ++ AgenticWorkSystem.reminder_msg meeting reckoned]
                else []).
  { unfold sent.
    now rewrite schedule_single, (remind_posts _ _ _ _ N),
      (time_left_shift zone meeting now offset real O R). }
  assert (In_ : in_window reckoned -> length sent = 1).
  { intros I. apply window_test in I. now rewrite Q, I. }
  assert (Out : ~ in_window reckoned -> sent = []).
  { intros I. rewrite Q.
    destruct ((minutes 15 <=? reckoned)%Z && (reckoned <=? minutes 30)%Z)
      eqn:T; trivial.
    apply window_test in T. contradiction. }
  split; [exact In_|]. split; [exact Out|].
  intros Same.
  assert (E : reckoned = real) by (unfold reckoned; lia).
  rewrite E in In_, Out. now split.
Qed.

Lemma extract_meet_link_none (event : CalendarEvent) :
  conferenceData event = None -> CalendarAgent._extract_meet_link event = None.
Proof. intros C. unfold CalendarAgent._extract_meet_link. now rewrite C. Qed.

(** The reminder sent for a meeting that the check takes to be in the
    window names the title and the whole minutes of the time left as the
    check reckons it (divided by one minute, rounded down), and ends with
    the line of the link exactly when the meeting has one. *)
Lemma reminder_content meeting now delta (w w1 : W) :
  datetime_now w = (now, w1) ->
  time_left meeting now = Some delta ->
  in_window delta ->
  let left := str_of_Z (delta / 60000000) in
  let head :=
    bell ++ " Reminder: '" ++ title meeting ++ "' starts in " ++ left
    ++ " minutes" in
  exists msg,
    posts (calls (AgenticWorkSystem._schedule_meeting_reminders [meeting] w))
    = [NotificationAgent.urgent_prefix ++ msg] /\
    contains (title meeting) msg = true /\
    contains (left ++ " minutes") msg = true /\
    match meet_link meeting with
    | Some (String c tl) => msg = head ++ nl ++ "Join: " ++ String c tl
    | _ =>
        msg = head /\
        (one_line (title meeting) = true ->
         contains (nl ++ "Join: ") msg = false)
    end /\
    (delta = minutes 15 -> meet_link meeting = None ->
     msg = bell ++ " Reminder: '" ++ title meeting
           ++ "' starts in 15 minutes") /\
    (forall event, conferenceData event = None ->
                   CalendarAgent._extract_meet_link event = None).
Proof.
  intros N T I left head.
  exists (AgenticWorkSystem.reminder_msg meeting delta).
  split.
  { rewrite schedule_single, (remind_posts _ _ _ _ N), T.
    apply window_test in I. now rewrite I. }
  assert (M : AgenticWorkSystem.reminder_msg meeting delta
              = match meet_link meeting with
                | Some (String c tl) => head ++ nl ++ "Join: " ++ String c tl
                | _ => head
                end).
  { unfold AgenticWorkSystem.reminder_msg, whole_minutes. fold left.
    destruct (meet_link meeting) as [[|c tl]|]; reflexivity. }
  assert (Ti : contains (title meeting) head = true).
  { unfold head.
    change (bell ++ " Reminder: '" ++ title meeting ++ "' starts in " ++ left
            ++ " minutes")
      with ((bell ++ " Reminder: '") ++ title meeting
            ++ "' starts in " ++ left ++ " minutes").
    apply contains_middle. }
  assert (L : contains (left ++ " minutes") head = true).
  { unfold head.
    replace (bell ++ " Reminder: '" ++ title meeting ++ "' starts in " ++ left
             ++ " minutes")
      with ((bell ++ " Reminder: '" ++ title meeting ++ "' starts in ")
            ++ (left ++ " minutes") ++ "").
    - apply contains_middle.
    - rewrite !append_assoc, append_nil_r. reflexivity. }
  rewrite M. repeat split.
  - destruct (meet_link meeting) as [[|c tl]|]; auto using contains_grow.
  - destruct (meet_link meeting) as [[|c tl]|]; auto using contains_grow.
  - destruct (meet_link meeting) as [[|c tl]|]; trivial; split; trivial;
      intros O; apply one_line_contains; unfold head, left;
      rewrite !one_line_app, O, one_line_str_of_Z; reflexivity.
  - intros D L0. rewrite L0. unfold head, left. rewrite D. reflexivity.
  - apply extract_meet_link_none.
Qed.

(** The text of a reminder, by the link of the meeting. *)
Lemma reminder_msg_shape meeting delta :
  let head :=
    bell ++ " Reminder: '" ++ title meeting ++ "' starts in "
    ++ str_of_Z (whole_minutes delta) ++ " minutes" in
  AgenticWorkSystem.reminder_msg meeting delta
  = match meet_link meeting with
    | Some (String c tl) => head ++ nl ++ "Join: " ++ String c tl
    | _ => head
    end.
Proof.
  intros head. unfold AgenticWorkSystem.reminder_msg. fold head.
  destruct (meet_link meeting) as [[|c tl]|]; reflexivity.
Qed.

(** C7.  The minutes that a reminder names are not the minutes that
    remain.  For a start written with the offset [offset], on a machine
    whose zone is [zone], the check sends its reminder when the time to
    the start plus [offset - zone] is in the window, and the reminder
    names the whole minutes of that sum, after the title and before the
    line of the link, if there is one; otherwise nothing is sent, also for
    a meeting that starts in a quarter of an hour. *)
Theorem C7_reminder_names_reckoned_minutes zone meeting now offset real
  (w w1 : W) :
  datetime_now w = (now, w1) ->
  start_offset meeting = Some offset ->
  real_time_left zone meeting now = Some real ->
  let reckoned := (real + (offset - zone))%Z in
  let sent :=
    posts (calls (AgenticWorkSystem._schedule_meeting_reminders [meeting] w))
  in
  let head :=
    bell ++ " Reminder: '" ++ title meeting ++ "' starts in "
    ++ str_of_Z (reckoned / 60000000) ++ " minutes" in
  (in_window reckoned ->
   sent = [NotificationAgent.urgent_prefix
           ++ match meet_link meeting with
              | Some (String c tl) => head ++ nl ++ "Join: " ++ String c tl
              | _ => head
              end]) /\
  (~ in_window reckoned -> sent = []).
Proof.
  intros N O R reckoned sent head.
  assert (Q : sent
              = if ((minutes 15 <=? reckoned) && (reckoned <=? minutes 30))%Z
                then [NotificationAgent.urgent_prefix
                      ++ AgenticWorkSystem.reminder_msg meeting reckoned]
                else []).
  { unfold sent.
    now rewrite schedule_single, (remind_posts _ _ _ _ N),
      (time_left_shift zone meeting now offset real O R). }
  split.
  - intros I. apply window_test in I. rewrite Q, I.
    now rewrite reminder_msg_shape.
  - intros I. rewrite Q.
    destruct ((minutes 15 <=? reckoned)%Z && (reckoned <=? minutes 30)%Z)
      eqn:T; trivial.
    apply window_test in T. contradiction.
Qed.


End Reminders.

(** ** The digest *)

Lemma filter_high_length (emails : list EmailSummary) :
  length (filter (fun e => eq_str (priority e) "High") emails)
  = count_high emails.
Proof.
  induction emails as [|e tl IH]; simpl; trivial.
  destruct (eq_str (priority e) "High"); simpl; congruence.
Qed.

(** The parts that the code collects are the lines of the description. *)
Lemma summary_parts_lines emails meetings :
  AgenticWorkSystem.summary_parts emails meetings
  = digest_lines emails meetings.
Proof.
  unfold AgenticWorkSystem.summary_parts, digest_lines.
  pose proof (filter_high_length emails) as F.
  destruct emails as [|e tl].
  - destruct meetings; reflexivity.
  - cbn [truthy_list]. rewrite <- F.
    destruct (filter _ (e :: tl)) as [|h hs]; destruct meetings; cbn;
      rewrite ?app_nil_r; reflexivity.
Qed.

Lemma join_prefix (sep a : string) (l : list string) :
  prefix a (join sep (a :: l)) = true.
Proof.
  unfold join. destruct l; cbn [concat].
  - rewrite <- (append_nil_r a) at 2. apply prefix_app.
  - apply prefix_app.
Qed.

Section Digest.
Context {W : Type} {lib : PyLib} {env : Providers W}.

(** C1, as the code has it.  The digest is the header, a line with the
    number of emails when there are some, a line with the number of
    high-priority emails when there are some, and, when there are meetings,
    a line with their number and one line with the title and the start time
    of each of the first three.  Building it never fails and it is handed
    to the chat provider once, whatever the lists; with no email and no
    meeting it is the header alone.  The call raises only if the send
    raises something other than a [SlackApiError]. *)
Theorem C1_digest_lines (emails : list EmailSummary)
  (meetings : list MeetingRecord) (w : W) :
  let message := join nl (digest_lines emails meetings) in
  let run := AgenticWorkSystem._send_daily_summary emails meetings w in
  calls run = calls (NotificationAgent.execute message None false w) /\
  posts (calls run) = [message] /\
  prefix AgenticWorkSystem.header message = true /\
  (emails = [] -> meetings = [] -> message = AgenticWorkSystem.header) /\
  (value run = Ret tt \/
   exists e w1,
     chat_postMessage "#general" message "AI Assistant" w = (Raise e, w1) /\
     exn_cls e <> SlackApiError /\ value run = Raise e).
Proof.
  intros message run.
  assert (R : run = NotificationAgent.execute message None false w).
  { unfold run, AgenticWorkSystem._send_daily_summary, message.
    now rewrite summary_parts_lines. }
  rewrite R. repeat split.
  - apply notify_posts.
  - apply join_prefix.
  - intros -> ->. reflexivity.
  - rewrite notify_run. cbn [target outgoing].
    destruct (chat_postMessage "#general" message "AI Assistant" w)
      as [[response|e] w1] eqn:E; [now left|].
    unfold only. destruct (exn_cls e) eqn:C; cbn;
      try (right; exists e, w1; repeat split; congruence).
    now left.
Qed.

(** ** The daily workflow *)

(** C5, as the code has it.  Stages 1, 2 and 4 catch their own failures, so
    that only the send of the digest can fail a run.  When it does not, the
    run returns after the four stages, each run once.  When it raises [e],
    the exception is caught at the top level, logged, and reported by one
    urgent notification that names it; stage 4 is not run and no stage is
    run again.  The run then returns, unless the send of that notification
    raises something other than a [SlackApiError], which leaves
    [run_daily_workflow]. *)
Theorem C5_workflow_failure (w : W) :
  let r1 := EmailAgent.execute 10 w in
  let r2 := CalendarAgent.execute 24 (world r1) in
  exists emails meetings,
    value r1 = Ret emails /\
    value r2 = Ret meetings /\
    let r3 :=
      AgenticWorkSystem._send_daily_summary emails meetings (world r2) in
    let started := Log INFO "Starting daily workflow..." in
    match value r3 with
    | Ret _ =>
        let r4 :=
          AgenticWorkSystem._schedule_meeting_reminders meetings (world r3) in
        AgenticWorkSystem.run_daily_workflow w
        = (Ret tt, world r4,
           (started :: calls r1 ++ calls r2 ++ calls r3 ++ calls r4
            ++ [Log INFO "Daily workflow completed successfully"])%list)
    | Raise e =>
        let report := "Daily workflow failed: " ++ exn_str e in
        let n := NotificationAgent.execute report None true (world r3) in
        AgenticWorkSystem.run_daily_workflow w
        = (value n, world n,
           (started :: calls r1 ++ calls r2 ++ calls r3
            ++ Log ERROR report :: calls n)%list) /\
        posts (calls n) = [NotificationAgent.urgent_prefix ++ report] /\
        (value n = Ret tt \/
         exists e', value n = Raise e' /\ exn_cls e' <> SlackApiError)
    end.
Proof.
  intros r1 r2.
  destruct (returns_email_execute 10 w) as [emails V1]. fold r1 in V1.
  destruct (returns_calendar_execute 24 (world r1)) as [meetings V2].
  fold r2 in V2.
  exists emails, meetings. split; [exact V1|]. split; [exact V2|].
  intros r3 started.
  assert (E1 : EmailAgent.execute 10 w = (Ret emails, world r1, calls r1)).
  { rewrite <- V1. apply run_eta. }
  assert (E2 : CalendarAgent.execute 24 (world r1)
               = (Ret meetings, world r2, calls r2)).
  { rewrite <- V2. apply run_eta. }
  destruct (value r3) as [[]|e] eqn:V3.
  - assert (E3 : AgenticWorkSystem._send_daily_summary emails meetings
                   (world r2) = (Ret tt, world r3, calls r3)).
    { rewrite <- V3. apply run_eta. }
    intros r4.
    destruct (returns_schedule_meeting_reminders meetings (world r3))
      as [[] V4].
    assert (E4 : AgenticWorkSystem._schedule_meeting_reminders meetings
                   (world r3) = (Ret tt, world r4, calls r4)).
    { rewrite <- V4. apply run_eta. }
    unfold AgenticWorkSystem.run_daily_workflow.
    apply try_except_ret.
    unfold bind at 1. unfold logger_info at 1, emit.
    rewrite (bind_run _ _ _ _ _ _ E1). cbn [value world calls fst snd].
    rewrite (bind_run _ _ _ _ _ _ E2). cbn [value world calls fst snd].
    rewrite (bind_run _ _ _ _ _ _ E3). cbn [value world calls fst snd].
    rewrite (bind_run _ _ _ _ _ _ E4). cbn [value world calls fst snd].
    unfold logger_info, emit. cbn. reflexivity.
  - assert (E3 : AgenticWorkSystem._send_daily_summary emails meetings
                   (world r2) = (Raise e, world r3, calls r3)).
    { rewrite <- V3. apply run_eta. }
    intros report n. split; [|split].
    + unfold AgenticWorkSystem.run_daily_workflow.
      caught e (world r3) (started :: calls r1 ++ calls r2 ++ calls r3)%list.
      { unfold bind at 1. unfold logger_info at 1, emit.
        rewrite (bind_run _ _ _ _ _ _ E1). cbn [value world calls fst snd].
        rewrite (bind_run _ _ _ _ _ _ E2). cbn [value world calls fst snd].
        rewrite (bind_raise _ _ _ _ _ _ E3). reflexivity. }
      unfold bind, logger_error, emit. fold report. fold n.
      destruct n as [[o wn] tn]. cbn.
      rewrite <- !app_assoc. reflexivity.
    + apply notify_posts.
    + unfold n. rewrite notify_run.
      destruct (chat_postMessage _ _ _ (world r3)) as [[response|e'] w1];
        [now left|].
      unfold only. destruct (exn_cls e') eqn:C; cbn;
        try (right; exists e'; split; congruence).
      now left.
Qed.

End Digest.

(** ** One email *)

Section Emails.
Context {W : Type} {lib : PyLib} {env : Providers W}.

(** What [_process_email] does, by the answer of the Gateway. *)
Lemma process_email_run (message_id : string) (w : W) :
  EmailAgent._process_email message_id w
  = let failed e :=
      Log ERROR ("Email processing failed for " ++ message_id ++ ": "
                 ++ exn_str e) in
    match gateway_response message_id w with
    | (Ret (sender, subject, response), w1, t1) =>
        match json_loads response with
        | Ret analysis =>
            match as_dict analysis with
            | Ret d =>
                (Ret (Some (EmailAgent.parsed_summary sender subject d)),
                 w1, t1)
            | Raise e => (Ret None, w1, (t1 ++ [failed e])%list)
            end
        | Raise e =>
            if only JSONDecodeError e
            then (Ret (Some (EmailAgent.fallback_summary sender subject
                               response)), w1, t1)
            else (Ret None, w1, (t1 ++ [failed e])%list)
        end
    | (Raise e, w1, t1) => (Ret None, w1, (t1 ++ [failed e])%list)
    end.
Proof.
  unfold EmailAgent._process_email, gateway_response.
  unfold try_except, bind, lift, call, ret, Exception, logger_error, emit.
  destruct (messages_get message_id w) as [[message|e] w1]; [|reflexivity].
  destruct (getitem "payload" (payload message)) as [pl|e]; [|reflexivity].
  destruct (EmailAgent.next_header "Subject" _) as [subject|e];
    [|reflexivity].
  destruct (EmailAgent.next_header "From" _) as [sender|e]; [|reflexivity].
  destruct (EmailAgent._extract_email_body pl) as [body|e]; [|reflexivity].
  destruct (BaseAgent.get_llm_response _ _ w1) as [[[response|e] w2] t2];
    [|reflexivity].
  destruct (json_loads response) as [analysis|e].
  - destruct analysis; cbn; rewrite ?app_nil_r; reflexivity.
  - destruct (only JSONDecodeError e); cbn; rewrite ?app_nil_r; reflexivity.
Qed.

(** A response that parses, but not as an object, has no [get]: the email
    is logged and skipped. *)
Lemma process_email_not_an_object message_id (w : W) from title response w1 t1
  v :
  gateway_response message_id w = (Ret (from, title, response), w1, t1) ->
  json_loads response = Ret v ->
  (forall d, v <> PDict d) ->
  value (EmailAgent._process_email message_id w) = Ret None.
Proof.
  intros G J N. rewrite process_email_run, G, J. cbv zeta.
  destruct v; try reflexivity. now destruct (N d).
Qed.

(** C6.  When the response of the Gateway does not parse, [_process_email]
    returns the fallback record: the first 200 characters of the response
    as summary, priority [Medium], action required.  A batch of two unread
    emails, the first answered by an object whose priority is [High] and
    the second by a response that does not parse, gives two records, the
    first of priority [High] and the second the fallback. *)
Theorem C6_parse_failure_fallback :
  (forall message_id (w : W) sender subject response w1 t1 e,
      gateway_response message_id w = (Ret (sender, subject, response), w1, t1) ->
      json_loads response = Raise e ->
      exn_cls e = JSONDecodeError ->
      EmailAgent._process_email message_id w
      = (Ret (Some {| sender := sender;
                      subject := subject;
                      summary := PStr (slice_to 200 response);
                      priority := PStr "Medium";
                      action_required := PBool true;
                      meeting_info := PNone |}), w1, t1)) /\
  (forall max_emails (w : W) w0 i1 i2 sender1 subject1 response1 w1 t1 d
          sender2 subject2 response2 w2 t2 e,
      messages_list max_emails w
      = (Ret {| messages := Some [ {| ref_id := Some i1 |};
                                   {| ref_id := Some i2 |} ] |}, w0) ->
      gateway_response i1 w0
      = (Ret (sender1, subject1, response1), w1, t1) ->
      json_loads response1 = Ret (PDict d) ->
      assoc "priority" d = Some (PStr "High") ->
      gateway_response i2 w1
      = (Ret (sender2, subject2, response2), w2, t2) ->
      json_loads response2 = Raise e ->
      exn_cls e = JSONDecodeError ->
      exists s1 s2,
        value (EmailAgent.execute max_emails w) = Ret [s1; s2] /\
        s1 = EmailAgent.parsed_summary sender1 subject1 d /\
        priority s1 = PStr "High" /\
        priority s2 = PStr "Medium" /\
        action_required s2 = PBool true /\
        summary s2 = PStr (slice_to 200 response2)).
Proof.
  assert (Fallback : forall message_id (w : W) sender subject response w1 t1 e,
      gateway_response message_id w = (Ret (sender, subject, response), w1, t1) ->
      json_loads response = Raise e ->
      exn_cls e = JSONDecodeError ->
      EmailAgent._process_email message_id w
      = (Ret (Some (EmailAgent.fallback_summary sender subject response)),
         w1, t1)).
  { intros message_id w sender subject response w1 t1 e G J C.
    rewrite process_email_run, G, J. cbv zeta. unfold only.
    now rewrite C. }
  split; [exact Fallback|].
  intros max_emails w w0 i1 i2 sender1 subject1 response1 w1 t1 d
    sender2 subject2 response2 w2 t2 e L G1 J1 P G2 J2 C.
  exists (EmailAgent.parsed_summary sender1 subject1 d),
    (EmailAgent.fallback_summary sender2 subject2 response2).
  assert (B : batch email_item
                [ {| ref_id := Some i1 |}; {| ref_id := Some i2 |} ] w0
                [Some (EmailAgent.parsed_summary sender1 subject1 d);
                 Some (EmailAgent.fallback_summary sender2 subject2 response2)]
                w2 (t1 ++ t2 ++ [])%list).
  { econstructor.
    - rewrite (email_item_run {| ref_id := Some i1 |} i1 _ eq_refl),
        process_email_run, G1, J1.
      reflexivity.
    - econstructor; [|constructor].
      rewrite (email_item_run {| ref_id := Some i2 |} i2 _ eq_refl).
      exact (Fallback _ _ _ _ _ _ _ _ G2 J2 C). }
  rewrite (email_execute_batch _ _ _ _ _ _ _ L B).
  repeat split. cbn. unfold dict_get. now rewrite P.
Qed.

(** C10.  When the response of the Gateway parses as an object,
    [_process_email] returns a record with every field set: each of
    [summary], [priority], [action_required] and [meeting_info] is the
    value of its key, or, when the key is missing, the empty string, [Low],
    [False] and [None].  The defaults for priority and action differ from
    those of the fallback record. *)
Theorem C10_missing_key_defaults message_id (w : W) from title response
  w1 t1 d :
  gateway_response message_id w = (Ret (from, title, response), w1, t1) ->
  json_loads response = Ret (PDict d) ->
  exists s,
    EmailAgent._process_email message_id w = (Ret (Some s), w1, t1) /\
    sender s = from /\
    subject s = title /\
    summary s = get_or (assoc "summary" d) (PStr "") /\
    priority s = get_or (assoc "priority" d) (PStr "Low") /\
    action_required s = get_or (assoc "action_required" d) (PBool false) /\
    meeting_info s = get_or (assoc "meeting_info" d) PNone /\
    (d = [] ->
     s = {| sender := from; subject := title; summary := PStr "";
            priority := PStr "Low"; action_required := PBool false;
            meeting_info := PNone |}) /\
    PStr "Low" <> priority (EmailAgent.fallback_summary from title response)
    /\
    PBool false
    <> action_required (EmailAgent.fallback_summary from title response).
Proof.
  intros G J. exists (EmailAgent.parsed_summary from title d).
  rewrite process_email_run, G, J. cbn.
  repeat split; try discriminate. now intros ->.
Qed.

End Emails.

(** ** Meeting notes *)

Section Notes.
Context {W : Type} {lib : PyLib} {env : Providers W}.

(** [execute] returns the note it drafted, after trying to save it. *)
Lemma notes_execute_run transcript (info : MeetingInfo) (w : W) :
  MeetingNotesAgent.execute transcript info w
  = match drafted_note transcript info w with
    | (Ret (note, d), w1, t1) =>
        let s := MeetingNotesAgent._save_to_docs note d w1 in
        (Ret (Some note), world s, (t1 ++ calls s)%list)
    | (Raise e, w1, t1) =>
        (Ret None, w1,
         (t1 ++ [Log ERROR ("Meeting notes processing failed: "
                            ++ exn_str e)])%list)
    end.
Proof.
  unfold MeetingNotesAgent.execute, drafted_note.
  unfold try_except at 1. unfold Exception.
  unfold bind, lift, read, ret, logger_error, emit.
  destruct (BaseAgent.get_llm_response _ _ w) as [[[analysis|e] w1] t1];
    [|reflexivity].
  destruct (try_except (only JSONDecodeError) _ _ w1)
    as [[[notes_data|e] w2] t2]; [|reflexivity].
  destruct (datetime_now w2) as [now w3].
  destruct (as_dict notes_data) as [d|e]; [|reflexivity].
  set (note := {| meeting_id := get_or (mi_id info) "" |}).
  destruct (returns_save_to_docs note d w3) as [[] V].
  destruct (MeetingNotesAgent._save_to_docs note d w3) as [[o w4] t4].
  cbn in V. subst o. cbn. now rewrite !app_nil_r, <- !app_assoc.
Qed.

Lemma save_to_docs_create_failed note d (w w1 : W) e :
  let doc_title :=
    "Meeting Notes - " ++ note_title note ++ " - "
    ++ strftime (date note) "%Y-%m-%d" in
  documents_create doc_title w = (Raise e, w1) ->
  MeetingNotesAgent._save_to_docs note d w
  = (Ret tt, w1,
     [DocCreate doc_title;
      Log ERROR ("Failed to save to Google Docs: " ++ exn_str e)]).
Proof.
  intros doc_title E. unfold MeetingNotesAgent._save_to_docs.
  fold doc_title.
  caught e w1 [DocCreate doc_title]; [|reflexivity].
  unfold bind, emit, call. now rewrite E.
Qed.

Lemma save_to_docs_update_failed note d (w w1 w2 : W) doc content e :
  let doc_title :=
    "Meeting Notes - " ++ note_title note ++ " - "
    ++ strftime (date note) "%Y-%m-%d" in
  documents_create doc_title w = (Ret doc, w1) ->
  MeetingNotesAgent.doc_content note d = Ret content ->
  documents_batchUpdate (documentId doc) content w1 = (Raise e, w2) ->
  MeetingNotesAgent._save_to_docs note d w
  = (Ret tt, w2,
     [DocCreate doc_title; DocUpdate (documentId doc) content;
      Log ERROR ("Failed to save to Google Docs: " ++ exn_str e)]).
Proof.
  intros doc_title E C U. unfold MeetingNotesAgent._save_to_docs.
  fold doc_title.
  caught e w2 [DocCreate doc_title; DocUpdate (documentId doc) content];
    [|reflexivity].
  unfold bind, emit, call, lift. now rewrite E, C, U.
Qed.

(** C8.  Once the note is drafted, [execute] returns that note whatever the
    save does.  When the creation of the document or the insertion of its
    text fails, the failure is logged and the same note is returned. *)
Theorem C8_save_failure_keeps_note transcript (info : MeetingInfo) (w w1 : W)
  note d t1 :
  drafted_note transcript info w = (Ret (note, d), w1, t1) ->
  let doc_title :=
    "Meeting Notes - " ++ note_title note ++ " - "
    ++ strftime (date note) "%Y-%m-%d" in
  (exists w2 t2,
      MeetingNotesAgent.execute transcript info w
      = (Ret (Some note), w2, (t1 ++ t2)%list)) /\
  (forall e w2,
      documents_create doc_title w1 = (Raise e, w2) ->
      MeetingNotesAgent.execute transcript info w
      = (Ret (Some note), w2,
         (t1 ++ [DocCreate doc_title;
                 Log ERROR ("Failed to save to Google Docs: "
                            ++ exn_str e)])%list)) /\
  (forall doc w2 content e w3,
      documents_create doc_title w1 = (Ret doc, w2) ->
      MeetingNotesAgent.doc_content note d = Ret content ->
      documents_batchUpdate (documentId doc) content w2 = (Raise e, w3) ->
      MeetingNotesAgent.execute transcript info w
      = (Ret (Some note), w3,
         (t1 ++ [DocCreate doc_title; DocUpdate (documentId doc) content;
                 Log ERROR ("Failed to save to Google Docs: "
                            ++ exn_str e)])%list)).
Proof.
  intros D doc_title. rewrite notes_execute_run, D. cbv zeta.
  split; [|split].
  - eexists _, _. reflexivity.
  - intros e w2 E.
    now rewrite (save_to_docs_create_failed note d _ _ _ E).
  - intros doc w2 content e w3 E C U.
    now rewrite (save_to_docs_update_failed note d _ _ _ _ _ _ E C U).
Qed.

End Notes.

(** * Worked examples on the sample deployment *)

Section Office.
#[local] Existing Instance Demo.lib.
#[local] Existing Instance Demo.office.

Lemma C1_counterexample :
  let message := join nl (AgenticWorkSystem.summary_parts [] []) in
  posts (calls (AgenticWorkSystem._send_daily_summary [] [] tt)) = [message] /\
  contains "Emails processed: 0" message = false /\
  contains "High priority emails: 0" message = false /\
  contains "Upcoming meetings: 0" message = false /\
  contains "0" message = false.
Proof. vm_compute. repeat split. Qed.

Lemma C1_witness :
  (@nil EmailSummary = [] /\ @nil MeetingRecord = []) /\
  posts (calls (AgenticWorkSystem._send_daily_summary [] [] tt))
  = [AgenticWorkSystem.header].
Proof.
  split; [split; reflexivity|].
  pose proof (C1_digest_lines (env := Demo.office)
      [] [] tt) as D.
  cbv zeta in D.
  destruct D as (_ & P & _ & Z & _).
  rewrite <- (Z eq_refl eq_refl). exact P.
Defined.

Lemma C2_witness :
  let sent ms :=
    posts (calls (AgenticWorkSystem._schedule_meeting_reminders ms tt)) in
  real_time_left Cases.utc Cases.in_twenty Demo.now = Some (minutes 20) /\
  in_window (minutes 20) /\
  sent [Cases.in_twenty] = [] /\
  real_time_left Cases.utc Cases.long_over Demo.now = Some (minutes (-310)) /\
  ~ in_window (minutes (-310)) /\
  length (sent [Cases.long_over]) = 1.
Proof.
  intros sent.
  assert (I : in_window (minutes 20)) by (unfold in_window, minutes; lia).
  assert (O : ~ in_window (minutes (-310)))
    by (unfold in_window, minutes; lia).
  destruct (C2_reminder_zone_shift (lib := Demo.lib) (env := Demo.office)
              Cases.utc Cases.in_twenty Demo.now Cases.ahead_5h30
              (minutes 20) tt tt eq_refl eq_refl eq_refl) as (_ & Missed & _).
  destruct (C2_reminder_zone_shift (lib := Demo.lib) (env := Demo.office)
              Cases.utc Cases.long_over Demo.now Cases.ahead_5h30
              (minutes (-310)) tt tt eq_refl eq_refl eq_refl)
    as (Late & _ & _).
  refine (conj eq_refl (conj I (conj (Missed _) (conj eq_refl
            (conj O (Late _)))))).
  - unfold in_window, Cases.utc, Cases.ahead_5h30, minutes. lia.
  - unfold in_window, Cases.utc, Cases.ahead_5h30, minutes. lia.
Defined.

Lemma X30_witness :
  let process := email_item in
  let failed := [Log ERROR "Email processing failed for m3: 'payload'"] in
  messages_list 10 tt = (Ret (Demo.unread 10), tt) /\
  batch process (get_or (messages (Demo.unread 10)) []) tt
    ([Some Demo.budget; Some Demo.weekly] ++ None :: [Some Demo.invite]) tt
    failed /\
  value (EmailAgent.execute 10 tt)
  = Ret [Demo.budget; Demo.weekly; Demo.invite].
Proof.
  intros process failed.
  assert (B : batch process (get_or (messages (Demo.unread 10)) []) tt
                ([Some Demo.budget; Some Demo.weekly]
                 ++ None :: [Some Demo.invite]) tt failed).
  { apply (batch_cons process {| ref_id := Some "m1" |} _ tt
             (Some Demo.budget) tt [] _ tt failed eq_refl).
    apply (batch_cons process {| ref_id := Some "m2" |} _ tt
             (Some Demo.weekly) tt [] _ tt failed eq_refl).
    apply (batch_cons process {| ref_id := Some "m3" |} _ tt None
             tt failed _ tt [] eq_refl).
    apply (batch_cons process {| ref_id := Some "m4" |} _ tt
             (Some Demo.invite) tt [] _ tt [] eq_refl).
    apply batch_nil. }
  split; [reflexivity|]. split; [exact B|].
  pose proof (X30_batch_isolation (lib := Demo.lib) (env := Demo.office)
      10 24 tt) as C.
  cbv zeta in C.
  destruct C as (_ & E & _).
  change (messages_list 10 tt) with (Ret (Demo.unread 10), tt) in E.
  destruct E as (_ & Single).
  exact (Single [Some Demo.budget; Some Demo.weekly] [Some Demo.invite]
           tt failed B).
Defined.

Lemma C6_witness :
  let e := Exn JSONDecodeError "Expecting value: line 1 column 1 (char 0)" in
  gateway_response "m2" tt
  = (Ret ("news@example.com", "Weekly", Demo.plain_reply), tt, []) /\
  json_loads Demo.plain_reply = Raise e /\
  exn_cls e = JSONDecodeError /\
  EmailAgent._process_email "m2" tt = (Ret (Some Demo.weekly), tt, []) /\
  messages_list 2 tt
  = (Ret {| messages := Some [ {| ref_id := Some "m1" |};
                               {| ref_id := Some "m2" |} ] |}, tt) /\
  exists s1 s2,
    value (EmailAgent.execute 2 tt) = Ret [s1; s2] /\
    priority s1 = PStr "High" /\
    priority s2 = PStr "Medium" /\ action_required s2 = PBool true.
Proof.
  intros e.
  destruct (C6_parse_failure_fallback (lib := Demo.lib) (env := Demo.office))
      as [One Two].
  refine (conj eq_refl (conj eq_refl (conj eq_refl (conj _ (conj eq_refl _))))).
  - exact (One "m2" tt _ _ _ tt [] e eq_refl eq_refl eq_refl).
  - destruct (Two 2%Z tt tt "m1" "m2"
                "cfo@example.com" "Budget" Demo.high_reply tt []
                [("summary", PStr "Budget sign-off due today");
                 ("priority", PStr "High")]
                "news@example.com" "Weekly" Demo.plain_reply tt [] e
                eq_refl eq_refl eq_refl eq_refl eq_refl eq_refl eq_refl)
      as (s1 & s2 & V & _ & P1 & P2 & A2 & _).
    exists s1, s2. auto.
Defined.

Lemma C7_witness :
  let sent ms :=
    posts (calls (AgenticWorkSystem._schedule_meeting_reminders ms tt)) in
  real_time_left Cases.utc Cases.long_over Demo.now = Some (minutes (-310)) /\
  sent [Cases.long_over]
  = [NotificationAgent.urgent_prefix ++ bell
     ++ " Reminder: 'Sync' starts in 20 minutes"] /\
  real_time_left Cases.utc Cases.in_a_quarter Demo.now = Some (minutes 15) /\
  meet_link Cases.in_a_quarter = None /\
  sent [Cases.in_a_quarter] = [].
Proof.
  intros sent.
  destruct (C7_reminder_names_reckoned_minutes (lib := Demo.lib)
              (env := Demo.office) Cases.utc Cases.long_over Demo.now
              Cases.ahead_5h30 (minutes (-310)) tt tt
              eq_refl eq_refl eq_refl) as (Late & _).
  destruct (C7_reminder_names_reckoned_minutes (lib := Demo.lib)
              (env := Demo.office) Cases.utc Cases.in_a_quarter Demo.now
              Cases.ahead_5h30 (minutes 15) tt tt
              eq_refl eq_refl eq_refl) as (_ & Missed).
  refine (conj eq_refl (conj (Late _) (conj eq_refl (conj eq_refl
            (Missed _))))).
  - unfold in_window, Cases.utc, Cases.ahead_5h30, minutes. lia.
  - unfold in_window, Cases.utc, Cases.ahead_5h30, minutes. lia.
Defined.


Lemma C10_witness :
  gateway_response "m4" tt = (Ret ("ann@example.com", "Lunch", "{}"), tt, []) /\
  json_loads "{}" = Ret (PDict []) /\
  EmailAgent._process_email "m4" tt = (Ret (Some Demo.invite), tt, []).
Proof.
  refine (conj eq_refl (conj eq_refl _)).
  destruct (C10_missing_key_defaults (lib := Demo.lib) (env := Demo.office)
      "m4" tt "ann@example.com" "Lunch" "{}"
              tt [] [] eq_refl eq_refl)
    as (s & Run & _ & _ & _ & _ & _ & _ & Defaults & _).
  rewrite Run, (Defaults eq_refl). reflexivity.
Defined.

End Office.

Section TornListing.
#[local] Existing Instance Demo.lib.
#[local] Existing Instance Cases.torn_listing.


End TornListing.

Section SlackDown.
#[local] Existing Instance Demo.lib.
#[local] Existing Instance Demo.slack_down.

Lemma C4_witness :
  chat_postMessage "#general" "Build finished" "AI Assistant" tt
  = (Raise Demo.channel_not_found, tt) /\
  exn_cls Demo.channel_not_found = SlackApiError /\
  NotificationAgent.execute "Build finished" None false tt
  = (Ret tt, tt,
     [PostMessage "#general" "Build finished" "AI Assistant";
      Log ERROR "Slack notification failed: channel_not_found"]).
Proof.
  refine (conj eq_refl (conj eq_refl _)).
  apply (C4_slack_api_error_swallowed (env := Demo.slack_down)
      "Build finished" None false tt tt
           Demo.channel_not_found eq_refl).
  reflexivity.
Defined.

End SlackDown.

Section NetworkDown.
#[local] Existing Instance Demo.lib.
#[local] Existing Instance Demo.network_down.

Lemma C4_counterexample :
  chat_postMessage "#general" "Build finished" "AI Assistant" tt
  = (Raise Demo.connection_refused, tt) /\
  value (NotificationAgent.execute "Build finished" None false tt)
  = Raise Demo.connection_refused.
Proof. split; reflexivity. Qed.

Lemma C5_counterexample :
  value (AgenticWorkSystem.run_daily_workflow tt)
  = Raise Demo.connection_refused.
Proof. vm_compute. reflexivity. Qed.

End NetworkDown.

Section Flaky.
#[local] Existing Instance Demo.lib.
#[local] Existing Instance Demo.flaky.

Lemma C5_witness :
  let emails := [Demo.budget; Demo.weekly; Demo.invite] in
  let meetings := [Demo.standup; Demo.design_review; Demo.lunch] in
  value (AgenticWorkSystem._send_daily_summary emails meetings tt)
  = Raise Demo.connection_refused /\
  value (AgenticWorkSystem.run_daily_workflow tt) = Ret tt /\
  posts (calls (AgenticWorkSystem.run_daily_workflow tt))
  = [join nl (digest_lines emails meetings);
     NotificationAgent.urgent_prefix ++ "Daily workflow failed: "
     ++ exn_str Demo.connection_refused].
Proof.
  intros emails meetings.
  destruct (C5_workflow_failure (lib := Demo.lib) (env := Demo.flaky) tt)
    as (emails' & meetings' & V1 & V2 & C).
  assert (E : Ret emails' = Ret emails)
    by (rewrite <- V1; vm_compute; reflexivity).
  assert (M : Ret meetings' = Ret meetings)
    by (rewrite <- V2; vm_compute; reflexivity).
  injection E as ->. injection M as ->. cbv zeta in C.
  change (value (AgenticWorkSystem._send_daily_summary emails meetings
                   (world (CalendarAgent.execute 24
                             (world (EmailAgent.execute 10 tt))))))
    with (@Raise unit Demo.connection_refused) in C.
  destruct C as (Run & _ & _).
  split; [vm_compute; reflexivity|].
  rewrite Run. split; vm_compute; reflexivity.
Defined.

End Flaky.

Section DocsDown.
#[local] Existing Instance Demo.lib.
#[local] Existing Instance Demo.docs_down.

Lemma C8_witness :
  let d := [("summary", PStr "Timeline reviewed");
            ("action_items",
             PList [PStr "Mike: backend"; PStr "John: follow-up"])] in
  let doc_title := "Meeting Notes - Project Review - 2024-01-15" in
  let e := Exn OtherError "HttpError 503: The service is unavailable." in
  drafted_note "John: Let's review the project timeline" Demo.project_review tt
  = (Ret (Demo.project_note, d), tt, []) /\
  documents_create doc_title tt = (Raise e, tt) /\
  MeetingNotesAgent.execute "John: Let's review the project timeline"
    Demo.project_review tt
  = (Ret (Some Demo.project_note), tt,
     [DocCreate doc_title;
      Log ERROR
        "Failed to save to Google Docs: HttpError 503: The service is unavailable."]).
Proof.
  intros d doc_title e.
  refine (conj eq_refl (conj eq_refl _)).
  destruct (C8_save_failure_keeps_note (lib := Demo.lib) (env := Demo.docs_down)
              "John: Let's review the project timeline" Demo.project_review
              tt tt Demo.project_note d [] eq_refl) as (_ & Create & _).
  exact (Create e tt eq_refl).
Defined.

End DocsDown.

(** The run of an ordinary day: the digest, then one reminder for each of
    the two meetings that start within the window. *)
Example office_daily_workflow :
  let run :=
    @AgenticWorkSystem.run_daily_workflow unit Demo.lib Demo.office tt in
  value run = Ret tt /\
  posts (calls run)
  = [join nl (digest_lines [Demo.budget; Demo.weekly; Demo.invite]
                [Demo.standup; Demo.design_review; Demo.lunch]);
     NotificationAgent.urgent_prefix ++ bell
     ++ " Reminder: 'Standup' starts in 15 minutes";
     NotificationAgent.urgent_prefix ++ bell
     ++ " Reminder: 'Design review' starts in 20 minutes" ++ nl
     ++ "Join: https://meet.example.com/abc"].
Proof. vm_compute. split; reflexivity. Qed.

(** The run of a day without mail and calendar: both failures are logged by
    the agents, the digest is the header, and nothing is reported as
    urgent. *)
Example offline_daily_workflow :
  @AgenticWorkSystem.run_daily_workflow unit Demo.lib Demo.offline tt
  = (Ret tt, tt,
     [Log INFO "Starting daily workflow...";
      Log ERROR "Email processing failed: HttpError 401: Invalid Credentials";
      Log ERROR
        "Calendar processing failed: HttpError 401: Invalid Credentials";
      PostMessage "#general" AgenticWorkSystem.header "AI Assistant";
      Log INFO "Notification sent to Slack: 1705312800.000100";
      Log INFO "Daily workflow completed successfully"]).
Proof. vm_compute. reflexivity. Qed.

(** A transcript whose analysis has two action items: the note has both,
    and the document store gets one creation and one insertion. *)
Example notes_with_two_action_items :
  let run :=
    @MeetingNotesAgent.execute unit Demo.lib Demo.office
      "Mike: I'll handle the backend integration" Demo.project_review tt in
  value run = Ret (Some Demo.project_note) /\
  action_items Demo.project_note
  = PList [PStr "Mike: backend"; PStr "John: follow-up"] /\
  length (filter (fun c => match c with DocCreate _ => true | _ => false end)
            (calls run)) = 1 /\
  length (filter (fun c => match c with DocUpdate _ _ => true | _ => false end)
            (calls run)) = 1.
Proof. vm_compute. repeat split. Qed.

(** * Further properties of the agents *)

(** ** Texts *)

Lemma length_append (a b : string) :
  String.length (a ++ b) = String.length a + String.length b.
Proof. induction a as [|c a IH]; simpl; congruence. Qed.

Lemma length_slice_to (n : nat) (s : string) :
  String.length (slice_to n s) = Nat.min n (String.length s).
Proof.
  unfold slice_to. revert s. induction n as [|n IH]; intros [|c s]; simpl;
    trivial. now rewrite IH.
Qed.

Lemma prefix_slice_to (n : nat) (s : string) : prefix (slice_to n s) s = true.
Proof.
  unfold slice_to. revert s. induction n as [|n IH]; intros [|c s]; simpl;
    trivial. destruct (ascii_dec c c); [apply IH | congruence].
Qed.

Lemma slice_to_short (n : nat) (s : string) :
  String.length s <= n -> slice_to n s = s.
Proof.
  unfold slice_to. revert s. induction n as [|n IH]; intros [|c s] L; simpl in *;
    trivial; try lia. f_equal. apply IH. lia.
Qed.

(** X1.  The text kept when a response does not parse is bounded: the
    summary of the fallback email record is the first 200 characters of the
    response, a prefix of it of the length of the response or 200, whichever
    is less; the summary of the fallback notes is the first 500 characters
    of the analysis, and their lists are empty. *)
Theorem X1_fallback_texts_bounded (sender subject response analysis : string) :
  let kept := slice_to 200 response in
  let noted := slice_to 500 analysis in
  summary (EmailAgent.fallback_summary sender subject response) = PStr kept /\
  String.length kept = Nat.min 200 (String.length response) /\
  prefix kept response = true /\
  as_dict (MeetingNotesAgent.fallback_notes analysis)
  = Ret [("summary", PStr noted); ("key_decisions", PList []);
         ("action_items", PList []); ("important_topics", PList []);
         ("next_steps", PList [])] /\
  String.length noted = Nat.min 500 (String.length analysis) /\
  prefix noted analysis = true.
Proof.
  intros kept noted. unfold kept, noted.
  repeat split;
    auto using length_slice_to, prefix_slice_to, slice_to_short.
Qed.

(** X2.  The prompt for an email carries at most 2000 characters of the
    body, whatever the length of the body: its length is that of the
    subject, the sender and the 177 characters of the template, plus the
    length of the body up to 2000; the prompt of a body is the prompt of
    its first 2000 characters. *)
Theorem X2_email_prompt_bounded (subject sender body : string) :
  String.length (EmailAgent.summary_prompt subject sender body)
  = String.length subject + String.length sender
    + Nat.min 2000 (String.length body) + 177 /\
  EmailAgent.summary_prompt subject sender body
  = EmailAgent.summary_prompt subject sender (slice_to 2000 body).
Proof.
  split.
  - unfold EmailAgent.summary_prompt.
    rewrite !length_append, length_slice_to. cbn [String.length nl]. lia.
  - unfold EmailAgent.summary_prompt.
    rewrite (slice_to_short 2000 (slice_to 2000 body)); [reflexivity|].
    rewrite length_slice_to. lia.
Qed.

(** ** Reading a message *)

Section Reading.
Context {W : Type} {lib : PyLib} {env : Providers W}.

(** X3.  A header is read at its first occurrence: the value of the first
    header named [key], whatever follows it, and the empty text when no
    header has that name. *)
Theorem X3_header_first_match (key : string) (pre post hs : list Header)
  (h : Header) :
  (Forall (other_name key) pre ->
   h_name h = Some key ->
   EmailAgent.next_header key (pre ++ h :: post)
   = getitem "value" (h_value h)) /\
  (Forall (other_name key) hs -> EmailAgent.next_header key hs = Ret "").
Proof.
  split.
  - intros Pre Name. induction Pre as [|x pre (n & Hn & Ne) _ IH]; cbn.
    + rewrite Name. cbn. now rewrite String.eqb_refl.
    + rewrite Hn. cbn. apply String.eqb_neq in Ne. now rewrite Ne.
  - intros All. induction All as [|x tl (n & Hn & Ne) _ IH]; cbn; trivial.
    rewrite Hn. cbn. apply String.eqb_neq in Ne. now rewrite Ne.
Qed.

(** X4.  The body of a message with parts is the decoded data of its first
    plain-text part: the parts before it are passed over, the parts after
    it and the payload's own type and body are not looked at. *)
Theorem X4_body_first_plain_part (pl : Payload) (pre post : list Part)
  (p : Part) (b : Body) (d : string) :
  parts pl = Some (pre ++ p :: post)%list ->
  Forall other_type pre ->
  part_mimeType p = Some "text/plain" ->
  part_body p = Some b ->
  data b = Some d ->
  EmailAgent._extract_email_body pl = urlsafe_b64decode_utf8 d.
Proof.
  intros Ps Pre Mt Bd Dt. unfold EmailAgent._extract_email_body. rewrite Ps.
  clear Ps. induction Pre as [|x pre (mt & Hm & Ne) _ IH]; cbn.
  - rewrite Mt, Bd. cbn. rewrite Dt. reflexivity.
  - rewrite Hm. cbn. apply String.eqb_neq in Ne. now rewrite Ne.
Qed.

(** X5.  A message without a plain-text part has the empty body: when none
    of its parts is plain text (the parts are not searched any deeper), and
    when it has no parts and is itself of another type.  A payload with
    neither parts nor a type raises [KeyError]. *)
Theorem X5_body_without_plain_text (pl : Payload) :
  (forall ps, parts pl = Some ps -> Forall other_type ps ->
              EmailAgent._extract_email_body pl = Ret "") /\
  (forall mt, parts pl = None -> mimeType pl = Some mt ->
              mt <> "text/plain" ->
              EmailAgent._extract_email_body pl = Ret "") /\
  (parts pl = None -> mimeType pl = None ->
   EmailAgent._extract_email_body pl = Raise (Exn KeyError "'mimeType'")).
Proof.
  unfold EmailAgent._extract_email_body. repeat split.
  - intros ps Ps All. rewrite Ps. clear Ps.
    induction All as [|x tl (mt & Hm & Ne) _ IH]; cbn; trivial.
    rewrite Hm. cbn. apply String.eqb_neq in Ne. now rewrite Ne.
  - intros mt Ps Mt Ne. rewrite Ps, Mt. cbn.
    apply String.eqb_neq in Ne. now rewrite Ne.
  - intros Ps Mt. now rewrite Ps, Mt.
Qed.

(** What the Gateway is asked once the message is read. *)
Lemma gateway_response_fetched (message_id : string) (w : W) :
  gateway_response message_id w
  = match fetched_email message_id w with
    | (Ret (sender, subject, body), w1, t1) =>
        let r :=
          BaseAgent.get_llm_response
            (EmailAgent.summary_prompt subject sender body)
            EmailAgent.system_prompt w1 in
        match value r with
        | Ret response =>
            (Ret (sender, subject, response), world r, (t1 ++ calls r)%list)
        | Raise e => (Raise e, world r, (t1 ++ calls r)%list)
        end
    | (Raise e, w1, t1) => (Raise e, w1, t1)
    end.
Proof.
  unfold gateway_response, fetched_email.
  unfold bind, lift, call, ret.
  destruct (messages_get message_id w) as [[message|e] w1]; [|reflexivity].
  destruct (getitem "payload" (payload message)) as [pl|e]; [|reflexivity].
  destruct (EmailAgent.next_header "Subject" _) as [subject|e];
    [|reflexivity].
  destruct (EmailAgent.next_header "From" _) as [sender|e]; [|reflexivity].
  destruct (EmailAgent._extract_email_body pl) as [body|e]; [|reflexivity].
  cbn.
  destruct (BaseAgent.get_llm_response _ _ w1) as [[[response|e] w2] t2];
    cbn; rewrite ?app_nil_r; reflexivity.
Qed.

(** What the Gateway answers, by the answer of the text generation. *)
Lemma llm_run (prompt system_prompt : string) (w : W) :
  BaseAgent.get_llm_response prompt system_prompt w
  = match chat_completion system_prompt prompt w with
    | (Ret r, w1) => (Ret r, w1, [])
    | (Raise e, w1) =>
        (Ret "", w1, [Log ERROR ("LLM request failed: " ++ exn_str e)])
    end.
Proof.
  unfold BaseAgent.get_llm_response, try_except, call, bind, logger_error,
    emit, ret, Exception.
  destruct (chat_completion system_prompt prompt w) as [[r|e] w1];
    reflexivity.
Qed.

(** X6.  When the text generation fails for a message that was read, the
    failure is logged and the message still gets a summary: the fallback
    record with an empty summary, priority [Medium] and action required
    (the empty response does not parse). *)
Theorem X6_email_gateway_outage (message_id : string) (w w1 w2 : W)
  (from title body : string) (t1 : list effect) (e e' : exn) :
  fetched_email message_id w = (Ret (from, title, body), w1, t1) ->
  chat_completion EmailAgent.system_prompt
    (EmailAgent.summary_prompt title from body) w1 = (Raise e, w2) ->
  json_loads "" = Raise e' ->
  exn_cls e' = JSONDecodeError ->
  EmailAgent._process_email message_id w
  = (Ret (Some {| sender := from; subject := title; summary := PStr "";
                  priority := PStr "Medium"; action_required := PBool true;
                  meeting_info := PNone |}), w2,
     (t1 ++ [Log ERROR ("LLM request failed: " ++ exn_str e)])%list).
Proof.
  intros F C J K.
  rewrite process_email_run, gateway_response_fetched, F. cbv zeta.
  rewrite llm_run, C. cbn [value world calls fst snd].
  rewrite J. unfold only. rewrite K. reflexivity.
Qed.

(** X7.  The batch agents always return a list, with at most one record
    for each item of the listing, in particular the empty list for a
    listing that failed or has no items; the bound is the length of the
    listing, not the number that was asked for. *)
Theorem X7_results_within_listing (max_emails hours_ahead : Z) (w : W) :
  (exists l,
      value (EmailAgent.execute max_emails w) = Ret l /\
      length l
      <= match fst (messages_list max_emails w) with
         | Ret listing => length (get_or (messages listing) [])
         | Raise _ => 0
         end) /\
  (exists l,
      value (CalendarAgent.execute hours_ahead w) = Ret l /\
      length l
      <= match fst (listed_events hours_ahead w) with
         | Ret listing => length (get_or (items listing) [])
         | Raise _ => 0
         end).
Proof.
  assert (Somes : forall B (rs : list (option B)),
             length (somes rs) <= length rs).
  { intros B rs. induction rs as [|[v|] tl IH]; simpl; lia. }
  split.
  - destruct (messages_list max_emails w) as [[listing|e] w0] eqn:E.
    + unfold EmailAgent.execute, try_except.
      rewrite (bind_run _ _ w listing w0 [])
        by (unfold call; now rewrite E).
      cbn [fst value world calls].
      pose proof (for_collect_length email_item
                    (get_or (messages listing) []) [] w0) as Len.
      unfold email_item in Len.
      match goal with
      | |- context [for_collect ?b ?xs [] w0] =>
          destruct (for_collect b xs [] w0) as [[[l|e] w1] t1]
      end.
      * exists l. split; [reflexivity|]. now apply Len.
      * exists []. split; [reflexivity|]. simpl. lia.
    + rewrite (email_execute_fetch_failed _ _ _ _ E).
      exists []. split; [reflexivity|]. cbn. lia.
  - destruct (listed_events hours_ahead w) as [[listing|e] w1] eqn:E.
    + destruct (batch_exists CalendarAgent._analyze_meeting
                  returns_analyze_meeting
                  (get_or (items listing) []) w1) as (rs & w' & t & Hb).
      rewrite (calendar_execute_batch _ _ _ _ _ _ _ E Hb).
      exists (somes rs). split; [reflexivity|]. cbn [fst].
      rewrite <- (batch_length _ _ _ _ _ _ Hb). apply Somes.
    + rewrite (calendar_execute_fetch_failed _ _ _ _ E).
      exists []. split; [reflexivity|]. cbn. lia.
Qed.

End Reading.

(** ** Events and notes *)

Section Events.
Context {W : Type} {lib : PyLib} {env : Providers W}.

(** X8.  An event without a start is dropped before the Gateway is asked:
    the world is left as it was and one error is logged.  An event with a
    start but without an id is dropped after the Gateway was asked. *)
Theorem X8_event_without_start_or_id (event : CalendarEvent) (w : W) :
  (ev_start event = None ->
   CalendarAgent._analyze_meeting event w
   = (Ret None, w, [Log ERROR "Meeting analysis failed: 'start'"])) /\
  (forall st, ev_start event = Some st -> ev_id event = None ->
     let asked :=
       BaseAgent.get_llm_response
         (CalendarAgent.analysis_prompt
            (get_or (ev_summary event) "No title")
            (get_or (ev_description event) "")
            (get_or (ev_attendees event) []))
         CalendarAgent.system_prompt w in
     CalendarAgent._analyze_meeting event w
     = (Ret None, world asked,
        (calls asked ++ [Log ERROR "Meeting analysis failed: 'id'"])%list)).
Proof.
  split.
  - intros S. unfold CalendarAgent._analyze_meeting, try_except, bind, lift.
    rewrite S. reflexivity.
  - intros st S I asked.
    unfold CalendarAgent._analyze_meeting, try_except, bind, lift, Exception.
    rewrite S, I. subst asked. cbn -[BaseAgent.get_llm_response].
    rewrite !llm_run.
    destruct (chat_completion _ _ w) as [[r|e] w1]; reflexivity.
Qed.

(** X9.  An event with a start and an id always gives a record, whatever
    the text generation does: the title is the summary or [No title], the
    start time is the [dateTime] or else the [date], the attendees are the
    emails of the event's attendees in order (the empty text for an
    attendee without one), and the analysis is the answer of the text
    generation, empty when it failed. *)
Theorem X9_event_record (event : CalendarEvent) (w : W) (st : EventStart)
  (i : string) :
  ev_start event = Some st ->
  ev_id event = Some i ->
  let title := get_or (ev_summary event) "No title" in
  let description := get_or (ev_description event) "" in
  let invited := get_or (ev_attendees event) [] in
  let asked :=
    chat_completion CalendarAgent.system_prompt
      (CalendarAgent.analysis_prompt title description invited) w in
  let answer := match fst asked with Ret r => r | Raise _ => "" end in
  CalendarAgent._analyze_meeting event w
  = (Ret (Some {| id_ := i;
                  title := title;
                  start_time :=
                    match dateTime st with
                    | Some d => Some d
                    | None => date_ st
                    end;
                  attendees := map (fun a => get_or (email a) "") invited;
                  description := description;
                  analysis := answer;
                  meet_link := CalendarAgent._extract_meet_link event |}),
     snd asked,
     match fst asked with
     | Ret _ => []
     | Raise e => [Log ERROR ("LLM request failed: " ++ exn_str e)]
     end).
Proof.
  intros S I title description invited asked answer.
  unfold CalendarAgent._analyze_meeting, try_except, bind, lift, ret.
  rewrite S, I. cbn -[BaseAgent.get_llm_response].
  fold title description invited.
  rewrite llm_run. subst answer. unfold asked.
  destruct (chat_completion _ _ w) as [[r|e] w1]; reflexivity.
Qed.

(** X10.  The link of a meeting is the address of the first video entry
    point of the event, also when that entry has no address and a later
    one has; an event whose entry points are all of other types has no
    link. *)
Theorem X10_meet_link_first_video (event : CalendarEvent)
  (cd : ConferenceData) (pre post eps : list EntryPoint) (e : EntryPoint) :
  conferenceData event = Some cd ->
  (entryPoints cd = Some (pre ++ e :: post)%list ->
   Forall not_video pre ->
   entryPointType e = Some "video" ->
   CalendarAgent._extract_meet_link event = uri e) /\
  (entryPoints cd = Some eps ->
   Forall not_video eps ->
   CalendarAgent._extract_meet_link event = None) /\
  (entryPoints cd = None -> CalendarAgent._extract_meet_link event = None).
Proof.
  intros C. unfold CalendarAgent._extract_meet_link. rewrite C. cbn.
  assert (Skip : forall x, not_video x ->
                           CalendarAgent.opt_eqb (entryPointType x) "video"
                           = false).
  { intros x N. unfold not_video in N. unfold CalendarAgent.opt_eqb.
    destruct (entryPointType x) as [t|]; trivial.
    apply String.eqb_neq. congruence. }
  repeat split.
  - intros E Pre V. rewrite E. cbn. clear E.
    induction Pre as [|x pre N _ IH]; cbn.
    + rewrite V. cbn. reflexivity.
    + now rewrite (Skip x N).
  - intros E All. rewrite E. cbn. clear E.
    induction All as [|x tl N _ IH]; cbn; trivial. now rewrite (Skip x N).
  - intros E. now rewrite E.
Qed.

End Events.

Section NotesAgent.
Context {W : Type} {lib : PyLib} {env : Providers W}.

(** The note that [execute] drafts, by the answer of the Gateway. *)
Lemma drafted_note_run transcript (info : MeetingInfo) (w : W) :
  drafted_note transcript info w
  = let asked :=
      BaseAgent.get_llm_response
        (MeetingNotesAgent.analysis_prompt info transcript)
        MeetingNotesAgent.system_prompt w in
    match value asked with
    | Raise e => (Raise e, world asked, calls asked)
    | Ret analysis =>
        let notes_data :=
          match json_loads analysis with
          | Ret v => Ret v
          | Raise e =>
              if only JSONDecodeError e
              then Ret (MeetingNotesAgent.fallback_notes analysis)
              else Raise e
          end in
        match notes_data with
        | Raise e => (Raise e, world asked, calls asked)
        | Ret v =>
            let '(now, w2) := datetime_now (world asked) in
            match as_dict v with
            | Raise e => (Raise e, w2, calls asked)
            | Ret d =>
                (Ret ({| meeting_id := get_or (mi_id info) "";
                         note_title := get_or (mi_title info) "";
                         date := now;
                         participants := get_or (mi_attendees info) [];
                         note_summary := dict_get d "summary" (PStr "");
                         action_items := dict_get d "action_items" (PList []);
                         key_decisions :=
                           dict_get d "key_decisions" (PList []) |}, d),
                 w2, calls asked)
            end
        end
    end.
Proof.
  unfold drafted_note. cbv zeta.
  unfold bind, try_except, lift, read, ret.
  destruct (BaseAgent.get_llm_response _ _ w) as [[[analysis|e] w1] t1];
    [|reflexivity].
  cbn [value world calls fst snd].
  destruct (json_loads analysis) as [v|e].
  - destruct (datetime_now w1) as [now w2].
    destruct (as_dict v) as [d|e']; cbn; rewrite ?app_nil_r; reflexivity.
  - destruct (only JSONDecodeError e);
      [|cbn; rewrite ?app_nil_r; reflexivity].
    destruct (datetime_now w1) as [now w2]. cbn. rewrite ?app_nil_r.
    reflexivity.
Qed.

(** X11.  When the analysis of a transcript does not parse, the notes agent
    still returns a note: its summary is the first 500 characters of the
    analysis, its action items and decisions are empty lists, and its id,
    title and participants are those of the meeting, or empty. *)
Theorem X11_notes_parse_failure_fallback transcript (info : MeetingInfo)
  (w w1 w2 : W) (analysis : string) (t1 : list effect) (e : exn)
  (now : datetime) :
  BaseAgent.get_llm_response
    (MeetingNotesAgent.analysis_prompt info transcript)
    MeetingNotesAgent.system_prompt w = (Ret analysis, w1, t1) ->
  json_loads analysis = Raise e ->
  exn_cls e = JSONDecodeError ->
  datetime_now w1 = (now, w2) ->
  exists w3 t3,
    MeetingNotesAgent.execute transcript info w
    = (Ret (Some {| meeting_id := get_or (mi_id info) "";
                    note_title := get_or (mi_title info) "";
                    date := now;
                    participants := get_or (mi_attendees info) [];
                    note_summary := PStr (slice_to 500 analysis);
                    action_items := PList [];
                    key_decisions := PList [] |}), w3, (t1 ++ t3)%list).
Proof.
  intros A J K N.
  rewrite notes_execute_run, drafted_note_run, A. cbv zeta.
  cbn [value world calls fst snd]. rewrite J. unfold only. rewrite K.
  cbn [exn_class_eqb]. rewrite N. cbn.
  eexists _, _. reflexivity.
Qed.

(** X12.  When the analysis parses, but not as an object, the notes agent
    returns no note and does not touch the document store: the only call
    after the Gateway is the error it logs. *)
Theorem X12_notes_not_an_object transcript (info : MeetingInfo)
  (w w1 w2 : W) (analysis : string) (t1 : list effect) (v : pyval)
  (now : datetime) :
  BaseAgent.get_llm_response
    (MeetingNotesAgent.analysis_prompt info transcript)
    MeetingNotesAgent.system_prompt w = (Ret analysis, w1, t1) ->
  json_loads analysis = Ret v ->
  (forall d, v <> PDict d) ->
  datetime_now w1 = (now, w2) ->
  MeetingNotesAgent.execute transcript info w
  = (Ret None, w2,
     (t1 ++ [Log ERROR ("Meeting notes processing failed: '" ++ type_name v
                        ++ "' object has no attribute 'get'")])%list).
Proof.
  intros A J D N.
  rewrite notes_execute_run, drafted_note_run, A. cbv zeta.
  cbn [value world calls fst snd]. rewrite J, N.
  destruct v; try reflexivity. now destruct (D d).
Qed.

(** The text of the document is built exactly when the four lists can be
    run over. *)
Lemma doc_content_iterable (note : MeetingNote) (d : list (string * pyval)) :
  let all :=
    iterable (key_decisions note) && iterable (action_items note)
    && iterable (dict_get d "important_topics" (PList []))
    && iterable (dict_get d "next_steps" (PList [])) in
  match MeetingNotesAgent.doc_content note d with
  | Ret _ => all = true
  | Raise e => all = false /\ exn_cls e = TypeError
  end.
Proof.
  unfold MeetingNotesAgent.doc_content, MeetingNotesAgent.bullets, obind.
  destruct (key_decisions note), (action_items note),
    (dict_get d "important_topics" (PList [])),
    (dict_get d "next_steps" (PList [])); cbn; auto.
Qed.

(** X13.  A note whose lists can be run over is saved by one creation and
    one insertion, in this order, the insertion into the document that the
    creation returned; the save then logs the id. *)
Theorem X13_save_creates_then_inserts (note : MeetingNote)
  (d : list (string * pyval)) (w w1 w2 : W) (doc : Document) :
  let doc_title :=
    "Meeting Notes - " ++ note_title note ++ " - "
    ++ strftime (date note) "%Y-%m-%d" in
  iterable (key_decisions note) && iterable (action_items note)
  && iterable (dict_get d "important_topics" (PList []))
  && iterable (dict_get d "next_steps" (PList [])) = true ->
  documents_create doc_title w = (Ret doc, w1) ->
  (forall content,
      MeetingNotesAgent.doc_content note d = Ret content ->
      documents_batchUpdate (documentId doc) content w1 = (Ret tt, w2)) ->
  exists content,
    MeetingNotesAgent.doc_content note d = Ret content /\
    MeetingNotesAgent._save_to_docs note d w
    = (Ret tt, w2,
       [DocCreate doc_title; DocUpdate (documentId doc) content;
        Log INFO ("Meeting notes saved to Google Docs: "
                  ++ str_of_opt (documentId doc))]).
Proof.
  intros doc_title It C U.
  pose proof (doc_content_iterable note d) as I. cbv zeta in I.
  destruct (MeetingNotesAgent.doc_content note d) as [content|e] eqn:D.
  - exists content. split; [reflexivity|].
    unfold MeetingNotesAgent._save_to_docs. fold doc_title.
    apply try_except_ret.
    unfold bind, emit, call, lift, logger_info.
    rewrite C, D, (U content eq_refl). reflexivity.
  - destruct I as [I _]. congruence.
Qed.

(** X14.  A note with a list that cannot be run over (an analysis with
    [null] for its action items, say) leaves an empty document behind: the
    document is created, the building of its text raises [TypeError], which
    is logged, and nothing is inserted. *)
Theorem X14_save_leaves_empty_document (note : MeetingNote)
  (d : list (string * pyval)) (w w1 : W) (doc : Document) :
  let doc_title :=
    "Meeting Notes - " ++ note_title note ++ " - "
    ++ strftime (date note) "%Y-%m-%d" in
  iterable (key_decisions note) && iterable (action_items note)
  && iterable (dict_get d "important_topics" (PList []))
  && iterable (dict_get d "next_steps" (PList [])) = false ->
  documents_create doc_title w = (Ret doc, w1) ->
  exists e,
    exn_cls e = TypeError /\
    MeetingNotesAgent._save_to_docs note d w
    = (Ret tt, w1,
       [DocCreate doc_title;
        Log ERROR ("Failed to save to Google Docs: " ++ exn_str e)]).
Proof.
  intros doc_title It C.
  pose proof (doc_content_iterable note d) as I. cbv zeta in I.
  destruct (MeetingNotesAgent.doc_content note d) as [content|e] eqn:D.
  - congruence.
  - exists e. split; [apply I|].
    unfold MeetingNotesAgent._save_to_docs. fold doc_title.
    caught e w1 [DocCreate doc_title]; [|reflexivity].
    unfold bind, emit, call, lift. now rewrite C, D.
Qed.

End NotesAgent.

(** ** Notifications, digest and reminders *)

Lemma firstn_length_min {A} (n : nat) (l : list A) :
  length (firstn n l) = Nat.min n (length l).
Proof.
  revert l. induction n as [|n IH]; intros [|x l]; simpl; trivial.
  now rewrite IH.
Qed.

Lemma count_high_le (emails : list EmailSummary) :
  count_high emails <= length emails.
Proof.
  induction emails as [|e tl IH]; simpl; trivial.
  destruct (eq_str (priority e) "High"); lia.
Qed.

(** X16.  The digest has between one and seven parts: the header first,
    one count line for the emails when there are some, one for the
    high-priority ones when there are some (never more of those than
    emails), and for the meetings their count line and at most three
    lines, however many meetings there are. *)
Theorem X16_digest_bounds (emails : list EmailSummary)
  (meetings : list MeetingRecord) :
  let parts := AgenticWorkSystem.summary_parts emails meetings in
  hd "" parts = AgenticWorkSystem.header /\
  length parts
  = 1 + (if truthy_list emails then 1 else 0)
    + (if Nat.eqb (count_high emails) 0 then 0 else 1)
    + (if truthy_list meetings then 1 + Nat.min 3 (length meetings) else 0) /\
  1 <= length parts <= 7 /\
  count_high emails <= length emails.
Proof.
  intros parts.
  assert (L : length parts
              = 1 + (if truthy_list emails then 1 else 0)
                + (if Nat.eqb (count_high emails) 0 then 0 else 1)
                + (if truthy_list meetings
                   then 1 + Nat.min 3 (length meetings) else 0)).
  { unfold parts. rewrite summary_parts_lines. unfold digest_lines.
    rewrite !length_app, length_map, firstn_length_min.
    destruct emails as [|e tl]; [|destruct (count_high (e :: tl))];
      destruct meetings; cbn; lia. }
  split; [|split; [exact L|split; [|apply count_high_le]]].
  - unfold parts. rewrite summary_parts_lines. reflexivity.
  - rewrite L.
    destruct (truthy_list emails), (Nat.eqb (count_high emails) 0),
      (truthy_list meetings); lia.
Qed.

(** The whole minutes of a time left in the window are between 15 and 30:
    the time left divided by a minute and rounded down. *)
Lemma whole_minutes_in_window (delta : Z) :
  in_window delta ->
  let m := whole_minutes delta in
  (15 <= m <= 30)%Z /\ (minutes m <= delta < minutes (m + 1))%Z.
Proof.
  unfold in_window, whole_minutes, minutes. intros I. cbv zeta.
  pose proof (Z.div_mod delta 60000000 ltac:(lia)) as D.
  pose proof (Z.mod_pos_bound delta 60000000 ltac:(lia)) as B.
  split; [split|]; lia.
Qed.

Section Orchestration.
Context {W : Type} {lib : PyLib} {env : Providers W}.

(** X17.  Every message that the reminder check hands to the chat
    provider is the reminder of one of the meetings of the list and names
    a number of minutes between 15 and 30: the urgent mark, the title of
    the meeting, the number, and the line of the link when the meeting has
    one. *)
Theorem X17_reminder_minutes_bounds (meetings : list MeetingRecord) (w : W)
  (text : string) :
  In text
    (posts (calls (AgenticWorkSystem._schedule_meeting_reminders meetings w)))
  ->
  exists meeting m,
    In meeting meetings /\
    (15 <= m <= 30)%Z /\
    text
    = NotificationAgent.urgent_prefix
      ++ (let head :=
            bell ++ " Reminder: '" ++ title meeting ++ "' starts in "
            ++ str_of_Z m ++ " minutes" in
          match meet_link meeting with
          | Some (String c tl) => head ++ nl ++ "Join: " ++ String c tl
          | _ => head
          end).
Proof.
  revert w. induction meetings as [|meeting tl IH]; intros w Sent.
  - contradiction.
  - rewrite schedule_cons in Sent. cbn [calls snd] in Sent.
    rewrite posts_app in Sent. apply in_app_or in Sent.
    destruct Sent as [First|Rest].
    + exists meeting.
      destruct (datetime_now w) as [now w1] eqn:N.
      rewrite (remind_posts _ _ _ _ N) in First.
      destruct (time_left meeting now) as [delta|]; [|contradiction].
      destruct ((minutes 15 <=? delta)%Z && (delta <=? minutes 30)%Z)
        eqn:T; [|contradiction].
      apply window_test in T.
      destruct First as [<-|[]].
      exists (whole_minutes delta).
      split; [now left|].
      split; [apply (whole_minutes_in_window delta T)|].
      now rewrite reminder_msg_shape.
    + destruct (IH _ Rest) as (m0 & m & I & B & E).
      exists m0, m. split; [now right|]. now split.
Qed.

(** X15.  Every call of the notification agent hands one message to the
    chat provider and never a second one: to the given channel, or to
    [#general] when there is none or it is empty, under the name
    [AI Assistant], with the urgent mark in front exactly when asked; what
    follows is at most one line of log. *)
Theorem X15_notification_single_post (message : string)
  (channel : option string) (urgent : bool) (w : W) :
  exists rest,
    calls (NotificationAgent.execute message channel urgent w)
    = PostMessage
        (match channel with
         | Some (String c s) => String c s
         | _ => "#general"
         end)
        (if urgent then NotificationAgent.urgent_prefix ++ message
         else message)
        "AI Assistant" :: rest /\
    posts rest = [] /\ length rest <= 1.
Proof.
  rewrite notify_run. cbv zeta. unfold target, outgoing.
  destruct (chat_postMessage _ _ _ w) as [[response|e] w1].
  - eexists. split; [reflexivity|]. cbn. auto.
  - destruct (only SlackApiError e); eexists; (split; [reflexivity|]);
      cbn; auto.
Qed.

(** X18.  A reminder whose send fails does not stop the check: whatever
    the exception, it is logged (by the notification agent for a
    [SlackApiError], by the check under the title of the meeting
    otherwise) and the check goes on with the meetings that follow. *)
Theorem X18_reminder_failure_contained (meeting : MeetingRecord)
  (later : list MeetingRecord) (now : datetime) (delta : Z) (w w1 w2 : W)
  (e : exn) :
  datetime_now w = (now, w1) ->
  time_left meeting now = Some delta ->
  in_window delta ->
  let text :=
    NotificationAgent.urgent_prefix
    ++ AgenticWorkSystem.reminder_msg meeting delta in
  chat_postMessage "#general" text "AI Assistant" w1 = (Raise e, w2) ->
  let rest := AgenticWorkSystem._schedule_meeting_reminders later w2 in
  AgenticWorkSystem._schedule_meeting_reminders (meeting :: later) w
  = (Ret tt, world rest,
     (PostMessage "#general" text "AI Assistant"
      :: Log ERROR
           (if only SlackApiError e
            then "Slack notification failed: " ++ exn_str e
            else "Failed to schedule reminder for " ++ title meeting ++ ": "
                 ++ exn_str e)
      :: calls rest)%list).
Proof.
  intros N T I text C rest.
  unfold time_left in T.
  destruct (start_time meeting) as [txt|] eqn:S; [|discriminate].
  destruct (fromisoformat (replace "Z" "+00:00" txt)) as [start|e0] eqn:P;
    [|discriminate].
  injection T as T.
  assert (R : AgenticWorkSystem.remind meeting w
              = (Ret tt, w2,
                 [PostMessage "#general" text "AI Assistant";
                  Log ERROR
                    (if only SlackApiError e
                     then "Slack notification failed: " ++ exn_str e
                     else "Failed to schedule reminder for " ++ title meeting
                          ++ ": " ++ exn_str e)])).
  { rewrite (remind_run _ _ _ _ _ _ S P N). rewrite T.
    apply window_test in I. rewrite I. cbv zeta.
    rewrite notify_run. cbv zeta. cbn [target outgoing]. fold text.
    rewrite C. destruct (only SlackApiError e); reflexivity. }
  rewrite schedule_cons. rewrite R. cbn [value world calls fst snd].
  fold rest. reflexivity.
Qed.

(** X19.  When the listings of both the mail and the calendar fail, the
    daily run still completes: each failure is logged by its agent, the
    digest is the header alone, no reminder and no failure notice is sent,
    and the run logs its success. *)
Theorem X19_outage_gives_header_digest (w w1 w3 w4 : W) (e1 e2 : exn)
  (response : SlackResponse) :
  messages_list 10 w = (Raise e1, w1) ->
  listed_events 24 w1 = (Raise e2, w3) ->
  chat_postMessage "#general" AgenticWorkSystem.header "AI Assistant" w3
  = (Ret response, w4) ->
  AgenticWorkSystem.run_daily_workflow w
  = (Ret tt, w4,
     [Log INFO "Starting daily workflow...";
      Log ERROR ("Email processing failed: " ++ exn_str e1);
      Log ERROR ("Calendar processing failed: " ++ exn_str e2);
      PostMessage "#general" AgenticWorkSystem.header "AI Assistant";
      Log INFO ("Notification sent to Slack: " ++ str_of_opt (ts response));
      Log INFO "Daily workflow completed successfully"]).
Proof.
  intros M E C.
  unfold AgenticWorkSystem.run_daily_workflow.
  apply try_except_ret.
  unfold bind at 1. unfold logger_info at 1, emit.
  rewrite (bind_run _ _ _ _ _ _ (email_execute_fetch_failed _ _ _ _ M)).
  cbn [value world calls fst snd].
  rewrite (bind_run _ _ _ _ _ _
             (calendar_execute_fetch_failed _ _ _ _ E)).
  cbn [value world calls fst snd].
  assert (D : AgenticWorkSystem._send_daily_summary [] [] w3
              = (Ret tt, w4,
                 [PostMessage "#general" AgenticWorkSystem.header
                    "AI Assistant";
                  Log INFO ("Notification sent to Slack: "
                            ++ str_of_opt (ts response))])).
  { unfold AgenticWorkSystem._send_daily_summary.
    change (join nl (AgenticWorkSystem.summary_parts [] []))
      with AgenticWorkSystem.header.
    rewrite notify_run. cbv zeta. cbn [target outgoing].
    rewrite C. reflexivity. }
  rewrite (bind_run _ _ _ _ _ _ D). cbn [value world calls fst snd].
  cbn. reflexivity.
Qed.

(** What [process_meeting_transcript] does, by what the notes agent
    returns. *)
Lemma transcript_run transcript (info : MeetingInfo) (w : W) :
  AgenticWorkSystem.process_meeting_transcript transcript info w
  = let r := MeetingNotesAgent.execute transcript info w in
    match value r with
    | Ret (Some note) =>
        let n :=
          NotificationAgent.execute (completion_notice note) None false
            (world r) in
        match value n with
        | Ret _ => (Ret (Some note), world n, (calls r ++ calls n)%list)
        | Raise e =>
            (Ret None, world n,
             (calls r ++ calls n
              ++ [Log ERROR ("Meeting transcript processing failed: "
                             ++ exn_str e)])%list)
        end
    | Ret None => (Ret None, world r, calls r)
    | Raise e =>
        (Ret None, world r,
         (calls r ++ [Log ERROR ("Meeting transcript processing failed: "
                                 ++ exn_str e)])%list)
    end.
Proof.
  unfold AgenticWorkSystem.process_meeting_transcript, completion_notice.
  unfold try_except at 1. unfold bind at 1. unfold Exception.
  destruct (MeetingNotesAgent.execute transcript info w)
    as [[[[note|]|e] w1] t1]; cbn [value world calls fst snd].
  - unfold bind, ret.
    destruct (NotificationAgent.execute _ None false w1)
      as [[[[]|e] w2] t2]; cbn; rewrite ?app_nil_r, <- ?app_assoc;
      reflexivity.
  - cbn. rewrite ?app_nil_r. reflexivity.
  - cbn. reflexivity.
Qed.

(** X20.  A transcript whose note could not be saved is still announced as
    saved: the note is returned and the notice for it is sent, once and
    not urgent, after the failure of the document store was logged. *)
Theorem X20_notice_sent_when_save_failed transcript (info : MeetingInfo)
  (w w1 w2 w3 : W) (note : MeetingNote) (d : list (string * pyval))
  (t1 : list effect) (e : exn) (response : SlackResponse) :
  drafted_note transcript info w = (Ret (note, d), w1, t1) ->
  documents_create (doc_title_of note) w1 = (Raise e, w2) ->
  chat_postMessage "#general" (completion_notice note) "AI Assistant" w2
  = (Ret response, w3) ->
  AgenticWorkSystem.process_meeting_transcript transcript info w
  = (Ret (Some note), w3,
     (t1 ++ [DocCreate (doc_title_of note);
             Log ERROR ("Failed to save to Google Docs: " ++ exn_str e);
             PostMessage "#general" (completion_notice note) "AI Assistant";
             Log INFO ("Notification sent to Slack: "
                       ++ str_of_opt (ts response))])%list).
Proof.
  intros D C P.
  rewrite transcript_run, notes_execute_run, D. cbv zeta.
  rewrite (save_to_docs_create_failed note d _ _ _ C).
  cbn [value world calls fst snd].
  rewrite notify_run. cbv zeta. cbn [target outgoing]. rewrite P.
  cbn [value world calls fst snd]. rewrite <- app_assoc. reflexivity.
Qed.

(** X21.  When the send of the notice raises something other than a
    [SlackApiError], the caller gets no note although the note was made
    and its save was tried: the exception is logged and [None] is
    returned. *)
Theorem X21_notice_failure_loses_note transcript (info : MeetingInfo)
  (w w1 w2 : W) (note : MeetingNote) (t1 : list effect) (e : exn) :
  MeetingNotesAgent.execute transcript info w = (Ret (Some note), w1, t1) ->
  chat_postMessage "#general" (completion_notice note) "AI Assistant" w1
  = (Raise e, w2) ->
  exn_cls e <> SlackApiError ->
  AgenticWorkSystem.process_meeting_transcript transcript info w
  = (Ret None, w2,
     (t1 ++ [PostMessage "#general" (completion_notice note) "AI Assistant";
             Log ERROR ("Meeting transcript processing failed: "
                        ++ exn_str e)])%list).
Proof.
  intros X P K.
  rewrite transcript_run, X. cbv zeta. cbn [value world calls fst snd].
  rewrite notify_run. cbv zeta. cbn [target outgoing]. rewrite P.
  assert (O : only SlackApiError e = false).
  { unfold only. destruct (exn_cls e); trivial. congruence. }
  rewrite O. reflexivity.
Qed.

(** X22.  [process_meeting_transcript] never raises, and when the notes
    agent returns no note it sends no notice: it does what the notes agent
    did and returns [None]. *)
Theorem X22_transcript_without_note transcript (info : MeetingInfo) (w : W) :
  (exists r,
      value (AgenticWorkSystem.process_meeting_transcript transcript info w)
      = Ret r) /\
  (value (MeetingNotesAgent.execute transcript info w) = Ret None ->
   AgenticWorkSystem.process_meeting_transcript transcript info w
   = MeetingNotesAgent.execute transcript info w).
Proof.
  rewrite transcript_run. cbv zeta.
  destruct (MeetingNotesAgent.execute transcript info w)
    as [[[[note|]|e] w1] t1]; cbn [value world calls fst snd].
  - split; [|discriminate].
    destruct (value (NotificationAgent.execute _ None false w1));
      eexists; reflexivity.
  - split; [eexists; reflexivity|reflexivity].
  - split; [eexists; reflexivity|discriminate].
Qed.

End Orchestration.

(** ** The registry of agents and the start-up *)

Lemma outside_run {W A} (c : M W A) (s : System) w :
  outside c (s, w) = (value (c w), (s, world (c w)), calls (c w)).
Proof. unfold outside. cbn. destruct (c w) as [[o w1] t]. reflexivity. Qed.

Lemma outside_bind {W A B} (s : System) (c : M W A) (k : A -> M W B) C K :
  (forall w, C (s, w) = outside c (s, w)) ->
  (forall a w, K a (s, w) = outside (k a) (s, w)) ->
  forall w, bind C K (s, w) = outside (bind c k) (s, w).
Proof.
  intros Hc Hk w. unfold bind. rewrite Hc, !outside_run.
  destruct (c w) as [[[a|e] w1] t1]; [|reflexivity]. cbn.
  rewrite Hk, outside_run.
  destruct (k a w1) as [[o w2] t2]. reflexivity.
Qed.

Lemma outside_try {W A} (s : System) p (c : M W A) h C H :
  (forall w, C (s, w) = outside c (s, w)) ->
  (forall e w, H e (s, w) = outside (h e) (s, w)) ->
  forall w, try_except p C H (s, w) = outside (try_except p c h) (s, w).
Proof.
  intros Hc Hh w. unfold try_except. rewrite Hc, !outside_run.
  destruct (c w) as [[[a|e] w1] t1]; [reflexivity|]. cbn.
  destruct (p e); [|reflexivity].
  rewrite Hh, outside_run.
  destruct (h e w1) as [[o w2] t2]. reflexivity.
Qed.

Lemma outside_for_each {W A} (s : System) (f : A -> M W unit) F l :
  (forall a w, F a (s, w) = outside (f a) (s, w)) ->
  forall w, for_each F l (s, w) = outside (for_each f l) (s, w).
Proof.
  intros Hf. induction l as [|x l IH]; intros w; [reflexivity|].
  cbn [for_each]. now apply outside_bind.
Qed.

Lemma outside_emit {W} (s : System) e (w : W) :
  emit e (s, w) = outside (emit e) (s, w).
Proof. reflexivity. Qed.

Lemma outside_lift {W A} (s : System) (o : outcome A) (w : W) :
  lift o (s, w) = outside (lift o) (s, w).
Proof. reflexivity. Qed.

Lemma outside_ret {W A} (s : System) (a : A) (w : W) :
  ret a (s, w) = outside (ret a) (s, w).
Proof. reflexivity. Qed.

Section Registry.
Context {W : Type} {lib : PyLib} {env : Providers W} {st : Startup W}.

(** A look-up in a filled registry goes through. *)
Lemma agent_found {A} (s : System) ag name (K : M (System * W) A) w :
  agents s = Some ag ->
  registered name = true ->
  bind (WithRegistry.agent name) (fun _ => K) (s, w) = K (s, w).
Proof.
  intros E R. unfold bind, WithRegistry.agent, self_, lift.
  cbn -[registered]. rewrite E, R. cbn.
  destruct (K (s, w)) as [[o w2] t2]. reflexivity.
Qed.

(** A look-up in an empty registry raises [KeyError]. *)
Lemma agent_missing {A} (s : System) name (K : M (System * W) A) w :
  agents s = None ->
  bind (WithRegistry.agent name) (fun _ => K) (s, w)
  = (Raise (Exn KeyError ("'" ++ name ++ "'")), (s, w), []).
Proof.
  intros E. unfold bind, WithRegistry.agent, self_, lift. cbn. rewrite E.
  reflexivity.
Qed.

Lemma registry_remind s ag meeting w :
  agents s = Some ag ->
  WithRegistry.remind meeting (s, w)
  = outside (AgenticWorkSystem.remind meeting) (s, w).
Proof.
  intros E. revert w. unfold WithRegistry.remind, AgenticWorkSystem.remind.
  apply outside_try; [|intros; apply outside_emit].
  apply outside_bind; [intros; apply outside_lift|]. intros text.
  apply outside_bind; [intros; apply outside_lift|]. intros start.
  apply outside_bind; [reflexivity|]. intros local.
  apply outside_bind; [intros; apply outside_lift|]. intros delta w.
  destruct (_ && _); [|reflexivity].
  now rewrite (agent_found s ag) by (first [exact E|reflexivity]).
Qed.

Lemma registry_workflow (s : System) (ag : Agents) (w : W) :
  agents s = Some ag ->
  WithRegistry.run_daily_workflow (s, w)
  = outside AgenticWorkSystem.run_daily_workflow (s, w).
Proof.
  intros E. revert w.
  unfold WithRegistry.run_daily_workflow, AgenticWorkSystem.run_daily_workflow.
  apply outside_try.
  - apply outside_bind; [intros; apply outside_emit|]. intros _ w.
    rewrite (agent_found s ag) by (first [exact E|reflexivity]). revert w.
    apply outside_bind; [reflexivity|]. intros emails w.
    rewrite (agent_found s ag) by (first [exact E|reflexivity]). revert w.
    apply outside_bind; [reflexivity|]. intros meetings.
    apply outside_bind.
    { intros w. unfold WithRegistry._send_daily_summary.
      now rewrite (agent_found s ag) by (first [exact E|reflexivity]). }
    intros _. apply outside_bind; [|intros; apply outside_emit].
    apply outside_for_each. intros m w. now apply registry_remind with ag.
  - intros e. apply outside_bind; [intros; apply outside_emit|]. intros _ w.
    now rewrite (agent_found s ag) by (first [exact E|reflexivity]).
Qed.

Lemma registry_transcript (s : System) (ag : Agents) transcript info (w : W) :
  agents s = Some ag ->
  WithRegistry.process_meeting_transcript transcript info (s, w)
  = outside (AgenticWorkSystem.process_meeting_transcript transcript info)
      (s, w).
Proof.
  intros E. revert w.
  unfold WithRegistry.process_meeting_transcript,
    AgenticWorkSystem.process_meeting_transcript.
  apply outside_try.
  - intros w. rewrite (agent_found s ag) by (first [exact E|reflexivity]). revert w.
    apply outside_bind; [reflexivity|]. intros [note|] w; [|reflexivity].
    rewrite (agent_found s ag) by (first [exact E|reflexivity]). revert w.
    apply outside_bind; [reflexivity|]. intros _ w. reflexivity.
  - intros e. apply outside_bind; [intros; apply outside_emit|].
    intros _ w. reflexivity.
Qed.

(** X23.  Once the registry is filled, the daily workflow of the object
    is the workflow of the four agents: the same outcome, the same calls
    in the same order and the same change of the outside world, with the
    object left as it is. *)
Theorem X23_registry_daily_workflow (s : System) (ag : Agents) (w : W) :
  agents s = Some ag ->
  let r := AgenticWorkSystem.run_daily_workflow w in
  WithRegistry.run_daily_workflow (s, w) = (value r, (s, world r), calls r).
Proof.
  intros E r. subst r. rewrite (registry_workflow s ag w E).
  apply outside_run.
Qed.

(** X24.  Once the registry is filled, the processing of a transcript by
    the object is the processing by the notes agent followed by the
    notice of the notification agent: the same result, the same calls and
    the same change of the outside world, with the object left as it
    is. *)
Theorem X24_registry_transcript (s : System) (ag : Agents) transcript info
  (w : W) :
  agents s = Some ag ->
  let r := AgenticWorkSystem.process_meeting_transcript transcript info w in
  WithRegistry.process_meeting_transcript transcript info (s, w)
  = (value r, (s, world r), calls r).
Proof.
  intros E r. subst r. rewrite (registry_transcript s ag _ _ w E).
  apply outside_run.
Qed.

(** X25.  On an object whose registry is empty, as it is before
    [initialize], the daily workflow logs its start and the failure of
    the first look-up and then raises [KeyError] from its own handler,
    and a transcript gives [None] after one error in the log; neither
    reaches a service. *)
Theorem X25_before_initialize (s : System) transcript info (w : W) :
  agents s = None ->
  WithRegistry.run_daily_workflow (s, w)
  = (Raise (Exn KeyError "'notification'"), (s, w),
     [Log INFO "Starting daily workflow...";
      Log ERROR "Daily workflow failed: 'email'"])
  /\ WithRegistry.process_meeting_transcript transcript info (s, w)
     = (Ret None, (s, w),
        [Log ERROR "Meeting transcript processing failed: 'notes'"]).
Proof.
  intros E. split.
  - unfold WithRegistry.run_daily_workflow.
    caught (Exn KeyError "'email'") (s, w)
      [Log INFO "Starting daily workflow..."].
    { rewrite (bind_run _ _ _ tt (s, w) [Log INFO "Starting daily workflow..."])
        by reflexivity.
      rewrite agent_missing by exact E. reflexivity. }
    rewrite (bind_run _ _ _ tt (s, w)
               [Log ERROR "Daily workflow failed: 'email'"]) by reflexivity.
    rewrite agent_missing by exact E. reflexivity.
  - unfold WithRegistry.process_meeting_transcript.
    caught (Exn KeyError "'notes'") (s, w) (@nil effect).
    { now rewrite agent_missing. }
    reflexivity.
Qed.

End Registry.

Section StartUp.
Context {W : Type} {lib : PyLib} {env : Providers W} {st : Startup W}.

Lemma outside_call {A} (f : W -> outcome A * W) (s : System) w :
  outside (call f) (s, w) = (fst (f w), (s, snd (f w)), []).
Proof. unfold outside, call. cbn. destruct (f w) as [o w1]. reflexivity. Qed.

Lemma untouched_ret {A} (a : A) : untouched (@ret (System * W) A a).
Proof. intros s w. now exists (Ret a), w. Qed.

Lemma untouched_lift {A} (o : outcome A) : untouched (@lift (System * W) A o).
Proof. intros s w. now exists o, w. Qed.

Lemma untouched_call {A} (f : W -> outcome A * W) :
  untouched (outside (call f)).
Proof. intros s w. rewrite outside_call. eauto. Qed.

Lemma untouched_read {A} (f : W -> A * W) : untouched (outside (read f)).
Proof.
  intros s w. unfold outside, read. cbn. destruct (f w) as [a w1]. eauto.
Qed.

Lemma untouched_bind {A B} (C : M (System * W) A) (K : A -> M (System * W) B) :
  untouched C -> (forall a, untouched (K a)) -> untouched (bind C K).
Proof.
  intros HC HK s w. destruct (HC s w) as (o & w1 & E).
  unfold bind. rewrite E. destruct o as [a|e]; [|eauto].
  destruct (HK a s w1) as (o2 & w2 & E2). rewrite E2. eauto.
Qed.

(** Runs a computation that leaves the object as it is, then goes on. *)
Lemma untouched_then {A B} (C : M (System * W) A) (K : A -> M (System * W) B)
  s w (P : outcome B * (System * W) * list effect -> Prop) :
  untouched C ->
  (forall e w', P (Raise e, (s, w'), [])) ->
  (forall a w', P (K a (s, w'))) ->
  P (bind C K (s, w)).
Proof.
  intros HC HR HK. destruct (HC s w) as (o & w1 & E).
  unfold bind. rewrite E. destruct o as [a|e]; [|apply HR].
  specialize (HK a w1). destruct (K a (s, w1)) as [[o2 w2] t2]. exact HK.
Qed.

Lemma assign_then {B} f (K : unit -> M (System * W) B) s w
  (P : outcome B * (System * W) * list effect -> Prop) :
  P (K tt (f s, w)) -> P (bind (assign f) K (s, w)).
Proof.
  intros HK. unfold bind, assign. cbn.
  destruct (K tt (f s, w)) as [[o2 w2] t2]. exact HK.
Qed.

Lemma run_then {A B} (C : M (System * W) A) (K : A -> M (System * W) B)
  sw a sw1 (P : outcome B * (System * W) * list effect -> Prop) :
  C sw = (Ret a, sw1, []) -> P (K a sw1) -> P (bind C K sw).
Proof.
  intros E HK. unfold bind. rewrite E.
  destruct (K a sw1) as [[o2 w2] t2]. exact HK.
Qed.

Lemma raise_then {A B} (C : M (System * W) A) (K : A -> M (System * W) B)
  sw e sw1 (P : outcome B * (System * W) * list effect -> Prop) :
  C sw = (Raise e, sw1, []) -> P (Raise e, sw1, []) -> P (bind C K sw).
Proof. intros E HR. unfold bind. now rewrite E. Qed.

(** The three services are built one after the other and assigned
    together. *)
Lemma build_services_run creds s w :
  (exists e w',
      WithRegistry.build_services creds (s, w) = (Raise e, (s, w'), []))
  \/ (exists g c d w',
         WithRegistry.build_services creds (s, w)
         = (Ret tt, (installed s g c d, w'), [])).
Proof.
  unfold WithRegistry.build_services.
  apply untouched_then; [apply untouched_call|left; eauto|]. intros g w1.
  apply untouched_then; [apply untouched_call|left; eauto|]. intros c w2.
  apply untouched_then; [apply untouched_call|left; eauto|]. intros d w3.
  right. exists g, c, d, w3. reflexivity.
Qed.

(** The services are assigned together, or the object stays as it was. *)
Lemma setup_run path s w :
  (exists e w',
      WithRegistry._setup_google_services path (s, w)
      = (Raise e, (s, w'), []))
  \/ (exists g c d w',
         WithRegistry._setup_google_services path (s, w)
         = (Ret tt, (installed s g c d, w'), [])).
Proof.
  unfold WithRegistry._setup_google_services.
  assert (F : forall p,
             untouched (W := W)
               (flow <- outside (call (from_client_secrets_file p
                                         WithRegistry.SCOPES)) ;;
                c' <- outside (call (run_local_server flow)) ;;
                outside (call (write_text "token.json" (to_json c'))) ;;
                ret c')).
  { intros p. repeat (apply untouched_bind; [|intros]);
      auto using untouched_call, untouched_ret. }
  apply untouched_then; [|left; eauto|].
  { destruct os_module; [apply untouched_read|apply untouched_lift]. }
  intros found w1.
  apply untouched_then; [|left; eauto|].
  { destruct found; [|apply untouched_ret].
    apply untouched_bind; [apply untouched_call|intros; apply untouched_ret]. }
  intros stored w2.
  apply untouched_then; [|left; eauto|intros; apply build_services_run].
  destruct stored as [c|]; [|apply F].
  destruct (valid c); [apply untouched_ret|].
  apply untouched_bind.
  - destruct (_ && _); [apply untouched_call|].
    apply untouched_bind; intros; apply untouched_call.
  - intros c'. apply untouched_bind; [apply untouched_call|].
    intros; apply untouched_ret.
Qed.

(** The start-up ends with the object ready and one line in the log, or
    raises after one error in the log with the registry and the chat
    client as they were. *)
Lemma initialize_run config s w :
  (exists e s' w',
      WithRegistry.initialize config (s, w)
      = (Raise e, (s', w'),
         [Log ERROR ("System initialization failed: " ++ exn_str e)])
      /\ agents s' = agents s /\ slack_client s' = slack_client s)
  \/ (exists client slack g c d w',
         WithRegistry.initialize config (s, w)
         = (Ret tt, (ready client slack g c d, w'),
            [Log INFO "Agentic work system initialized successfully"])).
Proof.
  unfold WithRegistry.initialize.
  match goal with
  | |- context [try_except _ ?b _] => set (body := b)
  end.
  assert (B : (exists e s' w',
                  body (s, w) = (Raise e, (s', w'), [])
                  /\ agents s' = agents s /\ slack_client s' = slack_client s)
              \/ (exists client slack g c d w',
                     body (s, w)
                     = (Ret tt, (ready client slack g c d, w'),
                        [Log INFO
                           "Agentic work system initialized successfully"]))).
  { subst body.
    apply untouched_then; [apply untouched_call|left; eauto 6|].
    intros client w1. apply assign_then.
    apply untouched_then; [apply untouched_lift|left; eauto 6|].
    intros path w2.
    match goal with
    | |- context [bind _ _ (?x, w2)] =>
        destruct (setup_run path x w2)
          as [(e & w3 & E)|(g & c & d & w3 & E)]
    end.
    { eapply raise_then; [exact E|]. left. eauto 6. }
    eapply run_then; [exact E|].
    apply untouched_then; [apply untouched_lift|left; eauto 6|].
    intros tok w4.
    apply untouched_then; [apply untouched_call|left; eauto 6|].
    intros slack w5. apply assign_then.
    eapply run_then; [reflexivity|].
    eapply run_then; [reflexivity|].
    eapply run_then; [reflexivity|].
    apply assign_then.
    right. exists client, slack, g, c, d, w5. reflexivity. }
  destruct B as [(e & s' & w' & E & Ea & Es)|(client & slack & g & c & d & w' & E)].
  - left. exists e, s', w'. split; [|now split].
    now rewrite (try_except_caught _ _ _ _ _ _ _ E eq_refl).
  - right. exists client, slack, g, c, d, w'.
    now rewrite (try_except_ret _ _ _ _ _ _ _ E).
Qed.

(** X26.  The start-up is all or nothing for the registry: when it
    returns, the object holds both clients, the three services and the
    four agents built from them, and the log has the one line of success;
    when it raises, the registry and the chat client are as they were and
    the log has the one line of the failure, with the text of the
    exception that is raised again. *)
Theorem X26_initialize_all_or_nothing (config : Config) (s : System) (w : W) :
  let r := WithRegistry.initialize config (s, w) in
  match value r with
  | Ret _ =>
      (exists client slack g c d,
          fst (world r) = ready client slack g c d)
      /\ calls r = [Log INFO "Agentic work system initialized successfully"]
  | Raise e =>
      agents (fst (world r)) = agents s
      /\ slack_client (fst (world r)) = slack_client s
      /\ calls r = [Log ERROR ("System initialization failed: " ++ exn_str e)]
  end.
Proof.
  intros r. subst r.
  destruct (initialize_run config s w)
    as [(e & s' & w' & E & Ea & Es)|(client & slack & g & c & d & w' & E)];
    rewrite E; cbn.
  - now repeat split.
  - split; [|reflexivity]. now exists client, slack, g, c, d.
Qed.

(** X27.  Where the module global [os] is not bound, which is the case
    whenever the file is imported and not run as a script, the start-up
    always raises; with a language client and a credentials path at hand
    the exception is the one of the unbound name. *)
Theorem X27_initialize_without_os (config : Config) (s : System) (w : W) :
  os_module = false ->
  exists e,
    value (WithRegistry.initialize config (s, w)) = Raise e
    /\ (forall client w1 path,
           new_llama_client
             (get_or (llama_stack_url config) "http://localhost:5000") w
           = (Ret client, w1) ->
           google_credentials config = Some path ->
           e = Exn OtherError "name 'os' is not defined").
Proof.
  intros O. unfold WithRegistry.initialize.
  match goal with
  | |- context [try_except _ ?b _] => set (body := b)
  end.
  assert (B : exists e s' w',
             body (s, w) = (Raise e, (s', w'), [])
             /\ (forall client w1 path,
                    new_llama_client
                      (get_or (llama_stack_url config)
                         "http://localhost:5000") w
                    = (Ret client, w1) ->
                    google_credentials config = Some path ->
                    e = Exn OtherError "name 'os' is not defined")).
  { subst body.
    destruct (new_llama_client _ w) as [[client|e] w1] eqn:L.
    2:{ eapply raise_then; [rewrite outside_call, L; reflexivity|].
        eexists _, _, _. split; [reflexivity|]. intros ? ? ? [=]. }
    eapply run_then; [rewrite outside_call, L; reflexivity|].
    apply assign_then.
    destruct (google_credentials config) as [path|] eqn:G.
    2:{ eapply raise_then; [reflexivity|].
        eexists _, _, _. split; [reflexivity|]. intros ? ? ? _ [=]. }
    eapply run_then; [reflexivity|].
    eapply raise_then.
    { unfold WithRegistry._setup_google_services. rewrite O. reflexivity. }
    eexists _, _, _. split; reflexivity. }
  destruct B as (e & s' & w' & E & He).
  exists e. split; [|exact He].
  now rewrite (try_except_caught _ _ _ _ _ _ _ E eq_refl).
Qed.

(** X28.  The program as a whole: when the start-up raises, [main]
    raises the same exception and nothing but the error of the start-up
    is logged; when it returns, [main] goes on as the daily workflow of
    the four agents followed by the processing of the sample transcript,
    and prints the line of the summary if a note comes back. *)
Theorem X28_main_composition (w : W) :
  WithRegistry.main w
  = (let r := WithRegistry.initialize WithRegistry.main_config
                (new_system, w) in
     match value r with
     | Raise e =>
         (Raise e, snd (world r),
          [Log ERROR ("System initialization failed: " ++ exn_str e)])
     | Ret _ =>
         let r' := after_startup (snd (world r)) in
         (value r', world r',
          Log INFO "Agentic work system initialized successfully" :: calls r')
     end).
Proof.
  unfold WithRegistry.main. cbv zeta.
  destruct (initialize_run WithRegistry.main_config new_system w)
    as [(e & s' & w' & E & Ea & Es)|(client & slack & g & c & d & w' & E)].
  - rewrite (bind_raise _ _ _ _ _ _ E). rewrite E. reflexivity.
  - rewrite (bind_run _ _ _ _ _ _ E). rewrite E. cbn [value world calls fst snd].
    set (s := ready client slack g c d).
    cbn beta.
    match goal with
    | |- context [value (?K (_, w'))] =>
        assert (R : K (s, w') = outside after_startup (s, w'))
    end.
    { unfold after_startup. apply outside_bind.
      - intros w0. eapply registry_workflow. reflexivity.
      - intros _. apply outside_bind.
        + intros w0. eapply registry_transcript. reflexivity.
        + intros [note|] w0; reflexivity. }
    fold s. rewrite R, outside_run. reflexivity.
Qed.

(** X29.  The three services are assigned together or not at all: when
    the set-up of the services returns, the object has exactly the
    services gmail, calendar and docs and is otherwise as it was; when it
    raises, the object is as it was; nothing is logged in either case. *)
Theorem X29_services_all_or_nothing (path : string) (s : System) (w : W) :
  let r := WithRegistry._setup_google_services path (s, w) in
  calls r = []
  /\ match value r with
     | Ret _ =>
         map fst (google_services (fst (world r)))
         = ["gmail"; "calendar"; "docs"]
         /\ llama_client (fst (world r)) = llama_client s
         /\ agents (fst (world r)) = agents s
         /\ slack_client (fst (world r)) = slack_client s
     | Raise _ => fst (world r) = s
     end.
Proof.
  intros r. subst r.
  destruct (setup_run path s w) as [(e & w' & E)|(g & c & d & w' & E)];
    rewrite E; cbn; now repeat split.
Qed.

End StartUp.

(** ** The further properties at work *)

Section AtTheOffice.
#[local] Existing Instance Demo.lib.
#[local] Existing Instance Demo.office.

Lemma X3_witness :
  let from := Cases.header_of "From" "cfo@example.com" in
  let first := Cases.header_of "Subject" "Budget" in
  let second := Cases.header_of "Subject" "Re: Budget" in
  EmailAgent.next_header "Subject" [from; first; second] = Ret "Budget" /\
  EmailAgent.next_header "Subject" [from] = Ret "".
Proof.
  intros from first second.
  assert (F : Forall (other_name "Subject") [from]).
  { repeat constructor. exists "From". split; [reflexivity|discriminate]. }
  destruct (X3_header_first_match "Subject" [from] [second] [from] first)
    as [First Absent].
  exact (conj (First F eq_refl) (Absent F)).
Defined.

Lemma X4_witness :
  Forall other_type [Cases.html_part] /\
  EmailAgent._extract_email_body Cases.two_plain
  = Ret "Budget".
Proof.
  assert (F : Forall other_type [Cases.html_part]).
  { repeat constructor. exists "text/html". split; [reflexivity|discriminate]. }
  refine (conj F _).
  exact (X4_body_first_plain_part (lib := Demo.lib) Cases.two_plain
           [Cases.html_part] [Demo.text_part "TmV3cw=="]
           (Demo.text_part "QnVkZ2V0") {| data := Some "QnVkZ2V0" |}
           "QnVkZ2V0" eq_refl F eq_refl eq_refl eq_refl).
Defined.

Lemma X5_witness :
  EmailAgent._extract_email_body Cases.html_only = Ret "" /\
  EmailAgent._extract_email_body Cases.single_html = Ret "" /\
  EmailAgent._extract_email_body Cases.untyped
  = Raise (Exn KeyError "'mimeType'").
Proof.
  assert (F : Forall other_type [Cases.html_part; Cases.html_part]).
  { repeat constructor; exists "text/html"; (split; [reflexivity|discriminate]). }
  assert (N : "text/html" <> "text/plain") by discriminate.
  destruct (X5_body_without_plain_text (lib := Demo.lib) Cases.html_only)
    as (Parts & _ & _).
  destruct (X5_body_without_plain_text (lib := Demo.lib) Cases.single_html)
    as (_ & Single & _).
  destruct (X5_body_without_plain_text (lib := Demo.lib) Cases.untyped)
    as (_ & _ & Untyped).
  exact (conj (Parts _ eq_refl F)
           (conj (Single "text/html" eq_refl eq_refl N)
              (Untyped eq_refl eq_refl))).
Defined.

Lemma X8_witness :
  let unscheduled := Cases.event_with (Some "e9") None None in
  let anonymous := Cases.event_with None (Some Cases.at_noon) None in
  CalendarAgent._analyze_meeting unscheduled tt
  = (Ret None, tt, [Log ERROR "Meeting analysis failed: 'start'"]) /\
  CalendarAgent._analyze_meeting anonymous tt
  = (Ret None, tt, [Log ERROR "Meeting analysis failed: 'id'"]).
Proof.
  intros unscheduled anonymous.
  destruct (X8_event_without_start_or_id (env := Demo.office) unscheduled tt) as [Start _].
  destruct (X8_event_without_start_or_id (env := Demo.office) anonymous tt) as [_ Id].
  exact (conj (Start eq_refl) (Id Cases.at_noon eq_refl eq_refl)).
Defined.

Lemma X9_witness :
  CalendarAgent._analyze_meeting
    (Cases.event_with (Some "e9") (Some Cases.at_noon) None) tt
  = (Ret (Some {| id_ := "e9"; title := "Retro";
                  start_time := Some "2024-01-15T12:00:00";
                  attendees := []; description := "";
                  analysis := Demo.plain_reply; meet_link := None |}),
     tt, []).
Proof.
  exact (X9_event_record (env := Demo.office)
           (Cases.event_with (Some "e9") (Some Cases.at_noon) None) tt
           Cases.at_noon "e9" eq_refl eq_refl).
Defined.

Lemma X10_witness :
  let first := Cases.video_at (Some "https://meet.example.com/abc") in
  let second := Cases.video_at (Some "https://meet.example.com/xyz") in
  let with_points eps :=
    Cases.event_with None None (Some {| entryPoints := eps |}) in
  CalendarAgent._extract_meet_link
    (with_points (Some [Cases.phone; first; second]))
  = Some "https://meet.example.com/abc" /\
  CalendarAgent._extract_meet_link (with_points (Some [Cases.phone])) = None /\
  CalendarAgent._extract_meet_link (with_points None) = None.
Proof.
  intros first second with_points.
  assert (F : Forall not_video [Cases.phone]).
  { repeat constructor. discriminate. }
  destruct (X10_meet_link_first_video
              (with_points (Some [Cases.phone; first; second]))
              {| entryPoints := Some [Cases.phone; first; second] |}
              [Cases.phone] [second] [] first eq_refl) as (First & _ & _).
  destruct (X10_meet_link_first_video (with_points (Some [Cases.phone]))
              {| entryPoints := Some [Cases.phone] |}
              [] [] [Cases.phone] first eq_refl) as (_ & Other & _).
  destruct (X10_meet_link_first_video (with_points None)
              {| entryPoints := None |} [] [] [] first eq_refl)
    as (_ & _ & Missing).
  exact (conj (First eq_refl F eq_refl)
           (conj (Other eq_refl F) (Missing eq_refl))).
Defined.

Lemma X13_witness :
  let d := [("summary", PStr "Timeline reviewed");
            ("action_items",
             PList [PStr "Mike: backend"; PStr "John: follow-up"])] in
  let doc_title := "Meeting Notes - Project Review - 2024-01-15" in
  documents_create doc_title tt = (Ret {| documentId := Some "doc-1" |}, tt) /\
  exists content,
    MeetingNotesAgent.doc_content Demo.project_note d = Ret content /\
    MeetingNotesAgent._save_to_docs Demo.project_note d tt
    = (Ret tt, tt,
       [DocCreate doc_title; DocUpdate (Some "doc-1") content;
        Log INFO "Meeting notes saved to Google Docs: doc-1"]).
Proof.
  intros d doc_title.
  refine (conj eq_refl _).
  exact (X13_save_creates_then_inserts (lib := Demo.lib) (env := Demo.office)
           Demo.project_note d tt tt tt {| documentId := Some "doc-1" |}
           eq_refl eq_refl (fun _ _ => eq_refl)).
Defined.

Lemma X14_witness :
  let d := [("summary", PStr "Timeline reviewed"); ("action_items", PNone)] in
  let doc_title := "Meeting Notes - Project Review - 2024-01-15" in
  documents_create doc_title tt = (Ret {| documentId := Some "doc-1" |}, tt) /\
  exists e,
    exn_cls e = TypeError /\
    MeetingNotesAgent._save_to_docs Cases.null_items d tt
    = (Ret tt, tt,
       [DocCreate doc_title;
        Log ERROR ("Failed to save to Google Docs: " ++ exn_str e)]).
Proof.
  intros d doc_title.
  refine (conj eq_refl _).
  exact (X14_save_leaves_empty_document (lib := Demo.lib) (env := Demo.office)
           Cases.null_items d tt tt {| documentId := Some "doc-1" |}
           eq_refl eq_refl).
Defined.

Lemma X17_witness :
  let text :=
    NotificationAgent.urgent_prefix ++ bell
    ++ " Reminder: 'Standup' starts in 15 minutes" in
  let ms := [Demo.standup; Demo.design_review; Demo.lunch] in
  In text (posts (calls (AgenticWorkSystem._schedule_meeting_reminders ms tt)))
  /\
  exists meeting m,
    In meeting ms /\
    (15 <= m <= 30)%Z /\
    text
    = NotificationAgent.urgent_prefix
      ++ (let head :=
            bell ++ " Reminder: '" ++ title meeting ++ "' starts in "
            ++ str_of_Z m ++ " minutes" in
          match meet_link meeting with
          | Some (String c tl) => head ++ nl ++ "Join: " ++ String c tl
          | _ => head
          end).
Proof.
  intros text ms.
  assert (Sent : In text
                   (posts (calls (AgenticWorkSystem._schedule_meeting_reminders
                                    ms tt))))
    by (left; reflexivity).
  exact (conj Sent
           (X17_reminder_minutes_bounds (lib := Demo.lib) (env := Demo.office)
              ms tt text Sent)).
Defined.

Lemma X23_witness :
  agents Cases.started <> None /\
  let r := AgenticWorkSystem.run_daily_workflow tt in
  WithRegistry.run_daily_workflow (Cases.started, tt)
  = (value r, (Cases.started, world r), calls r).
Proof.
  refine (conj _ _); [discriminate|].
  exact (X23_registry_daily_workflow (lib := Demo.lib) (env := Demo.office)
           Cases.started _ tt eq_refl).
Defined.

Lemma X24_witness :
  agents Cases.started <> None /\
  let r :=
    AgenticWorkSystem.process_meeting_transcript
      WithRegistry.sample_transcript WithRegistry.sample_meeting_info tt in
  WithRegistry.process_meeting_transcript WithRegistry.sample_transcript
    WithRegistry.sample_meeting_info (Cases.started, tt)
  = (value r, (Cases.started, world r), calls r).
Proof.
  refine (conj _ _); [discriminate|].
  exact (X24_registry_transcript (lib := Demo.lib) (env := Demo.office)
           Cases.started _ WithRegistry.sample_transcript
           WithRegistry.sample_meeting_info tt eq_refl).
Defined.

Lemma X25_witness :
  agents new_system = None /\
  WithRegistry.run_daily_workflow (new_system, tt)
  = (Raise (Exn KeyError "'notification'"), (new_system, tt),
     [Log INFO "Starting daily workflow...";
      Log ERROR "Daily workflow failed: 'email'"]) /\
  WithRegistry.process_meeting_transcript WithRegistry.sample_transcript
    WithRegistry.sample_meeting_info (new_system, tt)
  = (Ret None, (new_system, tt),
     [Log ERROR "Meeting transcript processing failed: 'notes'"]).
Proof.
  refine (conj eq_refl _).
  exact (X25_before_initialize (lib := Demo.lib) (env := Demo.office)
           new_system WithRegistry.sample_transcript
           WithRegistry.sample_meeting_info tt eq_refl).
Defined.

End AtTheOffice.

Section GatewayDown.
#[local] Existing Instance Demo.lib.
#[local] Existing Instance Cases.gateway_down.

Lemma X6_witness :
  fetched_email "m2" tt
  = (Ret ("news@example.com", "Weekly", "News"), tt, []) /\
  EmailAgent._process_email
    "m2" tt
  = (Ret (Some {| sender := "news@example.com"; subject := "Weekly";
                  summary := PStr ""; priority := PStr "Medium";
                  action_required := PBool true; meeting_info := PNone |}),
     tt, [Log ERROR "LLM request failed: Request timed out."]).
Proof.
  refine (conj eq_refl _).
  exact (X6_email_gateway_outage (lib := Demo.lib) (env := Cases.gateway_down)
           "m2" tt tt tt "news@example.com" "Weekly" "News" []
           Cases.gateway_timeout
           (Exn JSONDecodeError "Expecting value: line 1 column 1 (char 0)")
           eq_refl eq_refl eq_refl eq_refl).
Defined.

End GatewayDown.

Section Prose.
#[local] Existing Instance Demo.lib.
#[local] Existing Instance Cases.prose.

Lemma X11_witness :
  json_loads Demo.plain_reply
  = Raise (Exn JSONDecodeError "Expecting value: line 1 column 1 (char 0)") /\
  exists w3 t3,
    MeetingNotesAgent.execute WithRegistry.sample_transcript
      Demo.project_review tt
    = (Ret (Some {| meeting_id := "meeting123";
                    note_title := "Project Review";
                    date := Demo.now;
                    participants := ["john@company.com"; "sarah@company.com";
                                     "mike@company.com"];
                    note_summary := PStr Demo.plain_reply;
                    action_items := PList [];
                    key_decisions := PList [] |}), w3, t3).
Proof.
  refine (conj eq_refl _).
  exact (X11_notes_parse_failure_fallback (lib := Demo.lib)
           (env := Cases.prose) WithRegistry.sample_transcript
           Demo.project_review tt tt tt Demo.plain_reply []
           (Exn JSONDecodeError "Expecting value: line 1 column 1 (char 0)")
           Demo.now eq_refl eq_refl eq_refl eq_refl).
Defined.

End Prose.

Section Listing.
#[local] Existing Instance Demo.lib.
#[local] Existing Instance Cases.listing.

Lemma X12_witness :
  json_loads "[]" = Ret (PList []) /\
  MeetingNotesAgent.execute WithRegistry.sample_transcript
    Demo.project_review tt
  = (Ret None, tt,
     [Log ERROR
        "Meeting notes processing failed: 'list' object has no attribute 'get'"]).
Proof.
  refine (conj eq_refl _).
  exact (X12_notes_not_an_object (lib := Demo.lib) (env := Cases.listing)
           WithRegistry.sample_transcript Demo.project_review tt tt tt
           "[]" [] (PList []) Demo.now eq_refl eq_refl
           (fun d (E : PList [] = PDict d) =>
              eq_ind (PList []) (fun v => match v with
                                          | PList _ => True
                                          | _ => False
                                          end) I (PDict d) E)
           eq_refl).
Defined.

Lemma X22_witness :
  value (MeetingNotesAgent.execute WithRegistry.sample_transcript
           Demo.project_review tt) = Ret None /\
  AgenticWorkSystem.process_meeting_transcript WithRegistry.sample_transcript
    Demo.project_review tt
  = MeetingNotesAgent.execute WithRegistry.sample_transcript
      Demo.project_review tt.
Proof.
  refine (conj eq_refl _).
  exact (proj2 (X22_transcript_without_note (lib := Demo.lib)
                  (env := Cases.listing) WithRegistry.sample_transcript
                  Demo.project_review tt) eq_refl).
Defined.

End Listing.

Section ChatDown.
#[local] Existing Instance Demo.lib.
#[local] Existing Instance Demo.network_down.

Lemma X18_witness :
  let delta := minutes 15 in
  let text :=
    NotificationAgent.urgent_prefix
    ++ AgenticWorkSystem.reminder_msg Demo.standup delta in
  let rest := AgenticWorkSystem._schedule_meeting_reminders [Demo.lunch] tt in
  time_left Demo.standup Demo.now = Some delta /\
  in_window delta /\
  AgenticWorkSystem._schedule_meeting_reminders [Demo.standup; Demo.lunch] tt
  = (Ret tt, world rest,
     PostMessage "#general" text "AI Assistant"
     :: Log ERROR
          ("Failed to schedule reminder for Standup: "
           ++ exn_str Demo.connection_refused)
     :: calls rest).
Proof.
  intros delta text rest.
  assert (I : in_window delta) by (unfold delta, in_window, minutes; lia).
  refine (conj eq_refl (conj I _)).
  exact (X18_reminder_failure_contained (lib := Demo.lib)
           (env := Demo.network_down) Demo.standup [Demo.lunch] Demo.now
           delta tt tt tt Demo.connection_refused eq_refl eq_refl I eq_refl).
Defined.

Lemma X21_witness :
  let run :=
    MeetingNotesAgent.execute WithRegistry.sample_transcript
      Demo.project_review tt in
  run = (Ret (Some Demo.project_note), tt, calls run) /\
  AgenticWorkSystem.process_meeting_transcript WithRegistry.sample_transcript
    Demo.project_review tt
  = (Ret None, tt,
     (calls run
      ++ [PostMessage "#general" (completion_notice Demo.project_note)
            "AI Assistant";
          Log ERROR ("Meeting transcript processing failed: "
                     ++ exn_str Demo.connection_refused)])%list).
Proof.
  intros run.
  refine (conj eq_refl _).
  exact (X21_notice_failure_loses_note (lib := Demo.lib)
           (env := Demo.network_down) WithRegistry.sample_transcript
           Demo.project_review tt tt tt Demo.project_note (calls run)
           Demo.connection_refused eq_refl eq_refl
           (fun E : OtherError = SlackApiError =>
              eq_ind OtherError (fun c => match c with
                                          | OtherError => True
                                          | _ => False
                                          end) I SlackApiError E)).
Defined.

End ChatDown.

Section Offline.
#[local] Existing Instance Demo.lib.
#[local] Existing Instance Demo.offline.

Lemma X19_witness :
  let e := Exn OtherError "HttpError 401: Invalid Credentials" in
  messages_list 10 tt = (Raise e, tt) /\
  AgenticWorkSystem.run_daily_workflow tt
  = (Ret tt, tt,
     [Log INFO "Starting daily workflow...";
      Log ERROR "Email processing failed: HttpError 401: Invalid Credentials";
      Log ERROR
        "Calendar processing failed: HttpError 401: Invalid Credentials";
      PostMessage "#general" AgenticWorkSystem.header "AI Assistant";
      Log INFO "Notification sent to Slack: 1705312800.000100";
      Log INFO "Daily workflow completed successfully"]).
Proof.
  intros e.
  refine (conj eq_refl _).
  exact (X19_outage_gives_header_digest (lib := Demo.lib)
           (env := Demo.offline) tt tt tt tt e e
           {| ts := Some "1705312800.000100" |}
           eq_refl eq_refl eq_refl).
Defined.

End Offline.

Section NoDocs.
#[local] Existing Instance Demo.lib.
#[local] Existing Instance Demo.docs_down.

Lemma X20_witness :
  let d := [("summary", PStr "Timeline reviewed");
            ("action_items",
             PList [PStr "Mike: backend"; PStr "John: follow-up"])] in
  let e := Exn OtherError "HttpError 503: The service is unavailable." in
  drafted_note WithRegistry.sample_transcript Demo.project_review tt
  = (Ret (Demo.project_note, d), tt, []) /\
  documents_create (doc_title_of Demo.project_note) tt = (Raise e, tt) /\
  AgenticWorkSystem.process_meeting_transcript WithRegistry.sample_transcript
    Demo.project_review tt
  = (Ret (Some Demo.project_note), tt,
     [DocCreate "Meeting Notes - Project Review - 2024-01-15";
      Log ERROR
        "Failed to save to Google Docs: HttpError 503: The service is unavailable.";
      PostMessage "#general" (completion_notice Demo.project_note)
        "AI Assistant";
      Log INFO "Notification sent to Slack: 1705312800.000100"]).
Proof.
  intros d e.
  refine (conj eq_refl (conj eq_refl _)).
  exact (X20_notice_sent_when_save_failed (lib := Demo.lib)
           (env := Demo.docs_down) WithRegistry.sample_transcript
           Demo.project_review tt tt tt tt Demo.project_note d [] e
           {| ts := Some "1705312800.000100" |} eq_refl eq_refl eq_refl).
Defined.

End NoDocs.

Section Imported.
#[local] Existing Instance Demo.lib.
#[local] Existing Instance Demo.office.
#[local] Existing Instance Cases.imported.

Lemma X27_witness :
  os_module = false /\
  exists e,
    value (WithRegistry.initialize WithRegistry.main_config (new_system, tt))
    = Raise e /\
    e = Exn OtherError "name 'os' is not defined".
Proof.
  refine (conj eq_refl _).
  destruct (X27_initialize_without_os (st := Cases.imported)
              WithRegistry.main_config new_system tt eq_refl)
    as (e & V & N).
  exists e. split; [exact V|].
  exact (N {| base_url := "http://localhost:5000" |} tt
           "path/to/google_credentials.json" eq_refl eq_refl).
Defined.

End Imported.

Section Script.
#[local] Existing Instance Demo.lib.
#[local] Existing Instance Demo.office.
#[local] Existing Instance Cases.script.

(** The script on an ordinary day: the start-up leaves the object ready,
    and [main] prints the summary of the note after the digest, the two
    reminders and the notice. *)
Example script_main :
  WithRegistry.initialize WithRegistry.main_config (new_system, tt)
  = (Ret tt, (Cases.started, tt),
     [Log INFO "Agentic work system initialized successfully"]) /\
  value (WithRegistry.main tt)
  = Ret (Some "Meeting notes created: Timeline reviewed") /\
  length (posts (calls (WithRegistry.main tt))) = 4.
Proof. vm_compute. repeat split. Qed.

End Script.
